(** * Daily digest bot: collector, summarizer and Teams formatter

    A shallow embedding of the three Python modules of the repository

      - [collectors/github_collector.py]   (class [GithubCollector])
      - [utils/ai_summarizer.py]           (class [BedrockSummarizer])
      - [formatters/teams_formatter.py]    (class [TeamsFormatter])

    followed by the properties of the specification, each stated over the
    embedded functions.

    Conventions of the embedding.

    - A Python [str] is a list of Unicode code points ([pystr]); [len] is
      the length of that list.  Literals of the source are written with
      [lit] and, for the pictographs in the card texts, with their code
      points.
    - Values that travel through [Dict[str, Any]] are [pyval]s.  A dict is
      an association list in insertion order, the order in which a dict
      literal of the source lists its keys.
    - Code that can raise returns a [result]; the collector and the
      summarizer, which also log and call services, run in the monad [M]
      that pairs the result with the trace of events.
    - A method reads [self] and never assigns one of its attributes (only
      [__init__] does), so [self] is passed as a read-only record. *)

From Stdlib Require Import String Ascii DecimalString.
From Stdlib Require Import ZArith NArith List Bool Lia.
Import ListNotations.

Set Implicit Arguments.

(* ===================================================================== *)
(** * Python values and the operations the modules use                    *)
(* ===================================================================== *)

Module Py.

Definition pystr := list N.

(** An ASCII literal of the source as a Python string. *)
Definition lit (s : string) : pystr := map N_of_ascii (list_ascii_of_string s).

#[warning="-register-all"] Inductive pyval : Type :=
| PNone
| PBool (b : bool)
| PInt (z : Z)
| PStr (s : pystr)
| PList (xs : list pyval)
| PDict (kvs : list (pystr * pyval)).

(** Exceptions: all are subclasses of [Exception]; [ExternalError] stands
    for whatever a service client raises (network, authentication, rate
    limit). [exn_message] is what [str(e)] gives. *)
Inductive exn_kind :=
| AttributeError | KeyError | IndexError | TypeError | AssertionError
| ExternalError.

Record exn := Exn { exn_kind_of : exn_kind; exn_message : pystr }.

Inductive result (A : Type) : Type :=
| Ok (a : A)
| Raise (e : exn).

Arguments Ok {A} a.
Arguments Raise {A} e.

Definition bind {A B} (m : result A) (k : A -> result B) : result B :=
  match m with
  | Ok a => k a
  | Raise e => Raise e
  end.

Declare Scope py_scope.
Delimit Scope py_scope with py.
Notation "x <- m ;; k" := (bind m (fun x => k))
  (at level 100, m at next level, right associativity) : py_scope.
Local Open Scope py_scope.

(** A [for] loop whose body updates the loop state [s] and may raise. *)
Fixpoint for_each {S A} (xs : list A) (s : S) (f : S -> A -> result S)
  : result S :=
  match xs with
  | [] => Ok s
  | x :: rest => s' <- f s x ;; for_each rest s' f
  end.

(** ** Strings *)

Fixpoint str_eqb (a b : pystr) : bool :=
  match a, b with
  | [], [] => true
  | x :: a', y :: b' => N.eqb x y && str_eqb a' b'
  | _, _ => false
  end.

Fixpoint starts_with (p s : pystr) : bool :=
  match p, s with
  | [], _ => true
  | x :: p', y :: s' => N.eqb x y && starts_with p' s'
  | _ :: _, [] => false
  end.

Definition ends_with (p s : pystr) : bool := starts_with (rev p) (rev s).

(** [needle in hay] for two strings. *)
Fixpoint str_contains (needle hay : pystr) : bool :=
  starts_with needle hay ||
  match hay with
  | [] => false
  | _ :: hay' => str_contains needle hay'
  end.

(** [sep.join(xs)] for strings. *)
Fixpoint join (sep : pystr) (xs : list pystr) : pystr :=
  match xs with
  | [] => []
  | [x] => x
  | x :: rest => x ++ sep ++ join sep rest
  end.

(** [s.split(c)] for a one-character separator: never the empty list. *)
Fixpoint split_on (c : N) (s : pystr) : list pystr :=
  match s with
  | [] => [[]]
  | x :: s' =>
      if N.eqb x c then [] :: split_on c s'
      else match split_on c s' with
           | [] => [[x]]
           | w :: ws => (x :: w) :: ws
           end
  end.

(** [str.isspace] for one code point (the White_Space and bidirectional
    separator code points CPython strips). *)
Definition isspace (c : N) : bool :=
  ((9 <=? c) && (c <=? 13) || (28 <=? c) && (c <=? 32) ||
   (c =? 133) || (c =? 160) || (c =? 5760) ||
   (8192 <=? c) && (c <=? 8202) || (c =? 8232) || (c =? 8233) ||
   (c =? 8239) || (c =? 8287) || (c =? 12288))%N.

Fixpoint lstrip (s : pystr) : pystr :=
  match s with
  | c :: s' => if isspace c then lstrip s' else s
  | [] => []
  end.

(** [s.strip()]. *)
Definition strip (s : pystr) : pystr := rev (lstrip (rev (lstrip s))).

(** [str(z)] for an int. *)
Definition dec (z : Z) : pystr := lit (NilZero.string_of_int (Z.to_int z)).

(** ** Dates *)

(** A [datetime]: the wall-clock reading in microseconds and, for an aware
    value, the offset of its [tzinfo] from UTC in microseconds. *)
Record DateTime := { wall_us : Z; tzinfo : option Z }.

Definition day_us : Z := 86400 * 1000000.

(** What the interpreter and its Unicode tables decide: [repr] of a [str],
    [str.lower] and [datetime.strftime]. *)
Class PyRuntime := {
  repr_str : pystr -> pystr;
  str_lower : pystr -> pystr;
  strftime : DateTime -> pystr -> pystr
}.

(** ** Dynamic operations *)

Definition type_name (v : pyval) : pystr :=
  match v with
  | PNone => lit "NoneType"
  | PBool _ => lit "bool"
  | PInt _ => lit "int"
  | PStr _ => lit "str"
  | PList _ => lit "list"
  | PDict _ => lit "dict"
  end.

Definition no_attribute {A} (v : pyval) (attr : string) : result A :=
  Raise (Exn AttributeError
           (lit "'" ++ type_name v ++ lit "' object has no attribute '"
              ++ lit attr ++ lit "'")).

Definition type_error {A} (msg : pystr) : result A := Raise (Exn TypeError msg).

Definition not_subscriptable {A} (v : pyval) : result A :=
  type_error (lit "'" ++ type_name v ++ lit "' object is not subscriptable").

(** Truth value of [v] in a condition. *)
Definition truthy (v : pyval) : bool :=
  match v with
  | PNone => false
  | PBool b => b
  | PInt z => negb (Z.eqb z 0)
  | PStr s => match s with [] => false | _ => true end
  | PList xs => match xs with [] => false | _ => true end
  | PDict kvs => match kvs with [] => false | _ => true end
  end.

Fixpoint dict_lookup (kvs : list (pystr * pyval)) (k : pystr) : option pyval :=
  match kvs with
  | [] => None
  | (k', v) :: rest => if str_eqb k' k then Some v else dict_lookup rest k
  end.

(** [v.get(k, default)]. *)
Definition py_get (v : pyval) (k : string) (default : pyval) : result pyval :=
  match v with
  | PDict kvs =>
      match dict_lookup kvs (lit k) with
      | Some x => Ok x
      | None => Ok default
      end
  | _ => no_attribute v "get"
  end.

Section WithRuntime.
Context {rt : PyRuntime}.

(** [repr(v)]. *)
Fixpoint py_repr (v : pyval) : pystr :=
  match v with
  | PNone => lit "None"
  | PBool true => lit "True"
  | PBool false => lit "False"
  | PInt z => dec z
  | PStr s => repr_str s
  | PList xs => lit "[" ++ join (lit ", ") (map py_repr xs) ++ lit "]"
  | PDict kvs =>
      lit "{"
        ++ join (lit ", ")
             (map (fun kv => repr_str (fst kv) ++ lit ": " ++ py_repr (snd kv))
                kvs)
        ++ lit "}"
  end.

(** [str(v)], which is what a replacement field [{v}] of an f-string
    inserts. *)
Definition py_str (v : pyval) : pystr :=
  match v with
  | PStr s => s
  | _ => py_repr v
  end.

(** [v[k]] for a string key. *)
Definition py_getitem (v : pyval) (k : string) : result pyval :=
  match v with
  | PDict kvs =>
      match dict_lookup kvs (lit k) with
      | Some x => Ok x
      | None => Raise (Exn KeyError (repr_str (lit k)))
      end
  | PStr _ => type_error (lit "string indices must be integers, not 'str'")
  | PList _ => type_error (lit "list indices must be integers or slices, not str")
  | _ => not_subscriptable v
  end.

End WithRuntime.

(** [v[0]]. *)
Definition py_index0 (v : pyval) : result pyval :=
  match v with
  | PList (x :: _) => Ok x
  | PList [] => Raise (Exn IndexError (lit "list index out of range"))
  | PStr (c :: _) => Ok (PStr [c])
  | PStr [] => Raise (Exn IndexError (lit "string index out of range"))
  | PDict _ => Raise (Exn KeyError (lit "0"))
  | _ => not_subscriptable v
  end.

(** [v[-1]]. *)
Definition py_index_last (v : pyval) : result pyval :=
  match v with
  | PList [] => Raise (Exn IndexError (lit "list index out of range"))
  | PList xs => Ok (last xs PNone)
  | PStr [] => Raise (Exn IndexError (lit "string index out of range"))
  | PStr s => Ok (PStr [last s 0%N])
  | PDict _ => Raise (Exn KeyError (lit "-1"))
  | _ => not_subscriptable v
  end.

(** [v.values()]. *)
Definition py_values (v : pyval) : result (list pyval) :=
  match v with
  | PDict kvs => Ok (map snd kvs)
  | _ => no_attribute v "values"
  end.

(** [any(xs)] over values already produced. *)
Definition py_any (xs : list pyval) : bool := existsb truthy xs.

(** [len(v)]. *)
Definition py_len (v : pyval) : result nat :=
  match v with
  | PStr s => Ok (length s)
  | PList xs => Ok (length xs)
  | PDict kvs => Ok (length kvs)
  | _ => type_error (lit "object of type '" ++ type_name v ++ lit "' has no len()")
  end.

(** [v[:n]]. A dict cannot be sliced. *)
Definition py_slice_to (n : nat) (v : pyval) : result pyval :=
  match v with
  | PStr s => Ok (PStr (firstn n s))
  | PList xs => Ok (PList (firstn n xs))
  | PDict _ => type_error (lit "unhashable type: 'slice'")
  | _ => not_subscriptable v
  end.

(** The items a [for] loop over [v] visits. *)
Definition py_iter (v : pyval) : result (list pyval) :=
  match v with
  | PList xs => Ok xs
  | PStr s => Ok (map (fun c => PStr [c]) s)
  | PDict kvs => Ok (map (fun kv => PStr (fst kv)) kvs)
  | _ => type_error (lit "'" ++ type_name v ++ lit "' object is not iterable")
  end.

(** [v == s] for a string literal [s]. *)
Definition is_str (v : pyval) (s : pystr) : bool :=
  match v with
  | PStr t => str_eqb t s
  | _ => false
  end.

(** [v in [s1, ..., sn]] for string literals. *)
Definition py_in_literals (v : pyval) (ss : list string) : bool :=
  existsb (fun s => is_str v (lit s)) ss.

(** [k in v] for a string literal [k]. *)
Definition py_contains (k : string) (v : pyval) : result bool :=
  match v with
  | PDict kvs => Ok (existsb (fun kv => str_eqb (fst kv) (lit k)) kvs)
  | PList xs => Ok (existsb (fun x => is_str x (lit k)) xs)
  | PStr s => Ok (str_contains (lit k) s)
  | _ => type_error (lit "argument of type '" ++ type_name v ++ lit "' is not iterable")
  end.

(** The strings of the items that [join] is given; [i] is the position of
    the first item of [xs] in the sequence. *)
Fixpoint all_strs_from (i : nat) (xs : list pyval) : result (list pystr) :=
  match xs with
  | [] => Ok []
  | PStr s :: rest => ss <- all_strs_from (S i) rest ;; Ok (s :: ss)
  | v :: _ =>
      type_error (lit "sequence item " ++ dec (Z.of_nat i)
                    ++ lit ": expected str instance, " ++ type_name v
                    ++ lit " found")
  end.

Definition all_strs (xs : list pyval) : result (list pystr) := all_strs_from 0 xs.

(** [sep.join(v)]. *)
Definition py_join (sep : pystr) (v : pyval) : result pystr :=
  xs <- py_iter v ;;
  ss <- all_strs xs ;;
  Ok (join sep ss).

(** [v + s] for a string literal [s]. *)
Definition py_add_lit (v : pyval) (s : string) : result pyval :=
  match v with
  | PStr t => Ok (PStr (t ++ lit s))
  | PList _ =>
      type_error (lit "can only concatenate list (not " ++ [34%N] ++ lit "str"
                    ++ [34%N] ++ lit ") to list")
  | _ =>
      type_error (lit "unsupported operand type(s) for +: '" ++ type_name v
                    ++ lit "' and 'str'")
  end.

End Py.

(* ===================================================================== *)
(** * teams_formatter.py                                                  *)
(* ===================================================================== *)

Module TeamsFormatter.
Import Py.
Local Open Scope py_scope.

(** [__init__]: the formatter keeps the team name. *)
Record TeamsFormatter := { team_name : pystr }.

(** ** Dict literals of the card *)

Definition entry (k : string) (v : pyval) : pystr * pyval := (lit k, v).
Definition wrap : pystr * pyval := entry "wrap" (PBool true).
Definition isSubtle : pystr * pyval := entry "isSubtle" (PBool true).
Definition weight (s : string) : pystr * pyval := entry "weight" (PStr (lit s)).
Definition size (s : string) : pystr * pyval := entry "size" (PStr (lit s)).
Definition spacing (s : string) : pystr * pyval := entry "spacing" (PStr (lit s)).

(** [{"type": "TextBlock", "text": text, ...attrs}]. *)
Definition TextBlock (text : pyval) (attrs : list (pystr * pyval)) : pyval :=
  PDict (entry "type" (PStr (lit "TextBlock")) :: entry "text" text :: attrs).

(** [{"type": "ActionSet", "actions": [{"type": "Action.OpenUrl", ...}]}]. *)
Definition ActionSet (title : string) (url : pyval) : pyval :=
  PDict [entry "type" (PStr (lit "ActionSet"));
         entry "actions"
           (PList [PDict [entry "type" (PStr (lit "Action.OpenUrl"));
                          entry "title" (PStr (lit title));
                          entry "url" url]])].

(** The card around a body, as [format_daily_digest] creates it. *)
Definition card_of (body : list pyval) : pyval :=
  PDict [entry "type" (PStr (lit "message"));
         entry "attachments"
           (PList [PDict [entry "contentType"
                            (PStr (lit "application/vnd.microsoft.card.adaptive"));
                          entry "content"
                            (PDict [entry "type" (PStr (lit "AdaptiveCard"));
                                    entry "body" (PList body);
                                    entry "$schema"
                                      (PStr (lit "http://adaptivecards.io/schemas/adaptive-card.json"));
                                    entry "version" (PStr (lit "1.2"))])]])].

(** [card["attachments"][0]["content"]["body"]], read back from a card. *)
Definition card_body (card : pyval) : list pyval :=
  match card with
  | PDict kvs =>
      match dict_lookup kvs (lit "attachments") with
      | Some (PList (PDict att :: _)) =>
          match dict_lookup att (lit "content") with
          | Some (PDict content) =>
              match dict_lookup content (lit "body") with
              | Some (PList body) => body
              | _ => []
              end
          | _ => []
          end
      | _ => []
      end
  | _ => []
  end.

(** Code points of the pictographs in the texts. *)
Definition bullet : N := 0x2022.
Definition check_mark : N := 0x2705.

(** The block of the last branch of [format_daily_digest]. *)
Definition quiet_text : pystr :=
  lit "No updates found for today. It's a quiet day! " ++ [0x1F60A%N].

Definition quiet_block : pyval :=
  TextBlock (PStr quiet_text) [wrap; spacing "Medium"].

Section WithRuntime.
Context {rt : PyRuntime}.

(** [_add_jira_section(card, jira_data)]; [body] is
    [card["attachments"][0]["content"]["body"]], returned after the
    appends. *)
Definition _add_jira_section (body : list pyval) (jira_data : pyval)
  : result (list pyval) :=
  let body := body ++
    [TextBlock (PStr ([0x1F9E9%N] ++ lit " Jira Updates"))
       [weight "Bolder"; size "Medium"; spacing "Medium"]] in
  (* new tickets *)
  new_tickets <- py_get jira_data "new_tickets" (PList []) ;;
  body <-
    (if truthy new_tickets then
       n <- py_len new_tickets ;;
       let body := body ++
         [TextBlock (PStr ([0x1F4E5%N] ++ lit " " ++ dec (Z.of_nat n)
                             ++ lit " new tickets were created yesterday:"))
            [wrap]] in
       shown <- py_slice_to 5 new_tickets ;;
       tickets <- py_iter shown ;;
       body <- for_each tickets body (fun body ticket =>
         k <- py_getitem ticket "key" ;;
         s <- py_getitem ticket "summary" ;;
         st <- py_getitem ticket "status" ;;
         Ok (body ++
           [TextBlock (PStr ([bullet] ++ lit " " ++ py_str k ++ lit ": "
                               ++ py_str s ++ lit " (" ++ py_str st ++ lit ")"))
              [wrap]])) ;;
       n <- py_len new_tickets ;;
       if (5 <? n)%nat then
         n <- py_len new_tickets ;;
         Ok (body ++
           [TextBlock (PStr (lit "...and " ++ dec (Z.of_nat n - 5)
                               ++ lit " more new tickets"))
              [isSubtle; wrap]])
       else Ok body
     else
       Ok (body ++
         [TextBlock (PStr (lit "No new tickets created yesterday.")) [wrap]])) ;;
  (* blocked tasks *)
  blocked_tasks <- py_get jira_data "blocked_tasks" (PList []) ;;
  body <-
    (if truthy blocked_tasks then
       n <- py_len blocked_tasks ;;
       let body := body ++
         [TextBlock (PStr ([0x26A0%N; 0xFE0F%N] ++ lit " " ++ dec (Z.of_nat n)
                             ++ lit " tasks are currently blocked:"))
            [wrap; spacing "Medium"]] in
       shown <- py_slice_to 5 blocked_tasks ;;
       tasks <- py_iter shown ;;
       body <- for_each tasks body (fun body task =>
         k <- py_getitem task "key" ;;
         s <- py_getitem task "summary" ;;
         a <- py_getitem task "assignee" ;;
         Ok (body ++
           [TextBlock (PStr ([bullet] ++ lit " " ++ py_str k ++ lit ": "
                               ++ py_str s ++ lit " (Assigned to: "
                               ++ py_str a ++ lit ")"))
              [wrap]])) ;;
       n <- py_len blocked_tasks ;;
       if (5 <? n)%nat then
         n <- py_len blocked_tasks ;;
         Ok (body ++
           [TextBlock (PStr (lit "...and " ++ dec (Z.of_nat n - 5)
                               ++ lit " more blocked tasks"))
              [isSubtle; wrap]])
       else Ok body
     else Ok body) ;;
  (* recently completed tasks *)
  status_changes <- py_get jira_data "status_changes" (PList []) ;;
  if truthy status_changes then
    changes <- py_iter status_changes ;;
    completed <- for_each changes [] (fun completed change =>
      scs_v <- py_get change "status_changes" (PList []) ;;
      scs <- py_iter scs_v ;;
      for_each scs completed (fun completed sc =>
        to <- py_get sc "to" PNone ;;
        if py_in_literals to ["Done"; "Closed"; "Resolved"]%string then
          k <- py_getitem change "key" ;;
          s <- py_getitem change "summary" ;;
          a <- py_getitem sc "author" ;;
          t <- py_getitem sc "time" ;;
          Ok (completed ++
            [PDict [entry "key" k; entry "summary" s;
                    entry "author" a; entry "time" t]])
        else Ok completed)) ;;
    match completed with
    | [] => Ok body
    | _ :: _ =>
        let body := body ++
          [TextBlock (PStr ([check_mark] ++ lit " "
                              ++ dec (Z.of_nat (length completed))
                              ++ lit " tasks were completed yesterday:"))
             [wrap; spacing "Medium"]] in
        body <- for_each (firstn 5 completed) body (fun body task =>
          k <- py_getitem task "key" ;;
          s <- py_getitem task "summary" ;;
          a <- py_getitem task "author" ;;
          Ok (body ++
            [TextBlock (PStr ([bullet] ++ lit " " ++ py_str k ++ lit ": "
                                ++ py_str s ++ lit " (by " ++ py_str a
                                ++ lit ")"))
               [wrap]])) ;;
        if (5 <? length completed)%nat then
          Ok (body ++
            [TextBlock (PStr (lit "...and "
                                ++ dec (Z.of_nat (length completed) - 5)
                                ++ lit " more completed tasks"))
               [isSubtle; wrap]])
        else Ok body
    end
  else Ok body.

(** [_add_github_section(card, github_data)]. *)
Definition _add_github_section (body : list pyval) (github_data : pyval)
  : result (list pyval) :=
  let body := body ++
    [TextBlock (PStr ([0x1F6E0%N; 0xFE0F%N] ++ lit " GitHub Activity"))
       [weight "Bolder"; size "Medium"; spacing "Medium"]] in
  (* open PRs *)
  open_prs <- py_get github_data "open_prs" (PList []) ;;
  body <-
    (if truthy open_prs then
       n <- py_len open_prs ;;
       let body := body ++
         [TextBlock (PStr ([0x1F504%N] ++ lit " " ++ dec (Z.of_nat n)
                             ++ lit " open pull requests waiting for review:"))
            [wrap]] in
       shown <- py_slice_to 5 open_prs ;;
       prs <- py_iter shown ;;
       body <- for_each prs body (fun body pr =>
         let reviewer_text := [] in
         has_reviewers <- py_get pr "reviewers" PNone ;;
         reviewer_text <-
           (if truthy has_reviewers then
              rs <- py_getitem pr "reviewers" ;;
              first2 <- py_slice_to 2 rs ;;
              joined <- py_join (lit ", ") first2 ;;
              let reviewer_text := lit " (Reviewers: " ++ joined ++ lit ")" in
              rs <- py_getitem pr "reviewers" ;;
              m <- py_len rs ;;
              if (2 <? m)%nat then
                rs <- py_getitem pr "reviewers" ;;
                m <- py_len rs ;;
                Ok (reviewer_text ++ lit " +" ++ dec (Z.of_nat m - 2)
                      ++ lit " more")
              else Ok reviewer_text
            else Ok reviewer_text) ;;
         num <- py_getitem pr "number" ;;
         title <- py_getitem pr "title" ;;
         author <- py_getitem pr "author" ;;
         Ok (body ++
           [TextBlock (PStr ([bullet] ++ lit " #" ++ py_str num ++ lit ": "
                               ++ py_str title ++ lit " by " ++ py_str author
                               ++ reviewer_text))
              [wrap]])) ;;
       n <- py_len open_prs ;;
       if (5 <? n)%nat then
         n <- py_len open_prs ;;
         Ok (body ++
           [TextBlock (PStr (lit "...and " ++ dec (Z.of_nat n - 5)
                               ++ lit " more open PRs"))
              [isSubtle; wrap]])
       else Ok body
     else
       Ok (body ++
         [TextBlock (PStr (lit "No open pull requests waiting for review."))
            [wrap]])) ;;
  (* recent merges *)
  recent_merges <- py_get github_data "recent_merges" (PList []) ;;
  body <-
    (if truthy recent_merges then
       n <- py_len recent_merges ;;
       let body := body ++
         [TextBlock (PStr ([check_mark] ++ lit " " ++ dec (Z.of_nat n)
                             ++ lit " pull requests were merged yesterday:"))
            [wrap; spacing "Medium"]] in
       shown <- py_slice_to 5 recent_merges ;;
       prs <- py_iter shown ;;
       body <- for_each prs body (fun body pr =>
         num <- py_getitem pr "number" ;;
         title <- py_getitem pr "title" ;;
         author <- py_getitem pr "author" ;;
         Ok (body ++
           [TextBlock (PStr ([bullet] ++ lit " #" ++ py_str num ++ lit ": "
                               ++ py_str title ++ lit " by " ++ py_str author))
              [wrap]])) ;;
       n <- py_len recent_merges ;;
       if (5 <? n)%nat then
         n <- py_len recent_merges ;;
         Ok (body ++
           [TextBlock (PStr (lit "...and " ++ dec (Z.of_nat n - 5)
                               ++ lit " more merged PRs"))
              [isSubtle; wrap]])
       else Ok body
     else Ok body) ;;
  (* urgent commits *)
  urgent_commits <- py_get github_data "urgent_commits" (PList []) ;;
  if truthy urgent_commits then
    n <- py_len urgent_commits ;;
    let body := body ++
      [TextBlock (PStr ([0x1F6A8%N] ++ lit " " ++ dec (Z.of_nat n)
                          ++ lit " urgent commits detected yesterday:"))
         [wrap; spacing "Medium"]] in
    shown <- py_slice_to 5 urgent_commits ;;
    commits <- py_iter shown ;;
    body <- for_each commits body (fun body commit =>
      sha <- py_getitem commit "sha" ;;
      message <- py_getitem commit "message" ;;
      author <- py_getitem commit "author" ;;
      Ok (body ++
        [TextBlock (PStr ([bullet] ++ lit " " ++ py_str sha ++ lit ": "
                            ++ py_str message ++ lit " by " ++ py_str author))
           [wrap]])) ;;
    n <- py_len urgent_commits ;;
    if (5 <? n)%nat then
      n <- py_len urgent_commits ;;
      Ok (body ++
        [TextBlock (PStr (lit "...and " ++ dec (Z.of_nat n - 5)
                            ++ lit " more urgent commits"))
           [isSubtle; wrap]])
    else Ok body
  else Ok body.

(** [_add_pr_analyses_section(card, pr_analyses)]. *)
Definition _add_pr_analyses_section (body : list pyval) (pr_analyses : pyval)
  : result (list pyval) :=
  let body := body ++
    [TextBlock (PStr ([0x1F50D%N] ++ lit " Pull Request Analyses"))
       [weight "Bolder"; size "Medium"; spacing "Medium"]] in
  if negb (truthy pr_analyses) then
    Ok (body ++ [TextBlock (PStr (lit "No PR analyses available.")) [wrap]])
  else
    shown <- py_slice_to 3 pr_analyses ;;
    analyses <- py_iter shown ;;
    body <- for_each analyses body (fun body analysis =>
      pr_number <- py_get analysis "pr_number" PNone ;;
      repo <- py_get analysis "repo" (PStr []) ;;
      title <- py_get analysis "title" (PStr (lit "Untitled PR")) ;;
      author <- py_get analysis "author" (PStr (lit "Unknown")) ;;
      analysis_text <- py_get analysis "analysis"
                         (PStr (lit "No analysis available")) ;;
      url <- py_get analysis "url" (PStr []) ;;
      let body := body ++
        [TextBlock (PStr (lit "**PR #" ++ py_str pr_number ++ lit ": "
                            ++ py_str title ++ lit "**"))
           [weight "Bolder"; wrap; spacing "Medium"]] in
      let body := body ++
        [TextBlock (PStr (lit "Repository: " ++ py_str repo
                            ++ lit " | Author: " ++ py_str author))
           [isSubtle; wrap]] in
      let body := body ++ [TextBlock (PStr (lit "---")) [wrap]] in
      n <- py_len analysis_text ;;
      body <-
        (if (500 <? n)%nat then
           head <- py_slice_to 500 analysis_text ;;
           text <- py_add_lit head "..." ;;
           Ok (body ++ [TextBlock text [wrap]])
         else Ok (body ++ [TextBlock analysis_text [wrap]])) ;;
      if truthy url then
        Ok (body ++ [ActionSet "View Pull Request" url])
      else Ok body) ;;
    n <- py_len pr_analyses ;;
    if (3 <? n)%nat then
      n <- py_len pr_analyses ;;
      Ok (body ++
        [TextBlock (PStr (lit "...and " ++ dec (Z.of_nat n - 3)
                            ++ lit " more PR analyses"))
           [isSubtle; wrap; spacing "Small"]])
    else Ok body.

(** [_add_database_section(card, db_data)]. *)
Definition _add_database_section (body : list pyval) (db_data : pyval)
  : result (list pyval) :=
  activity_stats <- py_get db_data "activity_stats" (PDict []) ;;
  if negb (truthy activity_stats) then Ok body
  else
    let body := body ++
      [TextBlock (PStr ([0x1F4CA%N] ++ lit " Weekly Database Insights"))
         [weight "Bolder"; size "Medium"; spacing "Medium"]] in
    weekly_prs <- py_get activity_stats "weekly_prs" (PInt 0) ;;
    let weekly_stats_text :=
      [bullet] ++ lit " " ++ py_str weekly_prs ++ lit " PRs this week"
        ++ [10%N] in
    weekly_tickets <- py_get activity_stats "weekly_tickets" (PInt 0) ;;
    let weekly_stats_text := weekly_stats_text ++
      [bullet] ++ lit " " ++ py_str weekly_tickets ++ lit " tickets created"
        ++ [10%N] in
    weekly_completed <- py_get activity_stats "weekly_completed" (PInt 0) ;;
    let weekly_stats_text := weekly_stats_text ++
      [bullet] ++ lit " " ++ py_str weekly_completed
        ++ lit " tickets completed" ++ [10%N] in
    let body := body ++ [TextBlock (PStr weekly_stats_text) [wrap]] in
    team_metrics <- py_get db_data "team_metrics" (PDict []) ;;
    if truthy team_metrics then
      member_count <- py_get team_metrics "member_count" (PInt 0) ;;
      github_users <- py_get team_metrics "github_users" (PInt 0) ;;
      Ok (body ++
        [TextBlock (PStr (lit "Team size: " ++ py_str member_count
                            ++ lit " members | " ++ py_str github_users
                            ++ lit " using GitHub"))
           [wrap; isSubtle]])
    else Ok body.

(** The test [d and any(d.values())] of [format_daily_digest]. *)
Definition has_data (d : pyval) : result bool :=
  if truthy d then
    vs <- py_values d ;;
    Ok (py_any vs)
  else Ok false.

(** The test [not d or not any(d.values())] of [format_daily_digest]. *)
Definition no_data (d : pyval) : result bool :=
  if negb (truthy d) then Ok true
  else
    vs <- py_values d ;;
    Ok (negb (py_any vs)).

(** [format_daily_digest(data, ai_summary)]. *)
Definition format_daily_digest (self : TeamsFormatter) (data : pyval)
    (ai_summary : pystr) : result pyval :=
  let body : list pyval := [] in
  let body := body ++
    [TextBlock (PStr ([0x1F305%N] ++ lit " Good morning, " ++ team_name self
                        ++ lit "!"))
       [weight "Bolder"; size "Large"; wrap]] in
  let body := body ++
    [TextBlock (PStr (lit "Here's your daily project digest:")) [wrap]] in
  (* AI summary *)
  let body :=
    if truthy (PStr ai_summary) then
      (body ++
        [TextBlock (PStr ([0x1F4A1%N] ++ lit " AI Summary"))
           [weight "Bolder"; size "Medium"; spacing "Medium"]])
        ++ [TextBlock (PStr ai_summary) [wrap]]
    else body in
  (* Jira *)
  jira_data <- py_get data "jira" (PDict []) ;;
  jira_live <- has_data jira_data ;;
  body <- (if jira_live then _add_jira_section body jira_data else Ok body) ;;
  (* GitHub *)
  github_data <- py_get data "github" (PDict []) ;;
  github_live <- has_data github_data ;;
  body <-
    (if github_live then
       body <- _add_github_section body github_data ;;
       has_key <- py_contains "pr_analyses" github_data ;;
       if has_key then
         pr_analyses <- py_getitem github_data "pr_analyses" ;;
         if truthy pr_analyses then
           pr_analyses <- py_getitem github_data "pr_analyses" ;;
           _add_pr_analyses_section body pr_analyses
         else Ok body
       else Ok body
     else Ok body) ;;
  (* database *)
  db_data <- py_get data "database" (PDict []) ;;
  db_live <- has_data db_data ;;
  body <- (if db_live then _add_database_section body db_data else Ok body) ;;
  (* nothing found *)
  jira_quiet <- no_data jira_data ;;
  quiet <- (if jira_quiet then no_data github_data else Ok false) ;;
  let body := if quiet then body ++ [quiet_block] else body in
  Ok (card_of body).

End WithRuntime.

End TeamsFormatter.

(* ===================================================================== *)
(** * Logging and service calls                                            *)
(* ===================================================================== *)

Module Effects.
Import Py.

Inductive level := DEBUG | INFO | WARNING | ERROR.

(** What a run leaves behind besides its result: the records handed to
    the module's logger and the requests sent to the model service. *)
Inductive event :=
| Log (lvl : level) (msg : pystr)
| InvokeModel (modelId : pystr) (request_body : pyval).

Definition M (A : Type) : Type := list event * result A.

Definition ret {A} (a : A) : M A := ([], Ok a).

Definition raise {A} (e : exn) : M A := ([], Raise e).

Definition lift {A} (r : result A) : M A := ([], r).

Definition mbind {A B} (m : M A) (k : A -> M B) : M B :=
  match m with
  | (t, Ok a) => let (t', r) := k a in (t ++ t', r)
  | (t, Raise e) => (t, Raise e)
  end.

Declare Scope eff_scope.
Delimit Scope eff_scope with eff.
Notation "x <~ m ;; k" := (mbind m (fun x => k))
  (at level 100, m at next level, right associativity) : eff_scope.
Notation "m ;;; k" := (mbind m (fun _ => k))
  (at level 100, right associativity) : eff_scope.

Definition log (lvl : level) (msg : pystr) : M unit := ([Log lvl msg], Ok tt).

(** [try: m  except Exception as e: h e]. *)
Definition try_except {A} (m : M A) (h : exn -> M A) : M A :=
  match m with
  | (t, Ok a) => (t, Ok a)
  | (t, Raise e) => let (t', r) := h e in (t ++ t', r)
  end.

(** A [for] loop in [M]. *)
Fixpoint for_eachM {S A} (xs : list A) (s : S) (f : S -> A -> M S) : M S :=
  match xs with
  | [] => ret s
  | x :: rest => mbind (f s x) (fun s' => for_eachM rest s' f)
  end.

(** A lazily fetched sequence (a paginated list of the platform client):
    iteration yields [items] and then, when fetching a further page
    fails, raises [failure]. *)
Record Paginated (A : Type) := { items : list A; failure : option exn }.

Definition for_paginated {S A} (p : Paginated A) (s : S) (f : S -> A -> M S)
  : M S :=
  mbind (for_eachM (items p) s f) (fun s' =>
    match failure p with
    | None => ret s'
    | Some e => raise e
    end).

(** [os.getenv]. *)
Definition Env := pystr -> option pystr.

Definition getenv_or (env : Env) (k : string) (default : pystr) : pystr :=
  match env (lit k) with
  | Some v => v
  | None => default
  end.

Definition nl : pystr := [10%N].

End Effects.

(* ===================================================================== *)
(** * ai_summarizer.py                                                    *)
(* ===================================================================== *)

Module BedrockSummarizer.
Import Py Effects.
Local Open Scope py_scope.
Local Open Scope eff_scope.

(** The [bedrock-runtime] client: [invoke_model] takes the model id and
    the request body (before [json.dumps]) and gives the decoded response
    body ([json.loads(response.get('body').read())]) or raises. *)
Record BedrockClient := { invoke_model : pystr -> pyval -> result pyval }.

Record BedrockSummarizer := {
  aws_region : option pystr;
  model_id : option pystr;
  max_tokens : Z;
  client : option BedrockClient
}.

(** [__init__]; [session_client] is
    [boto3.Session(...).client('bedrock-runtime')] for the region and the
    credentials of the environment. *)
Definition __init__ (env : Env) (session_client : Env -> result BedrockClient)
  : M BedrockSummarizer :=
  let aws_region := env (lit "AWS_REGION") in
  let model_id := env (lit "BEDROCK_MODEL_ID") in
  let max_tokens := 1000%Z in
  client <~
    try_except
      (c <~ lift (session_client env) ;;
       log INFO (lit "Bedrock client initialized successfully") ;;;
       ret (Some c))
      (fun e =>
         log ERROR (lit "Failed to initialize Bedrock client: " ++ exn_message e) ;;;
         ret None) ;;
  ret {| aws_region := aws_region; model_id := model_id;
         max_tokens := max_tokens; client := client |}.

Section WithRuntime.
Context {rt : PyRuntime}.

(** [_build_pr_analysis_prompt(diff_data)]. *)
Definition _build_pr_analysis_prompt (diff_data : pyval) : result pystr :=
  title <- py_get diff_data "title" PNone ;;
  user <- py_get diff_data "user" PNone ;;
  body <- py_get diff_data "body" (PStr (lit "No description provided.")) ;;
  let prompt :=
    lit "You are a senior software engineer." ++ nl
      ++ lit "Summarize this pull request in plain English." ++ nl
      ++ lit "Then suggest 3-5 relevant unit test cases based on the logic in the diff."
      ++ nl ++ nl
      ++ lit "Pull Request: " ++ py_str title ++ nl
      ++ lit "Author: " ++ py_str user ++ nl
      ++ lit "Description: " ++ py_str body ++ nl
      ++ nl
      ++ lit "Changed files:" ++ nl in
  files_v <- py_get diff_data "files" (PList []) ;;
  files <- py_iter files_v ;;
  for_each files prompt (fun prompt file =>
    filename <- py_get file "filename" PNone ;;
    let prompt := prompt ++ nl ++ lit "File: " ++ py_str filename in
    status <- py_get file "status" PNone ;;
    let prompt := prompt ++ nl ++ lit "Status: " ++ py_str status in
    additions <- py_get file "additions" PNone ;;
    deletions <- py_get file "deletions" PNone ;;
    let prompt := prompt ++ nl ++ lit "Changes: +" ++ py_str additions
                    ++ lit " -" ++ py_str deletions ++ lit " lines" in
    patch <- py_get file "patch" PNone ;;
    small <- (if truthy patch then
                n <- py_len patch ;; Ok (n <? 3000)%nat
              else Ok false) ;;
    if small then
      Ok (prompt ++ nl ++ lit "```" ++ nl ++ py_str patch ++ nl ++ lit "```" ++ nl)
    else
      Ok (prompt ++ nl ++ lit "[Diff too large to include]" ++ nl)).

(** [generate_custom_text(prompt)]. *)
Definition generate_custom_text (self : BedrockSummarizer) (prompt : pystr)
  : M pyval :=
  match client self, model_id self with
  | Some bedrock, Some (c :: id) =>
      let model := c :: id in
      try_except
        (let request_body :=
           PDict [(lit "anthropic_version", PStr (lit "bedrock-2023-05-31"));
                  (lit "max_tokens", PInt (max_tokens self));
                  (lit "messages",
                   PList [PDict [(lit "role", PStr (lit "user"));
                                 (lit "content",
                                  PList [PDict [(lit "type", PStr (lit "text"));
                                                (lit "text", PStr prompt)]])]])] in
         response_body <~
           ([InvokeModel model request_body], invoke_model bedrock model request_body) ;;
         generated_text <~ lift (
           content <- py_get response_body "content" (PList [PDict []]) ;;
           first <- py_index0 content ;;
           py_get first "text" (PStr [])) ;;
         log INFO (lit "Successfully generated text with AI") ;;;
         ret generated_text)
        (fun e =>
           log ERROR (lit "Error generating text with Bedrock: " ++ exn_message e) ;;;
           ret (PStr (lit "Unable to generate text. Error: " ++ exn_message e)))
  | _, _ =>
      log ERROR (lit "Bedrock client not initialized or model ID not provided") ;;;
      ret (PStr (lit "Unable to generate text due to configuration issues."))
  end.

(** [analyze_pr_diff(diff_data)]. *)
Definition analyze_pr_diff (self : BedrockSummarizer) (diff_data : pyval)
  : M pyval :=
  prompt <~ lift (_build_pr_analysis_prompt diff_data) ;;
  generate_custom_text self prompt.

(** [generate_simple_summary(data, team_name)]. *)
Definition generate_simple_summary (self : BedrockSummarizer) (data : pyval)
    (team_name : pystr) : result pystr :=
  let summary_parts : list pystr := [] in
  (* counts from Jira *)
  jira_data <- py_get data "jira" (PDict []) ;;
  new_tickets <- py_get jira_data "new_tickets" (PList []) ;;
  new_tickets_count <- py_len new_tickets ;;
  blocked_tasks <- py_get jira_data "blocked_tasks" (PList []) ;;
  blocked_tasks_count <- py_len blocked_tasks ;;
  (* counts from GitHub *)
  github_data <- py_get data "github" (PDict []) ;;
  open_prs <- py_get github_data "open_prs" (PList []) ;;
  open_prs_count <- py_len open_prs ;;
  recent_merges <- py_get github_data "recent_merges" (PList []) ;;
  merged_prs_count <- py_len recent_merges ;;
  urgent_commits <- py_get github_data "urgent_commits" (PList []) ;;
  urgent_commits_count <- py_len urgent_commits ;;
  (* build summary *)
  let summary_parts :=
    if (0 <? new_tickets_count)%nat then
      summary_parts ++ [dec (Z.of_nat new_tickets_count)
                          ++ lit " new Jira tickets were created"]
    else summary_parts in
  let summary_parts :=
    if (0 <? blocked_tasks_count)%nat then
      summary_parts ++ [dec (Z.of_nat blocked_tasks_count)
                          ++ lit " tasks are currently blocked"]
    else summary_parts in
  let summary_parts :=
    if (0 <? open_prs_count)%nat then
      summary_parts ++ [dec (Z.of_nat open_prs_count)
                          ++ lit " pull requests are waiting for review"]
    else summary_parts in
  let summary_parts :=
    if (0 <? merged_prs_count)%nat then
      summary_parts ++ [dec (Z.of_nat merged_prs_count)
                          ++ lit " pull requests were merged yesterday"]
    else summary_parts in
  let summary_parts :=
    if (0 <? urgent_commits_count)%nat then
      summary_parts ++ [dec (Z.of_nat urgent_commits_count)
                          ++ lit " urgent commits were made yesterday"]
    else summary_parts in
  match summary_parts with
  | [] =>
      Ok (lit "Good morning, " ++ team_name
            ++ lit "! No significant updates or issues to report today. Everything appears to be running smoothly.")
  | first :: _ =>
      let summary :=
        (lit "Here's today's update for " ++ team_name ++ lit ": ")
          ++ join (lit ", ") (removelast summary_parts) in
      let summary :=
        if (1 <? length summary_parts)%nat then
          summary ++ lit ", and " ++ last summary_parts [] ++ lit "."
        else summary ++ lit " " ++ first ++ lit "." in
      (* priority statement *)
      let summary :=
        if (0 <? blocked_tasks_count)%nat then
          summary ++ lit " Priority should be given to resolving the "
            ++ dec (Z.of_nat blocked_tasks_count) ++ lit " blocked tasks."
        else if (0 <? open_prs_count)%nat then
          summary ++ lit " Consider reviewing the open pull requests to keep development moving forward."
        else summary in
      Ok summary
  end.

(** [_format_jira_for_prompt(jira_data)]. *)
Definition _format_jira_for_prompt (jira_data : pyval) : result pystr :=
  let sections : list pystr := [] in
  (* new tickets *)
  new_tickets <- py_get jira_data "new_tickets" (PList []) ;;
  sections <-
    (if truthy new_tickets then
       n <- py_len new_tickets ;;
       let sections := sections ++
         [lit "NEW TICKETS (" ++ dec (Z.of_nat n) ++ lit "):"] in
       shown <- py_slice_to 5 new_tickets ;;
       tickets <- py_iter shown ;;
       sections <- for_each tickets sections (fun sections ticket =>
         key <- py_getitem ticket "key" ;;
         summary <- py_getitem ticket "summary" ;;
         status <- py_getitem ticket "status" ;;
         Ok (sections ++
           [lit "- " ++ py_str key ++ lit ": " ++ py_str summary
              ++ lit " (" ++ py_str status ++ lit ")"])) ;;
       n <- py_len new_tickets ;;
       if (5 <? n)%nat then
         n <- py_len new_tickets ;;
         Ok (sections ++
           [lit "- Plus " ++ dec (Z.of_nat n - 5) ++ lit " more new tickets"])
       else Ok sections
     else Ok (sections ++ [lit "NEW TICKETS: None in the last 24 hours"])) ;;
  (* status changes *)
  status_changes <- py_get jira_data "status_changes" (PList []) ;;
  sections <-
    (if truthy status_changes then
       n <- py_len status_changes ;;
       let sections := sections ++
         [nl ++ lit "STATUS CHANGES (" ++ dec (Z.of_nat n) ++ lit "):"] in
       shown <- py_slice_to 5 status_changes ;;
       changes <- py_iter shown ;;
       sections <- for_each changes sections (fun sections change =>
         history <- py_getitem change "status_changes" ;;
         last_change <- py_index_last history ;;
         key <- py_getitem change "key" ;;
         from <- py_getitem last_change "from" ;;
         to <- py_getitem last_change "to" ;;
         author <- py_getitem last_change "author" ;;
         Ok (sections ++
           [lit "- " ++ py_str key ++ lit ": Changed from '" ++ py_str from
              ++ lit "' to '" ++ py_str to ++ lit "' by " ++ py_str author])) ;;
       n <- py_len status_changes ;;
       if (5 <? n)%nat then
         n <- py_len status_changes ;;
         Ok (sections ++
           [lit "- Plus " ++ dec (Z.of_nat n - 5) ++ lit " more status changes"])
       else Ok sections
     else
       Ok (sections ++ [nl ++ lit "STATUS CHANGES: None in the last 24 hours"])) ;;
  (* blocked tasks *)
  blocked_tasks <- py_get jira_data "blocked_tasks" (PList []) ;;
  sections <-
    (if truthy blocked_tasks then
       n <- py_len blocked_tasks ;;
       let sections := sections ++
         [nl ++ lit "BLOCKED TASKS (" ++ dec (Z.of_nat n) ++ lit "):"] in
       shown <- py_slice_to 5 blocked_tasks ;;
       tasks <- py_iter shown ;;
       sections <- for_each tasks sections (fun sections task =>
         key <- py_getitem task "key" ;;
         summary <- py_getitem task "summary" ;;
         assignee <- py_getitem task "assignee" ;;
         Ok (sections ++
           [lit "- " ++ py_str key ++ lit ": " ++ py_str summary
              ++ lit " (Assigned to: " ++ py_str assignee ++ lit ")"])) ;;
       n <- py_len blocked_tasks ;;
       if (5 <? n)%nat then
         n <- py_len blocked_tasks ;;
         Ok (sections ++
           [lit "- Plus " ++ dec (Z.of_nat n - 5) ++ lit " more blocked tasks"])
       else Ok sections
     else Ok (sections ++ [nl ++ lit "BLOCKED TASKS: None currently"])) ;;
  Ok (join nl sections).

(** [_format_github_for_prompt(github_data)]. *)
Definition _format_github_for_prompt (github_data : pyval) : result pystr :=
  let sections : list pystr := [] in
  (* open PRs *)
  open_prs <- py_get github_data "open_prs" (PList []) ;;
  sections <-
    (if truthy open_prs then
       n <- py_len open_prs ;;
       let sections := sections ++
         [lit "OPEN PULL REQUESTS (" ++ dec (Z.of_nat n) ++ lit "):"] in
       shown <- py_slice_to 5 open_prs ;;
       prs <- py_iter shown ;;
       sections <- for_each prs sections (fun sections pr =>
         num <- py_getitem pr "number" ;;
         title <- py_getitem pr "title" ;;
         author <- py_getitem pr "author" ;;
         days_open <- py_getitem pr "days_open" ;;
         Ok (sections ++
           [lit "- #" ++ py_str num ++ lit " " ++ py_str title ++ lit " by "
              ++ py_str author ++ lit " (" ++ py_str days_open
              ++ lit " days open)"])) ;;
       n <- py_len open_prs ;;
       if (5 <? n)%nat then
         n <- py_len open_prs ;;
         Ok (sections ++
           [lit "- Plus " ++ dec (Z.of_nat n - 5) ++ lit " more open PRs"])
       else Ok sections
     else Ok (sections ++ [lit "OPEN PULL REQUESTS: None currently"])) ;;
  (* recent merges *)
  recent_merges <- py_get github_data "recent_merges" (PList []) ;;
  sections <-
    (if truthy recent_merges then
       n <- py_len recent_merges ;;
       let sections := sections ++
         [nl ++ lit "RECENT MERGES (" ++ dec (Z.of_nat n) ++ lit "):"] in
       shown <- py_slice_to 5 recent_merges ;;
       prs <- py_iter shown ;;
       sections <- for_each prs sections (fun sections pr =>
         num <- py_getitem pr "number" ;;
         title <- py_getitem pr "title" ;;
         author <- py_getitem pr "author" ;;
         Ok (sections ++
           [lit "- #" ++ py_str num ++ lit " " ++ py_str title ++ lit " by "
              ++ py_str author])) ;;
       n <- py_len recent_merges ;;
       if (5 <? n)%nat then
         n <- py_len recent_merges ;;
         Ok (sections ++
           [lit "- Plus " ++ dec (Z.of_nat n - 5) ++ lit " more recent merges"])
       else Ok sections
     else
       Ok (sections ++ [nl ++ lit "RECENT MERGES: None in the last 24 hours"])) ;;
  (* urgent commits *)
  urgent_commits <- py_get github_data "urgent_commits" (PList []) ;;
  sections <-
    (if truthy urgent_commits then
       n <- py_len urgent_commits ;;
       let sections := sections ++
         [nl ++ lit "URGENT COMMITS (" ++ dec (Z.of_nat n) ++ lit "):"] in
       shown <- py_slice_to 5 urgent_commits ;;
       commits <- py_iter shown ;;
       sections <- for_each commits sections (fun sections commit =>
         sha <- py_getitem commit "sha" ;;
         message <- py_getitem commit "message" ;;
         author <- py_getitem commit "author" ;;
         Ok (sections ++
           [lit "- " ++ py_str sha ++ lit " " ++ py_str message ++ lit " by "
              ++ py_str author])) ;;
       n <- py_len urgent_commits ;;
       if (5 <? n)%nat then
         n <- py_len urgent_commits ;;
         Ok (sections ++
           [lit "- Plus " ++ dec (Z.of_nat n - 5) ++ lit " more urgent commits"])
       else Ok sections
     else
       Ok (sections ++ [nl ++ lit "URGENT COMMITS: None in the last 24 hours"])) ;;
  Ok (join nl sections).

(** [_create_prompt(data, team_name)]. *)
Definition _create_prompt (data : pyval) (team_name : pystr) : result pystr :=
  jira_data <- py_get data "jira" (PDict []) ;;
  github_data <- py_get data "github" (PDict []) ;;
  jira_section <- _format_jira_for_prompt jira_data ;;
  github_section <- _format_github_for_prompt github_data ;;
  Ok (nl
        ++ lit "You are a helpful assistant for the " ++ team_name
        ++ lit " team. Your task is to create a concise, informative daily update based on the data below."
        ++ nl
        ++ lit "Focus on actionable insights and highlight the most important issues that need attention. Also mention any positive accomplishments."
        ++ nl ++ nl
        ++ lit "===== JIRA DATA =====" ++ nl
        ++ jira_section ++ nl
        ++ nl
        ++ lit "===== GITHUB DATA =====" ++ nl
        ++ github_section ++ nl
        ++ nl
        ++ lit "Based on this data, please provide:" ++ nl
        ++ lit "1. A brief summary (2-3 sentences) highlighting the most important information"
        ++ nl
        ++ lit "2. Key observations about current status and blockers" ++ nl
        ++ lit "3. Any connections between different issues (e.g., if GitHub commits relate to Jira tickets)"
        ++ nl
        ++ lit "4. Suggested priorities or actions for the team" ++ nl
        ++ nl
        ++ lit "Your response should be professional but friendly in tone, around 150-200 words total."
        ++ nl).

(** [generate_summary(data, team_name)]. The prompt is created before the
    [try] statement is entered. *)
Definition generate_summary (self : BedrockSummarizer) (data : pyval)
    (team_name : pystr) : M pyval :=
  match client self, model_id self with
  | Some bedrock, Some (c :: id) =>
      let model := c :: id in
      prompt <~ lift (_create_prompt data team_name) ;;
      log DEBUG (lit "Generated prompt for AI summary: " ++ prompt) ;;;
      try_except
        (let request_body :=
           PDict [(lit "anthropic_version", PStr (lit "bedrock-2023-05-31"));
                  (lit "max_tokens", PInt (max_tokens self));
                  (lit "messages",
                   PList [PDict [(lit "role", PStr (lit "user"));
                                 (lit "content",
                                  PList [PDict [(lit "type", PStr (lit "text"));
                                                (lit "text", PStr prompt)]])]])] in
         response_body <~
           ([InvokeModel model request_body], invoke_model bedrock model request_body) ;;
         summary <~ lift (
           content <- py_get response_body "content" (PList [PDict []]) ;;
           first <- py_index0 content ;;
           py_get first "text" (PStr [])) ;;
         log INFO (lit "Successfully generated AI summary") ;;;
         ret summary)
        (fun e =>
           log ERROR (lit "Error generating summary with Bedrock: " ++ exn_message e) ;;;
           ret (PStr (lit "Unable to generate AI summary. Error: " ++ exn_message e)))
  | _, _ =>
      log ERROR (lit "Bedrock client not initialized or model ID not provided") ;;;
      ret (PStr (lit "Unable to generate AI summary due to configuration issues."))
  end.

End WithRuntime.

End BedrockSummarizer.

(* ===================================================================== *)
(** * github_collector.py                                                 *)
(* ===================================================================== *)

Module GithubCollector.
Import Py Effects.
Local Open Scope Z_scope.
Local Open Scope py_scope.
Local Open Scope eff_scope.

(** ** The platform client, as far as the collector uses it *)

Record NamedUser := { login : pystr }.

Record File := {
  filename : pystr;
  status : pystr;
  additions : Z;
  deletions : Z;
  patch : option pystr
}.

Record PullRequest := {
  number : Z;
  title : pystr;
  html_url : pystr;
  user : option NamedUser;
  created_at : DateTime;
  merged : bool;
  merged_at : option DateTime;
  merged_by : option NamedUser;
  body : option pystr;
  (** [get_review_requests()[0]]: the requested users. *)
  get_review_requests : result (Paginated NamedUser);
  get_files : result (Paginated File)
}.

Record GitAuthor := { name : pystr; date : DateTime }.

Record GitCommit := { message : pystr; git_author : GitAuthor }.

Record Commit := {
  sha : pystr;
  commit_html_url : pystr;
  author : option NamedUser;
  commit : GitCommit
}.

Record Repository := {
  (** [get_pulls(state=..., sort=..., direction=...)]. *)
  get_pulls : pystr -> option pystr -> option pystr -> Paginated PullRequest;
  get_pull : Z -> result PullRequest;
  (** [get_commits(since=...)]. *)
  get_commits : DateTime -> Paginated Commit
}.

Record Github := { get_repo : pystr -> result Repository }.

(** What a run of the collector reads from outside: the environment, the
    constructor of the client, and the clock. *)
Record World := {
  environ : Env;
  Github_new : pystr -> result Github;
  utcnow_us : Z;
  local_offset_us : Z
}.

(** ** The names imported from [datetime] *)

(** Line 4 of the module is [from datetime import datetime, timedelta]:
    the name [datetime] is the class [datetime.datetime].  These are the
    attributes of that class; getting any other raises [AttributeError]. *)
Definition datetime_class_attributes : list string :=
  ["min"; "max"; "resolution"; "today"; "now"; "utcnow"; "fromtimestamp";
   "utcfromtimestamp"; "fromordinal"; "combine"; "fromisoformat";
   "fromisocalendar"; "strptime"; "year"; "month"; "day"; "hour"; "minute";
   "second"; "microsecond"; "tzinfo"; "fold"; "date"; "time"; "timetz";
   "replace"; "astimezone"; "utcoffset"; "dst"; "tzname"; "timetuple";
   "utctimetuple"; "toordinal"; "timestamp"; "weekday"; "isoweekday";
   "isocalendar"; "isoformat"; "ctime"; "strftime"]%string.

Definition datetime_getattr (attr : string) : result unit :=
  if existsb (String.eqb attr) datetime_class_attributes then Ok tt
  else Raise (Exn AttributeError
                (lit "type object 'datetime.datetime' has no attribute '"
                   ++ lit attr ++ lit "'")).

(** [datetime.now(tz)]. *)
Definition datetime_now (w : World) (tz : option Z) : DateTime :=
  {| wall_us := utcnow_us w + match tz with
                              | Some off => off
                              | None => local_offset_us w
                              end;
     tzinfo := tz |}.

(** [d - timedelta(days=n)]. *)
Definition minus_days (d : DateTime) (n : Z) : DateTime :=
  {| wall_us := wall_us d - n * day_us; tzinfo := tzinfo d |}.

(** [a - b] for two datetimes, in microseconds. *)
Definition datetime_sub (a b : DateTime) : result Z :=
  match tzinfo a, tzinfo b with
  | Some oa, Some ob => Ok ((wall_us a - oa) - (wall_us b - ob))
  | None, None => Ok (wall_us a - wall_us b)
  | _, _ => type_error (lit "can't subtract offset-naive and offset-aware datetimes")
  end.

(** [a > b] for two datetimes. *)
Definition datetime_gt (a b : DateTime) : result bool :=
  match tzinfo a, tzinfo b with
  | Some oa, Some ob => Ok (wall_us b - ob <? wall_us a - oa)
  | None, None => Ok (wall_us b <? wall_us a)
  | _, _ => type_error (lit "can't compare offset-naive and offset-aware datetimes")
  end.

(** [timedelta.days]. *)
Definition days (delta_us : Z) : Z := delta_us / day_us.

(** ** The collector *)

Record GithubCollector := {
  github_token : option pystr;
  repos : list pystr;
  ai_summarizer : option BedrockSummarizer.BedrockSummarizer;
  client : option Github
}.

(** [__init__]. *)
Definition __init__ (w : World) : M GithubCollector :=
  let github_token := environ w (lit "GITHUB_TOKEN") in
  let repos := split_on 44 (getenv_or (environ w) "GITHUB_REPOS" []) in
  let ai_summarizer := None in
  let client := None in
  client <~
    try_except
      (match github_token with
       | Some (c :: t) =>
           g <~ lift (Github_new w (c :: t)) ;;
           log INFO (lit "GitHub client initialized successfully") ;;;
           ret (Some g)
       | _ =>
           log WARNING (lit "GitHub token not provided. Set GITHUB_TOKEN in .env file.") ;;;
           ret client
       end)
      (fun e =>
         log ERROR (lit "Failed to initialize GitHub client: " ++ exn_message e) ;;;
         ret client) ;;
  ret {| github_token := github_token; repos := repos;
         ai_summarizer := ai_summarizer; client := client |}.

(** [self.repos] is the list of the empty string alone. *)
Definition is_blank_list (rs : list pystr) : bool :=
  match rs with
  | [[]] => true
  | _ => false
  end.

(** The guard of the operations: the client is unset, or no repository is
    configured ([self.repos] empty, or the empty string alone). *)
Definition not_configured (self : GithubCollector) : bool :=
  match client self with
  | None => true
  | Some _ =>
      match repos self with
      | [] => true
      | rs => is_blank_list rs
      end
  end.

Definition login_or_unknown (u : option NamedUser) : pystr :=
  match u with
  | Some u => login u
  | None => lit "Unknown"
  end.

Section WithRuntime.
Context {rt : PyRuntime} (w : World).

(** [get_open_prs()].  The guard of the source is [not_configured]; the
    outer [match] only names the client that the guard found set. *)
Definition get_open_prs (self : GithubCollector) : M (list pyval) :=
  match client self with
  | Some github =>
    if not_configured self then
      log WARNING (lit "GitHub client not initialized or no repositories configured") ;;;
      ret []
    else
      let open_prs : list pyval := [] in
      try_except
        (open_prs <~ for_eachM (repos self) open_prs (fun open_prs repo_name =>
           let repo_name := strip repo_name in
           match repo_name with
           | [] => ret open_prs
           | _ :: _ =>
             log INFO (lit "Fetching open PRs from " ++ repo_name) ;;;
             repo <~ lift (get_repo github repo_name) ;;
             let pulls := get_pulls repo (lit "open") None None in
             for_paginated pulls open_prs (fun open_prs pr =>
               let reviewers : list pyval := [] in
               reviewers <~
                 try_except
                   (review_requests <~ lift (get_review_requests pr) ;;
                    for_paginated review_requests [] (fun acc reviewer =>
                      ret (acc ++ [PStr (login reviewer)])))
                   (fun e =>
                      log DEBUG (lit "Could not fetch reviewers for PR #"
                                   ++ dec (number pr) ++ lit ": " ++ exn_message e) ;;;
                      ret reviewers) ;;
               age <~ lift (datetime_sub (datetime_now w (tzinfo (created_at pr)))
                              (created_at pr)) ;;
               let pr_data :=
                 PDict [(lit "number", PInt (number pr));
                        (lit "title", PStr (title pr));
                        (lit "url", PStr (html_url pr));
                        (lit "author", PStr (login_or_unknown (user pr)));
                        (lit "created_at",
                         PStr (strftime (created_at pr) (lit "%Y-%m-%d")));
                        (lit "days_open", PInt (days age));
                        (lit "repository", PStr repo_name);
                        (lit "reviewers", PList reviewers)] in
               ret (open_prs ++ [pr_data]))
           end) ;;
         log INFO (lit "Found " ++ dec (Z.of_nat (length open_prs)) ++ lit " open PRs") ;;;
         ret open_prs)
        (fun e =>
           log ERROR (lit "Error fetching open PRs: " ++ exn_message e) ;;;
           ret [])
  | None =>
      log WARNING (lit "GitHub client not initialized or no repositories configured") ;;;
      ret []
  end.

(** [get_recent_merges()]. *)
Definition get_recent_merges (self : GithubCollector) : M (list pyval) :=
  match client self with
  | Some github =>
    if not_configured self then
      log WARNING (lit "GitHub client not initialized or no repositories configured") ;;;
      ret []
    else
      (* yesterday = datetime.now(datetime.timezone.utc) - timedelta(days=1) *)
      _ <~ lift (datetime_getattr "timezone") ;;
      let utc := 0 in
      let yesterday := minus_days (datetime_now w (Some utc)) 1 in
      let merged_prs : list pyval := [] in
      try_except
        (merged_prs <~ for_eachM (repos self) merged_prs (fun merged_prs repo_name =>
           let repo_name := strip repo_name in
           match repo_name with
           | [] => ret merged_prs
           | _ :: _ =>
             log INFO (lit "Fetching recent merges from " ++ repo_name) ;;;
             repo <~ lift (get_repo github repo_name) ;;
             let pulls := get_pulls repo (lit "closed") (Some (lit "updated"))
                            (Some (lit "desc")) in
             for_paginated pulls merged_prs (fun merged_prs pr =>
               recent <~ lift (
                 if merged pr then
                   match merged_at pr with
                   | Some at_ => datetime_gt at_ yesterday
                   | None => Ok false
                   end
                 else Ok false) ;;
               if recent then
                 let pr_data :=
                   PDict [(lit "number", PInt (number pr));
                          (lit "title", PStr (title pr));
                          (lit "url", PStr (html_url pr));
                          (lit "author", PStr (login_or_unknown (user pr)));
                          (lit "merged_at",
                           PStr (match merged_at pr with
                                 | Some at_ => strftime at_ (lit "%Y-%m-%d %H:%M")
                                 | None => []
                                 end));
                          (lit "repository", PStr repo_name);
                          (lit "merged_by", PStr (login_or_unknown (merged_by pr)))] in
                 ret (merged_prs ++ [pr_data])
               else ret merged_prs)
           end) ;;
         log INFO (lit "Found " ++ dec (Z.of_nat (length merged_prs))
                     ++ lit " PRs merged in the last 24 hours") ;;;
         ret merged_prs)
        (fun e =>
           log ERROR (lit "Error fetching recent merges: " ++ exn_message e) ;;;
           ret [])
  | None =>
      log WARNING (lit "GitHub client not initialized or no repositories configured") ;;;
      ret []
  end.

Definition urgent_keywords : list string :=
  ["fix"; "hotfix"; "urgent"; "emergency"; "critical"; "bug"]%string.

(** [get_urgent_commits()]. *)
Definition get_urgent_commits (self : GithubCollector) : M (list pyval) :=
  match client self with
  | Some github =>
    if not_configured self then
      log WARNING (lit "GitHub client not initialized or no repositories configured") ;;;
      ret []
    else
      let yesterday := minus_days (datetime_now w None) 1 in
      let urgent_commits : list pyval := [] in
      try_except
        (urgent_commits <~ for_eachM (repos self) urgent_commits
           (fun urgent_commits repo_name =>
           let repo_name := strip repo_name in
           match repo_name with
           | [] => ret urgent_commits
           | _ :: _ =>
             log INFO (lit "Fetching recent commits from " ++ repo_name) ;;;
             repo <~ lift (get_repo github repo_name) ;;
             let commits := get_commits repo yesterday in
             for_paginated commits urgent_commits (fun urgent_commits c =>
               let msg := str_lower (message (commit c)) in
               if existsb (fun keyword => str_contains (lit keyword) msg)
                    urgent_keywords then
                 try_except
                   (let commit_data :=
                      PDict [(lit "sha", PStr (firstn 7 (sha c)));
                             (lit "message",
                              PStr (hd [] (split_on 10 (message (commit c)))));
                             (lit "url", PStr (commit_html_url c));
                             (lit "author",
                              PStr (match author c with
                                    | Some u => login u
                                    | None => name (git_author (commit c))
                                    end));
                             (lit "date",
                              PStr (strftime (date (git_author (commit c)))
                                      (lit "%Y-%m-%d %H:%M")));
                             (lit "repository", PStr repo_name)] in
                    ret (urgent_commits ++ [commit_data]))
                   (fun e =>
                      log DEBUG (lit "Error processing commit " ++ sha c
                                   ++ lit ": " ++ exn_message e) ;;;
                      ret urgent_commits)
               else ret urgent_commits)
           end) ;;
         log INFO (lit "Found " ++ dec (Z.of_nat (length urgent_commits))
                     ++ lit " urgent commits in the last 24 hours") ;;;
         ret urgent_commits)
        (fun e =>
           log ERROR (lit "Error fetching urgent commits: " ++ exn_message e) ;;;
           ret [])
  | None =>
      log WARNING (lit "GitHub client not initialized or no repositories configured") ;;;
      ret []
  end.

(** The text [analyze_pr] gives when no summarizer is attached. *)
Definition unavailable_text (repo_name : pystr) (pr_number : Z) (pr_title : pystr)
  : pystr :=
  (lit "PR Analysis for " ++ repo_name ++ lit "#" ++ dec pr_number ++ lit ": "
     ++ pr_title ++ nl)
    ++ (lit "AI analysis is currently unavailable." ++ nl)
    ++ (lit "Enable AI analysis by setting up AWS Bedrock integration." ++ nl).

(** The dict [file_data] that [analyze_pr] builds for one changed file. *)
Definition file_data (file : File) : pyval :=
  PDict [(lit "filename", PStr (filename file));
         (lit "status", PStr (status file));
         (lit "additions", PInt (additions file));
         (lit "deletions", PInt (deletions file));
         (lit "patch", match patch file with
                       | Some p => PStr p
                       | None => PNone
                       end)].

(** The dict [diff_data] of [analyze_pr], once [files] holds the entries
    appended to [diff_data["files"]]. *)
Definition diff_data (pr : PullRequest) (files : list pyval) : pyval :=
  PDict [(lit "title", PStr (title pr));
         (lit "body", match body pr with
                      | Some b => PStr b
                      | None => PNone
                      end);
         (lit "user", PStr (login_or_unknown (user pr)));
         (lit "created_at", PStr (strftime (created_at pr) (lit "%Y-%m-%d")));
         (lit "files", PList files)].

(** [analyze_pr(repo_name, pr_number)]. *)
Definition analyze_pr (self : GithubCollector) (repo_name : pystr)
    (pr_number : Z) : M pyval :=
  match client self with
  | None =>
      log WARNING (lit "GitHub client not initialized") ;;;
      ret (PDict [])
  | Some github =>
      try_except
        (log INFO (lit "Analyzing PR #" ++ dec pr_number ++ lit " in " ++ repo_name) ;;;
         (* get the PR *)
         repo <~ lift (get_repo github repo_name) ;;
         pr <~ lift (get_pull repo pr_number) ;;
         (* get the diff and the files changed *)
         files <~ lift (get_files pr) ;;
         appended <~ for_paginated files [] (fun appended file =>
           ret (appended ++ [file_data file])) ;;
         let diff_data := diff_data pr appended in
         (* create the prompt for AI analysis *)
         prompt <~ lift (
           d_title <- py_get diff_data "title" PNone ;;
           d_user <- py_get diff_data "user" PNone ;;
           d_body <- py_get diff_data "body" (PStr (lit "No description provided.")) ;;
           let prompt :=
             lit "You are a senior software engineer." ++ nl
               ++ lit "Summarize this pull request in plain English." ++ nl
               ++ lit "Then suggest 3-5 relevant unit test cases based on the logic in the diff."
               ++ nl ++ nl
               ++ lit "Pull Request: " ++ py_str d_title ++ nl
               ++ lit "Author: " ++ py_str d_user ++ nl
               ++ lit "Description: " ++ py_str d_body ++ nl
               ++ nl
               ++ lit "Changed files:" ++ nl in
           files_v <- py_get diff_data "files" (PList []) ;;
           files <- py_iter files_v ;;
           for_each files prompt (fun prompt file =>
             f_name <- py_get file "filename" PNone ;;
             let prompt := prompt ++ nl ++ lit "File: " ++ py_str f_name in
             f_status <- py_get file "status" PNone ;;
             let prompt := prompt ++ nl ++ lit "Status: " ++ py_str f_status in
             f_add <- py_get file "additions" PNone ;;
             f_del <- py_get file "deletions" PNone ;;
             let prompt := prompt ++ nl ++ lit "Changes: +" ++ py_str f_add
                             ++ lit " -" ++ py_str f_del ++ lit " lines" in
             f_patch <- py_get file "patch" PNone ;;
             small <- (if truthy f_patch then
                         n <- py_len f_patch ;; Ok (n <? 3000)%nat
                       else Ok false) ;;
             if small then
               Ok (prompt ++ nl ++ lit "```" ++ nl ++ py_str f_patch ++ nl
                     ++ lit "```" ++ nl)
             else
               Ok (prompt ++ nl ++ lit "[Diff too large to include]" ++ nl))) ;;
         analysis_text <~
           match ai_summarizer self with
           | Some summarizer => BedrockSummarizer.analyze_pr_diff summarizer diff_data
           | None => ret (PStr (unavailable_text repo_name pr_number (title pr)))
           end ;;
         log DEBUG (lit "AI Prompt for PR #" ++ dec pr_number ++ lit ":" ++ nl ++ prompt) ;;;
         d_title <~ lift (py_get diff_data "title" PNone) ;;
         d_user <~ lift (py_get diff_data "user" PNone) ;;
         ret (PDict [(lit "pr_number", PInt pr_number);
                     (lit "repo", PStr repo_name);
                     (lit "title", d_title);
                     (lit "author", d_user);
                     (lit "analysis", analysis_text);
                     (lit "url", PStr (html_url pr))]))
        (fun e =>
           log ERROR (lit "Error analyzing PR " ++ repo_name ++ lit "#"
                        ++ dec pr_number ++ lit ": " ++ exn_message e) ;;;
           ret (PDict []))
  end.

(** [get_pr_analyses()].  [get_open_prs] gives the repository as a [str]
    and the number as an [int]; [analyze_pr] is called with those. *)
Definition get_pr_analyses (self : GithubCollector) : M (list pyval) :=
  if not_configured self then
    log WARNING (lit "GitHub client not initialized or no repositories configured") ;;;
    ret []
  else
    let analyses : list pyval := [] in
    try_except
      (open_prs <~ get_open_prs self ;;
       analyses <~ for_eachM (firstn 3 open_prs) analyses (fun analyses pr =>
         repo_name <~ lift (py_get pr "repository" PNone) ;;
         pr_number <~ lift (py_get pr "number" PNone) ;;
         if truthy repo_name && truthy pr_number then
           match repo_name, pr_number with
           | PStr r, PInt n =>
               analysis <~ analyze_pr self r n ;;
               if truthy analysis then ret (analyses ++ [analysis])
               else ret analyses
           | _, _ => ret analyses
           end
         else ret analyses) ;;
       log INFO (lit "Generated " ++ dec (Z.of_nat (length analyses))
                   ++ lit " PR analyses") ;;;
       ret analyses)
      (fun e =>
         log ERROR (lit "Error generating PR analyses: " ++ exn_message e) ;;;
         ret []).

(** [collect()]. *)
Definition collect (self : GithubCollector) : M pyval :=
  open_prs <~ get_open_prs self ;;
  recent_merges <~ get_recent_merges self ;;
  urgent_commits <~ get_urgent_commits self ;;
  let data := [(lit "open_prs", PList open_prs);
               (lit "recent_merges", PList recent_merges);
               (lit "urgent_commits", PList urgent_commits)] in
  if str_eqb (str_lower (getenv_or (environ w) "ENABLE_PR_ANALYSIS" (lit "false")))
       (lit "true") then
    pr_analyses <~ get_pr_analyses self ;;
    ret (PDict (data ++ [(lit "pr_analyses", PList pr_analyses)]))
  else ret (PDict data).

End WithRuntime.

End GithubCollector.

(* ===================================================================== *)
(** * Vocabulary of the properties                                        *)
(* ===================================================================== *)

Module Observations.
Import Py Effects TeamsFormatter.
Local Open Scope py_scope.

(** ** Reading a run in [M] *)

(** [emit es m]: the events [es], then [m]. *)
Definition emit {A} (es : list event) (m : M A) : M A := (es ++ fst m, snd m).

Definition is_invoke (e : event) : bool :=
  match e with
  | InvokeModel _ _ => true
  | Log _ _ => false
  end.

(** The exception of [datetime.timezone] on the class [datetime]. *)
Definition timezone_error : exn :=
  Exn AttributeError
    (lit "type object 'datetime.datetime' has no attribute 'timezone'").

(** No access token: [GITHUB_TOKEN] is unset or empty. *)
Definition no_token (w : GithubCollector.World) : Prop :=
  GithubCollector.environ w (lit "GITHUB_TOKEN") = None \/
  GithubCollector.environ w (lit "GITHUB_TOKEN") = Some [].

(** ** Bodies that grow *)

(** [body'] is [body] followed by blocks that all satisfy [P]. *)
Definition extends (P : pyval -> Prop) (body body' : list pyval) : Prop :=
  exists ext, body' = body ++ ext /\ Forall P ext.

Section WithRuntime.
Context {rt : PyRuntime}.

(** ** The fallback summary *)

(** The number of items under [data[section][key]], as the summary counts
    them: an absent section or key counts as an empty list. *)
Definition category_count (data : pyval) (section key : string) : result nat :=
  d <- py_get data section (PDict []) ;;
  l <- py_get d key (PList []) ;;
  py_len l.

(** ** The analysis prompt *)

Definition placeholder : pystr := nl ++ lit "[Diff too large to include]" ++ nl.

Definition fenced (patch : pystr) : pystr :=
  nl ++ lit "```" ++ nl ++ patch ++ nl ++ lit "```" ++ nl.

(** The cutoff as the specification words it. *)
Definition cutoff_as_specified (patch : pyval) (tail : pystr) : Prop :=
  forall s, patch = PStr s ->
    ((3000 < length s)%nat -> tail = placeholder) /\
    ((length s <= 3000)%nat -> tail = fenced s).

(** The cutoff of the code. *)
Definition cutoff_of_code (patch : pyval) (tail : pystr) : Prop :=
  forall s, patch = PStr s ->
    ((3000 <= length s)%nat -> tail = placeholder) /\
    ((0 < length s < 3000)%nat -> tail = fenced s).

(** [seg] is what the prompt holds for the changed-file entry [file]: its
    three summary lines and then a tail that depends on the patch. *)
Definition renders_file (cutoff : pyval -> pystr -> Prop) (file : pyval)
    (seg : pystr) : Prop :=
  exists f_name f_status f_add f_del f_patch tail,
    py_get file "filename" PNone = Ok f_name /\
    py_get file "status" PNone = Ok f_status /\
    py_get file "additions" PNone = Ok f_add /\
    py_get file "deletions" PNone = Ok f_del /\
    py_get file "patch" PNone = Ok f_patch /\
    seg = (nl ++ lit "File: " ++ py_str f_name)
            ++ (nl ++ lit "Status: " ++ py_str f_status)
            ++ (nl ++ lit "Changes: +" ++ py_str f_add ++ lit " -"
                  ++ py_str f_del ++ lit " lines")
            ++ tail /\
    cutoff f_patch tail.

(** [prompt] ends with one segment per changed file, in order. *)
Definition renders_files (cutoff : pyval -> pystr -> Prop) (files : list pyval)
    (prompt : pystr) : Prop :=
  exists head segs,
    prompt = head ++ concat segs /\
    Forall2 (renders_file cutoff) files segs.

(** ** The card *)

(** The count line that opens the merged pull requests of the card. *)
Definition merge_heading (n : Z) : pyval :=
  TextBlock (PStr ([check_mark] ++ lit " " ++ dec n
                     ++ lit " pull requests were merged yesterday:"))
    [wrap; spacing "Medium"].

(** The overflow line of the merged pull requests. *)
Definition merge_overflow (n : Z) : pyval :=
  TextBlock (PStr (lit "...and " ++ dec n ++ lit " more merged PRs"))
    [isSubtle; wrap].

Definition is_merge_heading (b : pyval) : Prop := exists n, b = merge_heading n.

Definition is_merge_overflow (b : pyval) : Prop := exists n, b = merge_overflow n.

(** [b] is the line of the card for the merge record [m]. *)
Definition renders_merge (m b : pyval) : Prop :=
  exists num title author,
    py_getitem m "number" = Ok num /\
    py_getitem m "title" = Ok title /\
    py_getitem m "author" = Ok author /\
    b = TextBlock (PStr ([bullet] ++ lit " #" ++ py_str num ++ lit ": "
                           ++ py_str title ++ lit " by " ++ py_str author))
          [wrap].

(** A block that is neither the quiet-day block nor part of the frame of
    the merged pull requests. *)
Definition foreign (b : pyval) : Prop :=
  b <> quiet_block /\ ~ is_merge_heading b /\ ~ is_merge_overflow b.

(** A block outside the frame of the merged pull requests. *)
Definition outside_merge_frame (b : pyval) : Prop :=
  ~ is_merge_heading b /\ ~ is_merge_overflow b.

(** [group] is what the card holds for the list [recent_merges]: nothing
    for an empty list; else the count line, one line for each of the first
    five records, and the overflow line when there are more than five. *)
Definition merge_group (recent_merges : pyval) (group : list pyval) : Prop :=
  (truthy recent_merges = false /\ group = []) \/
  (truthy recent_merges = true /\
   exists n shown items lines,
     py_len recent_merges = Ok n /\
     py_slice_to 5 recent_merges = Ok shown /\
     py_iter shown = Ok items /\
     Forall2 renders_merge items lines /\
     group = merge_heading (Z.of_nat n) :: lines
               ++ (if (5 <? n)%nat then [merge_overflow (Z.of_nat n - 5)] else [])).

(** A section of the data that is absent (the default [{}] stands for it)
    or whose values are all empty. *)
Definition absent_or_all_empty (d : pyval) : Prop :=
  truthy d = false \/
  exists kvs, d = PDict kvs /\ Forall (fun kv => truthy (snd kv) = false) kvs.

(** The header of the database section. *)
Definition database_heading : pyval :=
  TextBlock (PStr ([0x1F4CA%N] ++ lit " Weekly Database Insights"))
    [weight "Bolder"; size "Medium"; spacing "Medium"].

(** A dict that has every key of [keys]. *)
Definition has_keys (keys : list string) (v : pyval) : Prop :=
  exists kvs, v = PDict kvs /\
    Forall (fun k => dict_lookup kvs (lit k) <> None) keys.

(** A Merge Record, by the keys [get_recent_merges] gives it. *)
Definition is_merge_record : pyval -> Prop :=
  has_keys ["number"; "title"; "url"; "author"; "merged_at"; "repository";
            "merged_by"]%string.

(** A PR Analysis Record whose analysis, when present, is a text. *)
Definition is_analysis_record (a : pyval) : Prop :=
  exists kvs, a = PDict kvs /\
    (dict_lookup kvs (lit "analysis") = None \/
     exists s, dict_lookup kvs (lit "analysis") = Some (PStr s)).

(** The data of a digest whose only source is the collector output
    [github_data]. *)
Definition github_only (github_data : list (pystr * pyval)) : pyval :=
  PDict [(lit "github", PDict github_data)].

(** [text] is the analysis text as the card shows it. *)
Definition truncated (analysis_text text : pyval) : Prop :=
  forall s, analysis_text = PStr s ->
    ((500 < length s)%nat -> text = PStr (firstn 500 s ++ lit "...")) /\
    ((length s <= 500)%nat -> text = PStr s).

(** [blocks] are the blocks of the card for the analysis record [a]: the
    title line, the repository and author line, the separator, the
    analysis text and, when the record has a URL, the button. *)
Definition renders_analysis (a : pyval) (blocks : list pyval) : Prop :=
  exists pr_number repo title author analysis_text url text,
    py_get a "pr_number" PNone = Ok pr_number /\
    py_get a "repo" (PStr []) = Ok repo /\
    py_get a "title" (PStr (lit "Untitled PR")) = Ok title /\
    py_get a "author" (PStr (lit "Unknown")) = Ok author /\
    py_get a "analysis" (PStr (lit "No analysis available")) = Ok analysis_text /\
    py_get a "url" (PStr []) = Ok url /\
    truncated analysis_text text /\
    blocks =
      [TextBlock (PStr (lit "**PR #" ++ py_str pr_number ++ lit ": "
                          ++ py_str title ++ lit "**"))
         [weight "Bolder"; wrap; spacing "Medium"];
       TextBlock (PStr (lit "Repository: " ++ py_str repo
                          ++ lit " | Author: " ++ py_str author))
         [isSubtle; wrap];
       TextBlock (PStr (lit "---")) [wrap];
       TextBlock text [wrap]]
      ++ (if truthy url then [ActionSet "View Pull Request" url] else []).

(** ** The whole analysis prompt *)

(** The text of the prompt before the changed files. *)
Definition prompt_preamble (title user body : pyval) : pystr :=
  lit "You are a senior software engineer." ++ nl
    ++ lit "Summarize this pull request in plain English." ++ nl
    ++ lit "Then suggest 3-5 relevant unit test cases based on the logic in the diff."
    ++ nl ++ nl
    ++ lit "Pull Request: " ++ py_str title ++ nl
    ++ lit "Author: " ++ py_str user ++ nl
    ++ lit "Description: " ++ py_str body ++ nl
    ++ nl
    ++ lit "Changed files:" ++ nl.

(** What the code puts in the slot of the diff of a changed file: the
    placeholder for an absent or empty patch and for one of 3000
    characters or more, the fenced patch otherwise. *)
Definition slot_of_code (patch : pyval) (tail : pystr) : Prop :=
  (patch = PNone -> tail = placeholder) /\
  (forall s, patch = PStr s ->
     (s = [] \/ (3000 <= length s)%nat -> tail = placeholder) /\
     ((0 < length s < 3000)%nat -> tail = fenced s)).

(** [prompt] is the whole analysis prompt for the diff data [d] with the
    changed-file entries [files]: the preamble with the title, the author
    and the description of [d], then one segment for each entry, in
    order, and nothing else. *)
Definition renders_prompt (d : pyval) (files : list pyval) (prompt : pystr)
  : Prop :=
  exists title user body segs,
    py_get d "title" PNone = Ok title /\
    py_get d "user" PNone = Ok user /\
    py_get d "body" (PStr (lit "No description provided.")) = Ok body /\
    Forall2 (renders_file slot_of_code) files segs /\
    prompt = prompt_preamble title user body ++ concat segs.

(** Two changed files that differ at most in the text of a patch of 3000
    characters or more. *)
Definition same_but_long_patch (f f' : GithubCollector.File) : Prop :=
  GithubCollector.filename f = GithubCollector.filename f' /\
  GithubCollector.status f = GithubCollector.status f' /\
  GithubCollector.additions f = GithubCollector.additions f' /\
  GithubCollector.deletions f = GithubCollector.deletions f' /\
  (GithubCollector.patch f = GithubCollector.patch f' \/
   exists s s',
     GithubCollector.patch f = Some s /\
     GithubCollector.patch f' = Some s' /\
     (3000 <= length s)%nat /\ (3000 <= length s')%nat).

(** ** The database section *)





End WithRuntime.

End Observations.

(* ===================================================================== *)
(** * Concrete inputs                                                     *)
(* ===================================================================== *)

Module Examples.
Import Py Effects GithubCollector.
Local Open Scope Z_scope.

(** Year, month and day of the day number [z] (days since 1970-01-01) in
    the proleptic Gregorian calendar. *)
Definition civil_from_days (z : Z) : Z * Z * Z :=
  let z := z + 719468 in
  let era := z / 146097 in
  let doe := z - era * 146097 in
  let yoe := (doe - doe / 1460 + doe / 36524 - doe / 146096) / 365 in
  let doy := doe - (365 * yoe + yoe / 4 - yoe / 100) in
  let mp := (5 * doy + 2) / 153 in
  let d := doy - (153 * mp + 2) / 5 + 1 in
  let m := if mp <? 10 then mp + 3 else mp - 9 in
  (if m <=? 2 then yoe + era * 400 + 1 else yoe + era * 400, m, d).

Definition two_digits (n : Z) : pystr :=
  if n <? 10 then lit "0" ++ dec n else dec n.

(** [strftime] for the directives the collector uses: [%Y], [%m], [%d],
    [%H] and [%M] (four-digit years). *)
Fixpoint strftime_fields (d : DateTime) (fmt : pystr) : pystr :=
  let seconds := wall_us d / 1000000 in
  let '(year, month, day) := civil_from_days (seconds / 86400) in
  let second_of_day := seconds mod 86400 in
  match fmt with
  | 37%N :: c :: rest =>
      (if (c =? 89)%N then dec year
       else if (c =? 109)%N then two_digits month
       else if (c =? 100)%N then two_digits day
       else if (c =? 72)%N then two_digits (second_of_day / 3600)
       else if (c =? 77)%N then two_digits (second_of_day mod 3600 / 60)
       else [37%N; c])
        ++ strftime_fields d rest
  | c :: rest => c :: strftime_fields d rest
  | [] => []
  end.

(** A runtime for the concrete inputs below, which are ASCII texts without
    quotes or escapes: [repr] puts a string between single quotes and
    [lower] maps A-Z to a-z. *)
Definition ascii_runtime : PyRuntime :=
  {| repr_str := fun s => lit "'" ++ s ++ lit "'";
     str_lower := map (fun c => if (65 <=? c)%N && (c <=? 90)%N then (c + 32)%N else c);
     strftime := strftime_fields |}.

Definition hour_us : Z := 3600 * 1000000.

(** The collection instant of the examples, in microseconds since the
    epoch (2024-05-02 00:00 UTC). *)
Definition example_now : Z := 1714608000 * 1000000.

Definition utc_at (us : Z) : DateTime := {| wall_us := us; tzinfo := Some 0 |}.

Definition alice : NamedUser := {| login := lit "alice" |}.

Definition no_items {A} : Paginated A := {| items := []; failure := None |}.

Definition example_file : File :=
  {| filename := lit "cache.py"; status := lit "modified";
     additions := 12; deletions := 3;
     patch := Some (lit "@@ -1 +1 @@ pass") |}.

(** An open pull request without a description. *)
Definition example_pr : PullRequest :=
  {| number := 7; title := lit "Add cache";
     html_url := lit "https://github.com/octo/app/pull/7";
     user := Some alice;
     created_at := utc_at (example_now - 30 * hour_us);
     merged := false; merged_at := None; merged_by := None;
     body := None;
     get_review_requests := Ok no_items;
     get_files := Ok {| items := [example_file]; failure := None |} |}.

(** A closed pull request merged [h] hours before the collection instant. *)
Definition merged_pr (h : Z) : PullRequest :=
  {| number := 5; title := lit "Fix login";
     html_url := lit "https://github.com/octo/app/pull/5";
     user := Some alice;
     created_at := utc_at (example_now - 50 * hour_us);
     merged := true;
     merged_at := Some (utc_at (example_now - h * hour_us));
     merged_by := Some alice;
     body := Some (lit "Fixes the login form.");
     get_review_requests := Ok no_items;
     get_files := Ok no_items |}.

Definition not_found {A} : result A := Raise (Exn ExternalError (lit "404 Not Found")).

Definition example_repo : Repository :=
  {| get_pulls := fun state _ _ =>
       if str_eqb state (lit "open") then {| items := [example_pr]; failure := None |}
       else {| items := [merged_pr 2]; failure := None |};
     get_pull := fun n => if n =? 7 then Ok example_pr else not_found;
     get_commits := fun _ => no_items |}.

Definition example_github : Github :=
  {| get_repo := fun full_name =>
       if str_eqb full_name (lit "octo/app") then Ok example_repo else not_found |}.

Definition env_of (bindings : list (string * string)) : Env :=
  fun k =>
    match find (fun b => str_eqb (lit (fst b)) k) bindings with
    | Some b => Some (lit (snd b))
    | None => None
    end.

(** A configured run: a token and one repository. *)
Definition example_world : World :=
  {| environ := env_of [("GITHUB_TOKEN", "ghp_example"); ("GITHUB_REPOS", "octo/app")]%string;
     Github_new := fun _ => Ok example_github;
     utcnow_us := example_now;
     local_offset_us := 0 |}.

(** A run without a token. *)
Definition tokenless_world : World :=
  {| environ := env_of [("GITHUB_REPOS", "octo/app")]%string;
     Github_new := fun _ => Ok example_github;
     utcnow_us := example_now;
     local_offset_us := 0 |}.

(** ** Inputs of the formatter and of the summarizer *)

Definition core_team : TeamsFormatter.TeamsFormatter :=
  {| TeamsFormatter.team_name := lit "Core" |}.

(** A summarizer without client and model. *)
Definition idle_summarizer : BedrockSummarizer.BedrockSummarizer :=
  {| BedrockSummarizer.aws_region := None;
     BedrockSummarizer.model_id := None;
     BedrockSummarizer.max_tokens := 1000;
     BedrockSummarizer.client := None |}.

Definition ticket (key : string) : pyval :=
  PDict [(lit "key", PStr (lit key));
         (lit "summary", PStr (lit "Investigate"));
         (lit "status", PStr (lit "Open"))].

(** Three new tickets and nothing else. *)
Definition three_tickets : pyval :=
  PDict [(lit "jira",
          PDict [(lit "new_tickets",
                  PList [ticket "APP-1"; ticket "APP-2"; ticket "APP-3"])])].

(** No activity at all. *)
Definition no_activity : pyval := PDict [].

(** A changed file whose patch has exactly 3000 characters. *)
Definition file_of_3000 : File :=
  {| filename := lit "big.py"; status := lit "modified";
     additions := 90; deletions := 0;
     patch := Some (repeat 120%N 3000) |}.

(** The same changed file with another patch, of 4000 characters. *)
Definition file_of_4000 : File :=
  {| filename := lit "big.py"; status := lit "modified";
     additions := 90; deletions := 0;
     patch := Some (repeat 121%N 4000) |}.

Definition diff_of_3000 : pyval :=
  diff_data (rt := ascii_runtime) example_pr [file_data file_of_3000].

Definition empty_collection : list (pystr * pyval) :=
  [(lit "open_prs", PList []);
   (lit "recent_merges", PList []);
   (lit "urgent_commits", PList [])].


(** An analysis record whose text has [n] characters. *)
Definition analysis_of_length (n : nat) : pyval :=
  PDict [(lit "pr_number", PInt 7);
         (lit "repo", PStr (lit "octo/app"));
         (lit "title", PStr (lit "Add cache"));
         (lit "author", PStr (lit "alice"));
         (lit "analysis", PStr (repeat 97%N n));
         (lit "url", PStr (lit "https://github.com/octo/app/pull/7"))].

Definition digest_with_analysis (n : nat) : pyval :=
  Observations.github_only
    [(lit "open_prs", PList []);
     (lit "recent_merges", PList []);
     (lit "urgent_commits", PList []);
     (lit "pr_analyses", PList [analysis_of_length n])].

(** A merge record as [get_recent_merges] builds it. *)
Definition merge_record (n : Z) : pyval :=
  PDict [(lit "number", PInt n);
         (lit "title", PStr (lit "Fix login"));
         (lit "url", PStr (lit "https://github.com/octo/app/pull/5"));
         (lit "author", PStr (lit "alice"));
         (lit "merged_at", PStr (lit "2024-05-01 22:00"));
         (lit "repository", PStr (lit "octo/app"));
         (lit "merged_by", PStr (lit "alice"))].

Definition seven_merges : list pyval := map merge_record [1; 2; 3; 4; 5; 6; 7].

Definition digest_with_merges (merges : list pyval) : pyval :=
  Observations.github_only
    [(lit "open_prs", PList []);
     (lit "recent_merges", PList merges);
     (lit "urgent_commits", PList [])].

End Examples.

(* ===================================================================== *)
(** * Vocabulary of the further properties                                *)
(* ===================================================================== *)

Module Readings.
Import Py Effects TeamsFormatter GithubCollector Observations.
Local Open Scope py_scope.

(** ** The model service *)

(** The requests of a run, in order: model id and request body. *)
Definition requests (t : list event) : list (pystr * pyval) :=
  flat_map (fun e => match e with
                     | InvokeModel m b => [(m, b)]
                     | Log _ _ => []
                     end) t.

(** The guard of the generation methods: the client is set and the model
    id is a non-empty string. *)
Definition configured (s : BedrockSummarizer.BedrockSummarizer) : bool :=
  match BedrockSummarizer.client s, BedrockSummarizer.model_id s with
  | Some _, Some (_ :: _) => true
  | _, _ => false
  end.

(** The key [k] is absent from the dict, or its value is empty. *)
Definition empty_or_absent (kvs : list (pystr * pyval)) (k : string) : Prop :=
  match dict_lookup kvs (lit k) with
  | None => True
  | Some v => truthy v = false
  end.

(** ** The collector *)

(** What a scan of the configured repositories visits: the items that
    [fetch] lists for each repository with a non-blank name, each paired
    with the stripped name, in order; [None] when a repository or a page
    of its list cannot be fetched. *)
Fixpoint listing {A} (fetch : Repository -> Paginated A) (github : Github)
    (repos : list pystr) : option (list (pystr * A)) :=
  match repos with
  | [] => Some []
  | r :: rest =>
      match strip r with
      | [] => listing fetch github rest
      | c :: name =>
          match get_repo github (c :: name) with
          | Raise _ => None
          | Ok repo =>
              match failure (fetch repo), listing fetch github rest with
              | None, Some l =>
                  Some (map (pair (c :: name)) (items (fetch repo)) ++ l)
              | _, _ => None
              end
          end
      end
  end.

(** The open pull requests of a repository. *)
Definition open_pulls (repo : Repository) : Paginated PullRequest :=
  get_pulls repo (lit "open") None None.

(** The commits of a repository since this time yesterday (a naive local
    time). *)
Definition commits_since_yesterday (w : World) (repo : Repository)
  : Paginated Commit :=
  get_commits repo (minus_days (datetime_now w None) 1).

(** The microseconds between the instant [d] and now. *)
Definition age_us (w : World) (d : DateTime) : Z :=
  match tzinfo d with
  | Some off => utcnow_us w - (wall_us d - off)
  | None => utcnow_us w + local_offset_us w - wall_us d
  end.

(** The logins of the requested reviewers, or nothing when they cannot be
    fetched. *)
Definition reviewers_of (pr : PullRequest) : list pyval :=
  match get_review_requests pr with
  | Ok p =>
      match failure p with
      | None => map (fun u => PStr (login u)) (items p)
      | Some _ => []
      end
  | Raise _ => []
  end.

(** [line] is the first line of [m]. *)
Definition first_line (m line : pystr) : Prop :=
  ~ In 10%N line /\ (m = line \/ exists rest, m = line ++ 10%N :: rest).

(** The pull request and the changed files that [analyze_pr] works on, if
    all three can be fetched. *)
Definition fetched (github : Github) (repo_name : pystr) (pr_number : Z)
  : option (PullRequest * list File) :=
  match get_repo github repo_name with
  | Ok repo =>
      match get_pull repo pr_number with
      | Ok pr =>
          match get_files pr with
          | Ok files =>
              match failure files with
              | None => Some (pr, items files)
              | Some _ => None
              end
          | Raise _ => None
          end
      | Raise _ => None
      end
  | Raise _ => None
  end.

Section WithRuntime.
Context {rt : PyRuntime}.

(** [rec] is the record of [get_open_prs] for the pull request of
    [entry]. *)
Definition is_open_pr_record (w : World) (entry : pystr * PullRequest)
    (rec : pyval) : Prop :=
  let (repo_name, pr) := entry in
  py_get rec "number" PNone = Ok (PInt (number pr)) /\
  py_get rec "title" PNone = Ok (PStr (title pr)) /\
  py_get rec "url" PNone = Ok (PStr (html_url pr)) /\
  py_get rec "author" PNone = Ok (PStr (login_or_unknown (user pr))) /\
  py_get rec "created_at" PNone
    = Ok (PStr (strftime (created_at pr) (lit "%Y-%m-%d"))) /\
  py_get rec "days_open" PNone = Ok (PInt (age_us w (created_at pr) / day_us)) /\
  py_get rec "repository" PNone = Ok (PStr repo_name) /\
  py_get rec "reviewers" PNone = Ok (PList (reviewers_of pr)).

(** The test of [get_urgent_commits]: a keyword occurs somewhere in the
    lower-cased message. *)
Definition is_urgent (c : Commit) : bool :=
  existsb (fun keyword => str_contains (lit keyword) (str_lower (message (commit c))))
    urgent_keywords.

(** [rec] is the record of [get_urgent_commits] for the commit of
    [entry]. *)
Definition is_commit_record (entry : pystr * Commit) (rec : pyval) : Prop :=
  let (repo_name, c) := entry in
  py_get rec "sha" PNone = Ok (PStr (firstn 7 (sha c))) /\
  (exists line,
     py_get rec "message" PNone = Ok (PStr line) /\
     first_line (message (commit c)) line) /\
  py_get rec "url" PNone = Ok (PStr (commit_html_url c)) /\
  py_get rec "author" PNone
    = Ok (PStr (match author c with
                | Some u => login u
                | None => name (git_author (commit c))
                end)) /\
  py_get rec "date" PNone
    = Ok (PStr (strftime (date (git_author (commit c))) (lit "%Y-%m-%d %H:%M"))) /\
  py_get rec "repository" PNone = Ok (PStr repo_name).

(** The switch of [collect] for the analyses. *)
Definition analyses_enabled (w : World) : bool :=
  str_eqb (str_lower (getenv_or (environ w) "ENABLE_PR_ANALYSIS" (lit "false")))
    (lit "true").

(** ** The card *)

(** The two blocks that open every card. *)
Definition greeting (team : pystr) : pyval :=
  TextBlock (PStr ([0x1F305%N] ++ lit " Good morning, " ++ team ++ lit "!"))
    [weight "Bolder"; size "Large"; wrap].

Definition subheading : pyval :=
  TextBlock (PStr (lit "Here's your daily project digest:")) [wrap].

Definition summary_heading : pyval :=
  TextBlock (PStr ([0x1F4A1%N] ++ lit " AI Summary"))
    [weight "Bolder"; size "Medium"; spacing "Medium"].

(** The head of the card: greeting, sub-heading and, for a non-empty
    summary, its heading and the summary itself. *)
Definition digest_head (team ai_summary : pystr) : list pyval :=
  [greeting team; subheading]
    ++ match ai_summary with
       | [] => []
       | _ :: _ => [summary_heading; TextBlock (PStr ai_summary) [wrap]]
       end.

Definition github_heading : pyval :=
  TextBlock (PStr ([0x1F6E0%N; 0xFE0F%N] ++ lit " GitHub Activity"))
    [weight "Bolder"; size "Medium"; spacing "Medium"].

Definition open_heading (n : Z) : pyval :=
  TextBlock (PStr ([0x1F504%N] ++ lit " " ++ dec n
                     ++ lit " open pull requests waiting for review:"))
    [wrap].

Definition open_overflow (n : Z) : pyval :=
  TextBlock (PStr (lit "...and " ++ dec n ++ lit " more open PRs"))
    [isSubtle; wrap].

Definition no_open_prs : pyval :=
  TextBlock (PStr (lit "No open pull requests waiting for review.")) [wrap].

(** [note] is what the line of an open pull request says about the
    requested reviewers: nothing when there are none; else the first two
    names and, beyond two, the number of the others. *)
Definition reviewer_note (reviewers : pyval) (note : pystr) : Prop :=
  (truthy reviewers = false -> note = []) /\
  (forall names,
     reviewers = PList (map PStr names) -> names <> [] ->
     note = lit " (Reviewers: " ++ join (lit ", ") (firstn 2 names) ++ lit ")"
              ++ (if (2 <? length names)%nat
                  then lit " +" ++ dec (Z.of_nat (length names) - 2) ++ lit " more"
                  else [])).

Definition analyses_heading : pyval :=
  TextBlock (PStr ([0x1F50D%N] ++ lit " Pull Request Analyses"))
    [weight "Bolder"; size "Medium"; spacing "Medium"].

Definition analyses_overflow (n : Z) : pyval :=
  TextBlock (PStr (lit "...and " ++ dec n ++ lit " more PR analyses"))
    [isSubtle; wrap; spacing "Small"].

(** [line] is the line of the card for the open pull request record
    [pr]. *)
Definition renders_open_pr (pr line : pyval) : Prop :=
  exists num title author reviewers note,
    py_getitem pr "number" = Ok num /\
    py_getitem pr "title" = Ok title /\
    py_getitem pr "author" = Ok author /\
    py_get pr "reviewers" PNone = Ok reviewers /\
    reviewer_note reviewers note /\
    line = TextBlock (PStr ([bullet] ++ lit " #" ++ py_str num ++ lit ": "
                              ++ py_str title ++ lit " by " ++ py_str author
                              ++ note))
             [wrap].

(** [part] is what the card holds for the list [prs] of open pull
    requests: the fixed line for an empty list; else the count line, one
    line for each of the first five records, and the overflow line when
    there are more than five. *)
Definition open_group (prs part : list pyval) : Prop :=
  match prs with
  | [] => part = [no_open_prs]
  | _ :: _ =>
      exists lines,
        Forall2 renders_open_pr (firstn 5 prs) lines /\
        part = open_heading (Z.of_nat (length prs)) :: lines
                 ++ (if (5 <? length prs)%nat
                     then [open_overflow (Z.of_nat (length prs) - 5)]
                     else [])
  end.

(** The count line of the completed tasks. *)
Definition completed_heading (n : Z) : pyval :=
  TextBlock (PStr ([check_mark] ++ lit " " ++ dec n
                     ++ lit " tasks were completed yesterday:"))
    [wrap; spacing "Medium"].

(** A status change that completes its ticket: its target is one of the
    three final states, spelled as here. *)
Definition is_completion (sc : pyval) : bool :=
  match py_get sc "to" PNone with
  | Ok to => py_in_literals to ["Done"; "Closed"; "Resolved"]%string
  | Raise _ => false
  end.

(** The status changes of one record of [status_changes]. *)
Definition history (change : pyval) : list pyval :=
  match py_get change "status_changes" (PList []) with
  | Ok v => match py_iter v with
            | Ok scs => scs
            | Raise _ => []
            end
  | Raise _ => []
  end.

(** The completing status changes of all records together. *)
Definition completion_count (changes : list pyval) : nat :=
  list_sum (map (fun change => length (filter is_completion (history change)))
              changes).

(** [line] is the line of the prompt for the open pull request record
    [pr]. *)
Definition prompt_pr_line (pr : pyval) (line : pystr) : Prop :=
  exists num title author days_open,
    py_getitem pr "number" = Ok num /\
    py_getitem pr "title" = Ok title /\
    py_getitem pr "author" = Ok author /\
    py_getitem pr "days_open" = Ok days_open /\
    line = lit "- #" ++ py_str num ++ lit " " ++ py_str title ++ lit " by "
             ++ py_str author ++ lit " (" ++ py_str days_open
             ++ lit " days open)".

(** A record of [status_changes] that the prompt can show: it has a key,
    and its list of status changes is not empty and ends with a change
    that has its source, its target and its author. *)
Definition is_change_record (change : pyval) : Prop :=
  exists kvs changes,
    change = PDict kvs /\
    dict_lookup kvs (lit "key") <> None /\
    dict_lookup kvs (lit "status_changes") = Some (PList changes) /\
    changes <> [] /\
    has_keys ["from"; "to"; "author"]%string (last changes PNone).

(** The new tickets of the tracker data [j] do not stop the prompt: there
    are none, or the first five have their three fields. *)
Definition new_tickets_shown (j : list (pystr * pyval)) : Prop :=
  empty_or_absent j "new_tickets" \/
  exists tickets,
    dict_lookup j (lit "new_tickets") = Some (PList tickets) /\
    Forall (has_keys ["key"; "summary"; "status"]%string) (firstn 5 tickets).


End WithRuntime.

End Readings.

(* ===================================================================== *)
(** * Further concrete inputs                                             *)
(* ===================================================================== *)

Module MoreExamples.
Import Py Effects GithubCollector Examples.
Local Open Scope Z_scope.

(** A model service that answers every request with the text [OK]. *)
Definition answering_client : BedrockSummarizer.BedrockClient :=
  {| BedrockSummarizer.invoke_model := fun _ _ =>
       Ok (PDict [(lit "content",
                   PList [PDict [(lit "type", PStr (lit "text"));
                                 (lit "text", PStr (lit "OK"))]])]) |}.

(** A summarizer with client and model id. *)
Definition ready_summarizer : BedrockSummarizer.BedrockSummarizer :=
  {| BedrockSummarizer.aws_region := Some (lit "eu-west-1");
     BedrockSummarizer.model_id := Some (lit "anthropic.claude-3");
     BedrockSummarizer.max_tokens := 1000;
     BedrockSummarizer.client := Some answering_client |}.

(** A ticket whose history of status changes is empty. *)
Definition unchanged_ticket : pyval :=
  PDict [(lit "key", PStr (lit "APP-9"));
         (lit "summary", PStr (lit "Investigate"));
         (lit "status_changes", PList [])].

Definition stale_history : list (pystr * pyval) :=
  [(lit "status_changes", PList [unchanged_ticket])].

(** A ticket that was closed, reopened and closed again. *)
Definition reclosed_ticket : pyval :=
  PDict [(lit "key", PStr (lit "APP-3"));
         (lit "summary", PStr (lit "Investigate"));
         (lit "status_changes",
          PList [PDict [(lit "from", PStr (lit "Open"));
                        (lit "to", PStr (lit "Done"));
                        (lit "author", PStr (lit "alice"));
                        (lit "time", PStr (lit "2024-05-01 09:00"))];
                 PDict [(lit "from", PStr (lit "Done"));
                        (lit "to", PStr (lit "Open"));
                        (lit "author", PStr (lit "bob"));
                        (lit "time", PStr (lit "2024-05-01 10:00"))];
                 PDict [(lit "from", PStr (lit "Open"));
                        (lit "to", PStr (lit "Closed"));
                        (lit "author", PStr (lit "alice"));
                        (lit "time", PStr (lit "2024-05-01 11:00"))]])].

(** Tracker data with a new ticket and two records of status changes,
    the second with an empty history. *)
Definition stale_second : list (pystr * pyval) :=
  [(lit "new_tickets", PList [ticket "APP-1"]);
   (lit "status_changes", PList [reclosed_ticket; unchanged_ticket])].

(** Data whose only content is that ticket. *)
Definition stale_digest : pyval := PDict [(lit "jira", PDict stale_history)].


(** Three new tickets again, with other keys and with empty collector
    lists. *)
Definition other_three_tickets : pyval :=
  PDict [(lit "jira",
          PDict [(lit "new_tickets",
                  PList [ticket "OPS-7"; ticket "OPS-8"; ticket "OPS-9"])]);
         (lit "github", PDict empty_collection)].

(** Two blocked tasks and one open pull request. *)
Definition busy_digest : pyval :=
  PDict [(lit "jira",
          PDict [(lit "blocked_tasks", PList [ticket "APP-4"; ticket "APP-5"])]);
         (lit "github", PDict [(lit "open_prs", PList [PDict []])])].

(** The collector that [__init__] builds in [example_world]. *)
Definition example_collector : GithubCollector :=
  {| github_token := Some (lit "ghp_example");
     repos := [lit "octo/app"];
     ai_summarizer := None;
     client := Some example_github |}.





(** A collector whose second repository does not exist. *)
Definition broken_collector : GithubCollector :=
  {| github_token := Some (lit "ghp_example");
     repos := [lit "octo/app"; lit "octo/missing"];
     ai_summarizer := None;
     client := Some example_github |}.

(** A run with a token and without [GITHUB_REPOS], and its collector. *)
Definition repoless_world : World :=
  {| environ := env_of [("GITHUB_TOKEN", "ghp_example")]%string;
     Github_new := fun _ => Ok example_github;
     utcnow_us := example_now;
     local_offset_us := 0 |}.

Definition repoless_collector : GithubCollector :=
  {| github_token := Some (lit "ghp_example");
     repos := [[]];
     ai_summarizer := None;
     client := Some example_github |}.

(** An open pull request record as [get_open_prs] builds it, with three
    requested reviewers. *)
Definition open_pr_record (n : Z) : pyval :=
  PDict [(lit "number", PInt n);
         (lit "title", PStr (lit "Add cache"));
         (lit "url", PStr (lit "https://github.com/octo/app/pull/7"));
         (lit "author", PStr (lit "alice"));
         (lit "created_at", PStr (lit "2024-04-30"));
         (lit "days_open", PInt 1);
         (lit "repository", PStr (lit "octo/app"));
         (lit "reviewers",
          PList (map PStr [lit "bob"; lit "carol"; lit "dave"]))].

Definition seven_open_prs : list pyval := map open_pr_record [1; 2; 3; 4; 5; 6; 7].

Definition digest_with_open_prs (prs : list pyval) : pyval :=
  Observations.github_only
    [(lit "open_prs", PList prs);
     (lit "recent_merges", PList []);
     (lit "urgent_commits", PList [])].

(** Two new tickets, the second without a key. *)
Definition keyless_digest : pyval :=
  PDict [(lit "jira",
          PDict [(lit "new_tickets",
                  PList [ticket "APP-1";
                         PDict [(lit "summary", PStr (lit "Investigate"));
                                (lit "status", PStr (lit "Open"))]])])].

Definition reclosed_digest : pyval :=
  PDict [(lit "jira", PDict [(lit "status_changes", PList [reclosed_ticket])])].

Definition digest_with_analyses (analyses : list pyval) : pyval :=
  Observations.github_only
    [(lit "open_prs", PList []);
     (lit "recent_merges", PList []);
     (lit "urgent_commits", PList []);
     (lit "pr_analyses", PList analyses)].

End MoreExamples.

(* ===================================================================== *)
(** * Properties                                                          *)
(* ===================================================================== *)

Unset Implicit Arguments.

Import Py Effects Observations Examples TeamsFormatter GithubCollector.
Local Open Scope py_scope.

(** ** Strings and results *)

Lemma starts_with_app p s : starts_with p (p ++ s) = true.
Proof. induction p as [|x p IH]; simpl; [reflexivity|]. now rewrite N.eqb_refl. Qed.

Lemma starts_with_cancel a p s : starts_with (a ++ p) (a ++ s) = starts_with p s.
Proof. induction a as [|x a IH]; simpl; [reflexivity|]. now rewrite N.eqb_refl. Qed.

Lemma starts_with_weaken p s t :
  starts_with p s = true -> starts_with p (s ++ t) = true.
Proof.
  revert s; induction p as [|x p IH]; intros [|y s]; simpl; try easy.
  intros H. apply andb_true_iff in H as [-> H]. now rewrite IH.
Qed.

Lemma ends_with_skip a p s : ends_with p s = true -> ends_with p (a ++ s) = true.
Proof.
  unfold ends_with. intros H. rewrite rev_app_distr. now apply starts_with_weaken.
Qed.

Lemma ends_with_skip_false a p s :
  (length p <= length s)%nat -> ends_with p s = false -> ends_with p (a ++ s) = false.
Proof.
  unfold ends_with. intros L H. rewrite rev_app_distr.
  rewrite <- (length_rev p), <- (length_rev s) in L.
  revert H L. generalize (rev p) (rev s) (rev a). clear.
  induction l as [|x l IH]; intros [|y s] a; simpl; try easy; try lia.
  intros H L. destruct (N.eqb x y); [|reflexivity]. simpl in *. apply IH; [exact H | lia].
Qed.

(** Two texts that end in different literals differ. *)
Lemma tails_differ (p a c b d : pystr) :
  ends_with p c = true -> ends_with p d = false ->
  (length p <= length d)%nat ->
  a ++ c <> b ++ d.
Proof.
  intros Hc Hd L E. apply (f_equal (ends_with p)) in E.
  rewrite (ends_with_skip a p c Hc), (ends_with_skip_false b p d L Hd) in E.
  discriminate.
Qed.

Lemma bind_ok {A B} (m : result A) (k : A -> result B) (r : B) :
  bind m k = Ok r -> exists a, m = Ok a /\ k a = Ok r.
Proof. destruct m as [a|e]; simpl; [eauto | discriminate]. Qed.

Lemma Ok_inj {A} (a b : A) : Ok a = Ok b -> a = b.
Proof. now intros [= ->]. Qed.

Lemma str_contains_eq needle hay :
  str_contains needle hay =
  starts_with needle hay
  || match hay with [] => false | _ :: h => str_contains needle h end.
Proof. destruct hay; reflexivity. Qed.

Lemma str_contains_skip a p s :
  str_contains p s = true -> str_contains p (a ++ s) = true.
Proof.
  intros H. induction a as [|x a IH]; [exact H|].
  rewrite str_contains_eq. cbn [app]. rewrite IH. apply orb_true_r.
Qed.

(** ** Bodies that grow *)

Lemma extends_refl P body : extends P body body.
Proof. exists []. split; [now rewrite app_nil_r | constructor]. Qed.

Lemma extends_trans P a b c : extends P a b -> extends P b c -> extends P a c.
Proof.
  intros (e1 & -> & F1) (e2 & -> & F2). exists (e1 ++ e2). split.
  - now rewrite app_assoc.
  - now apply Forall_app.
Qed.

Lemma extends_snoc P body b : P b -> extends P body (body ++ [b]).
Proof. intros H. exists [b]. split; [reflexivity | now constructor]. Qed.

Lemma extends_step P a b c : extends P a b -> P c -> extends P a (b ++ [c]).
Proof. intros H Hc. eapply extends_trans; [exact H | now apply extends_snoc]. Qed.

Lemma for_each_lines {A} (R : A -> pyval -> Prop) (f : list pyval -> A -> result (list pyval))
    (xs : list A) (s s' : list pyval) :
  (forall s x s', f s x = Ok s' -> exists b, s' = s ++ [b] /\ R x b) ->
  for_each xs s f = Ok s' ->
  exists lines, s' = s ++ lines /\ Forall2 R xs lines.
Proof.
  intros Hf. revert s. induction xs as [|x xs IH]; intros s H; cbn [for_each] in H.
  - apply Ok_inj in H as <-. exists []. split; [now rewrite app_nil_r | constructor].
  - apply bind_ok in H as (s1 & H1 & H).
    apply Hf in H1 as (b & -> & Hb).
    apply IH in H as (lines & -> & HF).
    exists (b :: lines). split; [now rewrite <- app_assoc | now constructor].
Qed.

Lemma for_each_groups {A} (R : A -> list pyval -> Prop)
    (f : list pyval -> A -> result (list pyval))
    (xs : list A) (s s' : list pyval) :
  (forall s x s', f s x = Ok s' -> exists g, s' = s ++ g /\ R x g) ->
  for_each xs s f = Ok s' ->
  exists groups, s' = s ++ concat groups /\ Forall2 R xs groups.
Proof.
  intros Hf. revert s. induction xs as [|x xs IH]; intros s H; cbn [for_each] in H.
  - apply Ok_inj in H as <-. exists []. split; [now rewrite app_nil_r | constructor].
  - apply bind_ok in H as (s1 & H1 & H).
    apply Hf in H1 as (g & -> & Hg).
    apply IH in H as (groups & -> & HF).
    exists (g :: groups). split; [cbn [concat]; now rewrite <- app_assoc | now constructor].
Qed.

Lemma for_each_extends {A} (P : pyval -> Prop) (f : list pyval -> A -> result (list pyval))
    (xs : list A) (s s' : list pyval) :
  (forall s x s', f s x = Ok s' -> exists b, s' = s ++ [b] /\ P b) ->
  for_each xs s f = Ok s' ->
  extends P s s'.
Proof.
  intros Hf H.
  destruct (for_each_lines (fun _ b => P b) f xs s s' Hf H) as (lines & -> & HF).
  exists lines. split; [reflexivity|].
  clear -HF. induction HF; now constructor.
Qed.

(** ** The summarizer *)

Section SummarizerFacts.
Context {rt : PyRuntime}.

Lemma build_prompt_renders_files (d : pyval) (fs : list pyval) (p : pystr) :
  py_get d "files" (PList []) = Ok (PList fs) ->
  BedrockSummarizer._build_pr_analysis_prompt d = Ok p ->
  renders_files cutoff_of_code fs p.
Proof.
  unfold BedrockSummarizer._build_pr_analysis_prompt. intros F H.
  apply bind_ok in H as (d_title & _ & H).
  apply bind_ok in H as (d_user & _ & H).
  apply bind_ok in H as (d_body & _ & H).
  apply bind_ok in H as (files_v & Ev & H).
  rewrite F in Ev. injection Ev as <-.
  apply bind_ok in H as (files & Ei & H). injection Ei as <-.
  clear F. revert H.
  match goal with |- for_each _ ?p0 _ = _ -> _ => generalize p0 end.
  intros p0 H. exists p0.
  revert p0 p H. induction fs as [|f fs IH]; intros p0 p H.
  - injection H as <-. exists []. split; [now rewrite app_nil_r | constructor].
  - cbn [for_each] in H. apply bind_ok in H as (p1 & Hf & H).
    destruct (IH _ _ H) as (segs & -> & HF). clear IH H.
    apply bind_ok in Hf as (f_name & E1 & Hf).
    apply bind_ok in Hf as (f_status & E2 & Hf).
    apply bind_ok in Hf as (f_add & E3 & Hf).
    apply bind_ok in Hf as (f_del & E4 & Hf).
    apply bind_ok in Hf as (f_patch & E5 & Hf).
    apply bind_ok in Hf as (small & E6 & Hf).
    assert (T : exists tail, p1 =
              p0 ++ ((nl ++ lit "File: " ++ py_str f_name)
                 ++ (nl ++ lit "Status: " ++ py_str f_status)
                 ++ (nl ++ lit "Changes: +" ++ py_str f_add ++ lit " -"
                       ++ py_str f_del ++ lit " lines")
                 ++ tail)
              /\ cutoff_of_code f_patch tail).
    { destruct small; apply Ok_inj in Hf; subst p1;
        [exists (nl ++ lit "```" ++ nl ++ py_str f_patch ++ nl ++ lit "```" ++ nl)
        |exists (nl ++ lit "[Diff too large to include]" ++ nl)];
        (split; [rewrite <- !app_assoc; reflexivity|]);
        intros s ->; destruct s as [|c s]; try discriminate E6;
        cbn [truthy bind py_len] in E6; apply Ok_inj in E6;
        first [apply Nat.ltb_lt in E6 | apply Nat.ltb_ge in E6 | idtac];
        (split; intros L; try reflexivity; cbn [length] in *; lia). }
    destruct T as (tail & -> & HT).
    eexists (_ :: segs). split.
    + rewrite concat_cons, <- app_assoc. reflexivity.
    + constructor; [|exact HF].
      exists f_name, f_status, f_add, f_del, f_patch, tail.
      repeat (split; [eassumption|]). split; [reflexivity | exact HT].
Qed.

(** The whole prompt: the preamble and one segment per changed file. *)
Lemma build_prompt_exact (d : pyval) (fs : list pyval) (p : pystr) :
  py_get d "files" (PList []) = Ok (PList fs) ->
  BedrockSummarizer._build_pr_analysis_prompt d = Ok p ->
  renders_prompt d fs p.
Proof.
  unfold BedrockSummarizer._build_pr_analysis_prompt. intros F H.
  apply bind_ok in H as (d_title & Et & H).
  apply bind_ok in H as (d_user & Eu & H).
  apply bind_ok in H as (d_body & Eb & H).
  apply bind_ok in H as (files_v & Ev & H).
  rewrite F in Ev. apply Ok_inj in Ev as <-.
  apply bind_ok in H as (files & Ei & H). apply Ok_inj in Ei as <-.
  exists d_title, d_user, d_body.
  enough (X : exists segs,
             Forall2 (renders_file slot_of_code) fs segs /\
             p = prompt_preamble d_title d_user d_body ++ concat segs).
  { destruct X as (segs & F2 & ->). exists segs. auto. }
  clear F Et Eu Eb. revert H. fold (prompt_preamble d_title d_user d_body).
  generalize (prompt_preamble d_title d_user d_body). intros p0 H.
  revert p0 p H. induction fs as [|f fs IH]; intros p0 p H.
  - apply Ok_inj in H as <-. exists []. split; [constructor | now rewrite app_nil_r].
  - cbn [for_each] in H. apply bind_ok in H as (p1 & Hf & H).
    destruct (IH _ _ H) as (segs & HF & ->). clear IH H.
    apply bind_ok in Hf as (f_name & E1 & Hf).
    apply bind_ok in Hf as (f_status & E2 & Hf).
    apply bind_ok in Hf as (f_add & E3 & Hf).
    apply bind_ok in Hf as (f_del & E4 & Hf).
    apply bind_ok in Hf as (f_patch & E5 & Hf).
    apply bind_ok in Hf as (small & E6 & Hf).
    assert (T : exists tail, p1 =
              p0 ++ ((nl ++ lit "File: " ++ py_str f_name)
                 ++ (nl ++ lit "Status: " ++ py_str f_status)
                 ++ (nl ++ lit "Changes: +" ++ py_str f_add ++ lit " -"
                       ++ py_str f_del ++ lit " lines")
                 ++ tail)
              /\ slot_of_code f_patch tail).
    { destruct small; apply Ok_inj in Hf; subst p1.
      - exists (nl ++ lit "```" ++ nl ++ py_str f_patch ++ nl ++ lit "```" ++ nl).
        split; [rewrite <- !app_assoc; reflexivity|]. split.
        + intros ->. discriminate E6.
        + intros s ->. destruct s as [|c s]; [discriminate E6|].
          cbn [truthy bind py_len] in E6. apply Ok_inj in E6.
          apply Nat.ltb_lt in E6. split.
          * intros [N|L]; [discriminate N | lia].
          * intros _. reflexivity.
      - exists (nl ++ lit "[Diff too large to include]" ++ nl).
        split; [rewrite <- !app_assoc; reflexivity|]. split.
        + intros _. reflexivity.
        + intros s ->. split; [intros _; reflexivity|].
          intros L. destruct s as [|c s]; [cbn [length] in L; lia|].
          cbn [truthy bind py_len] in E6. apply Ok_inj in E6.
          apply Nat.ltb_ge in E6. lia. }
    destruct T as (tail & -> & HT).
    eexists (_ :: segs). split.
    + constructor; [|exact HF].
      exists f_name, f_status, f_add, f_del, f_patch, tail.
      repeat (split; [eassumption|]). split; [reflexivity | exact HT].
    + rewrite concat_cons, <- app_assoc. reflexivity.
Qed.

End SummarizerFacts.

(** ** Reasoning in [M] *)

Lemma mbind_ret {A B} (a : A) (k : A -> M B) : mbind (ret a) k = k a.
Proof. unfold mbind, ret. now destruct (k a). Qed.

Lemma mbind_lift_Ok {A B} (a : A) (k : A -> M B) : mbind (lift (Ok a)) k = k a.
Proof. unfold mbind, lift. now destruct (k a). Qed.

Lemma mbind_lift_Raise {A B} (e : exn) (k : A -> M B) :
  mbind (lift (Raise e)) k = raise e.
Proof. reflexivity. Qed.

Lemma mbind_raise {A B} (e : exn) (k : A -> M B) : mbind (raise e) k = raise e.
Proof. reflexivity. Qed.

Lemma mbind_log {B} (l : level) (msg : pystr) (k : unit -> M B) :
  mbind (log l msg) k = emit [Log l msg] (k tt).
Proof. unfold mbind, log, emit. now destruct (k tt). Qed.

Lemma mbind_emit {A B} (es : list event) (m : M A) (k : A -> M B) :
  mbind (emit es m) k = emit es (mbind m k).
Proof.
  unfold mbind, emit. destruct m as [t [a|e]]; cbn [fst snd].
  - destruct (k a). cbn [fst snd]. now rewrite app_assoc.
  - reflexivity.
Qed.

Lemma try_except_emit {A} (es : list event) (m : M A) (h : exn -> M A) :
  try_except (emit es m) h = emit es (try_except m h).
Proof.
  unfold try_except, emit. destruct m as [t [a|e]]; cbn [fst snd].
  - reflexivity.
  - destruct (h e). cbn [fst snd]. now rewrite app_assoc.
Qed.

Lemma try_except_ret {A} (a : A) (h : exn -> M A) : try_except (ret a) h = ret a.
Proof. reflexivity. Qed.

Lemma try_except_raise {A} (e : exn) (h : exn -> M A) :
  try_except (raise e) h = h e.
Proof. unfold try_except, raise. now destruct (h e). Qed.

Lemma mbind_pair_Ok {A B} (t : list event) (a : A) (k : A -> M B) :
  mbind (t, Ok a) k = emit t (k a).
Proof. unfold mbind, emit. now destruct (k a). Qed.

Lemma snd_emit {A} (es : list event) (m : M A) : snd (emit es m) = snd m.
Proof. reflexivity. Qed.

Lemma fst_emit {A} (es : list event) (m : M A) : fst (emit es m) = es ++ fst m.
Proof. reflexivity. Qed.

Create Rewrite HintDb eff.
#[local] Hint Rewrite @mbind_ret @mbind_lift_Ok @mbind_lift_Raise @mbind_raise
  @mbind_log @mbind_emit @try_except_emit @try_except_ret @try_except_raise
  @snd_emit @fst_emit : eff.

Section CollectorFacts.
Context {rt : PyRuntime}.

Lemma for_eachM_collect {A B} (g : A -> B) (xs : list A) (acc : list B) :
  for_eachM xs acc (fun acc x => ret (acc ++ [g x])) = ([], Ok (acc ++ map g xs)).
Proof.
  revert acc. induction xs as [|x xs IH]; intros acc; cbn [for_eachM map].
  - now rewrite app_nil_r.
  - unfold mbind at 1. cbn [ret]. rewrite IH. now rewrite <- app_assoc.
Qed.

Lemma for_paginated_collect {A B} (g : A -> B) (p : Paginated A) (acc : list B) :
  for_paginated p acc (fun acc x => ret (acc ++ [g x])) =
  lift (match failure p with
        | None => Ok (acc ++ map g (items p))
        | Some e => Raise e
        end).
Proof.
  unfold for_paginated. rewrite for_eachM_collect. cbn [mbind].
  destruct (failure p); reflexivity.
Qed.


Lemma get_recent_merges_raises (w : World) (self : GithubCollector) :
  not_configured self = false ->
  get_recent_merges w self = ([], Raise timezone_error).
Proof.
  intros H. unfold get_recent_merges. rewrite H.
  destruct (client self) eqn:E.
  - reflexivity.
  - unfold not_configured in H. now rewrite E in H.
Qed.

Lemma collect_raises (w : World) (self : GithubCollector) :
  not_configured self = false ->
  exists t, collect w self = (t, Raise timezone_error).
Proof.
  intros H. unfold collect. rewrite (get_recent_merges_raises w self H).
  destruct (get_open_prs w self) as [t [a|e]] eqn:E.
  - eexists. cbn [mbind]. reflexivity.
  - exfalso. revert E. unfold get_open_prs. rewrite H.
    destruct (client self); [|discriminate].
    unfold try_except.
    match goal with |- context [let (_, _) := ?m in _] => destruct m as [t0 [a|e0]] end;
      cbn; discriminate.
Qed.


(** ** No token *)


Lemma init_without_token (w : World) :
  no_token w ->
  exists self t, __init__ w = (t, Ok self) /\ client self = None.
Proof.
  intros [H|H]; unfold __init__; rewrite H; cbn; eauto.
Qed.

Lemma init_ai_summarizer (w : World) :
  exists self t, __init__ w = (t, Ok self) /\ ai_summarizer self = None.
Proof.
  unfold __init__.
  destruct (environ w (lit "GITHUB_TOKEN")) as [[|c tk]|]; cbn; eauto.
  destruct (Github_new w (c :: tk)); cbn; eauto.
Qed.

Lemma unset_client_not_configured (self : GithubCollector) :
  client self = None -> not_configured self = true.
Proof. intros H. unfold not_configured. now rewrite H. Qed.

Lemma unset_client_all_empty (w : World) (self : GithubCollector) :
  client self = None ->
  snd (get_open_prs w self) = Ok [] /\
  snd (get_recent_merges w self) = Ok [] /\
  snd (get_urgent_commits w self) = Ok [] /\
  snd (get_pr_analyses w self) = Ok [] /\
  (forall repo_name pr_number,
     snd (analyze_pr self repo_name pr_number) = Ok (PDict [])) /\
  exists data,
    snd (collect w self) = Ok (PDict data) /\
    dict_lookup data (lit "open_prs") = Some (PList []) /\
    dict_lookup data (lit "recent_merges") = Some (PList []) /\
    dict_lookup data (lit "urgent_commits") = Some (PList []).
Proof.
  intros H. pose proof (unset_client_not_configured self H) as NC.
  assert (A : get_pr_analyses w self =
              ([Log WARNING (lit "GitHub client not initialized or no repositories configured")],
               Ok [])).
  { unfold get_pr_analyses. rewrite NC. reflexivity. }
  repeat split.
  - unfold get_open_prs. now rewrite H.
  - unfold get_recent_merges. now rewrite H.
  - unfold get_urgent_commits. now rewrite H.
  - now rewrite A.
  - intros. unfold analyze_pr. now rewrite H.
  - unfold collect, get_open_prs, get_recent_merges, get_urgent_commits.
    rewrite H, A. cbn [mbind log ret app].
    destruct (str_eqb _ _); cbn [mbind log ret app snd];
      eexists; (split; [reflexivity|]); repeat split; reflexivity.
Qed.


(** ** Operations whose body is inside the [try] *)

Lemma try_except_total {A} (m : M A) (h : exn -> M A) :
  (forall e, exists t a, h e = (t, Ok a)) ->
  exists t a, try_except m h = (t, Ok a).
Proof.
  intros H. destruct m as [t [a|e]]; cbn [try_except]; [eauto|].
  destruct (H e) as (t' & a & ->). eauto.
Qed.

Lemma guarded_operations_return (w : World) (self : GithubCollector) :
  (exists t prs, get_open_prs w self = (t, Ok prs)) /\
  (exists t commits, get_urgent_commits w self = (t, Ok commits)) /\
  (forall repo_name pr_number,
     exists t rec, analyze_pr self repo_name pr_number = (t, Ok rec)) /\
  (exists t analyses, get_pr_analyses w self = (t, Ok analyses)).
Proof.
  repeat split.
  - unfold get_open_prs. destruct (client self); [|cbn; eauto].
    destruct (not_configured self); [cbn; eauto|].
    apply try_except_total. intros e. cbn. eauto.
  - unfold get_urgent_commits. destruct (client self); [|cbn; eauto].
    destruct (not_configured self); [cbn; eauto|].
    apply try_except_total. intros e. cbn. eauto.
  - intros repo_name pr_number. unfold analyze_pr.
    destruct (client self); [|cbn; eauto].
    apply try_except_total. intros e. cbn. eauto.
  - unfold get_pr_analyses. destruct (not_configured self); [cbn; eauto|].
    apply try_except_total. intros e. cbn. eauto.
Qed.

(** ** [analyze_pr] *)


Lemma analyze_pr_without_summarizer (self : GithubCollector)
    (repo_name : pystr) (pr_number : Z) (tr : list event) (rec : pyval) :
  ai_summarizer self = None ->
  analyze_pr self repo_name pr_number = (tr, Ok rec) ->
  rec <> PDict [] ->
  exists pr_title,
    py_get rec "title" PNone = Ok (PStr pr_title) /\
    py_get rec "analysis" PNone
      = Ok (PStr (unavailable_text repo_name pr_number pr_title)) /\
    existsb is_invoke tr = false.
Proof.
  intros AI H NE. unfold analyze_pr in H. rewrite AI in H.
  assert (F : forall m : M pyval, m = (tr, Ok rec) -> snd m <> Ok (PDict [])).
  { intros m ->. cbn. congruence. }
  destruct (client self) as [github|];
    [autorewrite with eff in H | apply F in H; autorewrite with eff in H; exfalso; apply H; reflexivity].
  destruct (get_repo github repo_name) as [repo|e];
    [autorewrite with eff in H | apply F in H; autorewrite with eff in H; exfalso; apply H; reflexivity].
  destruct (get_pull repo pr_number) as [pr|e];
    [autorewrite with eff in H | apply F in H; autorewrite with eff in H; exfalso; apply H; reflexivity].
  destruct (get_files pr) as [files|e];
    [autorewrite with eff in H | apply F in H; autorewrite with eff in H; exfalso; apply H; reflexivity].
  rewrite for_paginated_collect in H.
  destruct (failure files) as [e|];
    [apply F in H; autorewrite with eff in H; exfalso; apply H; reflexivity | autorewrite with eff in H].
  match type of H with
  | context [mbind (lift ?b) _] => destruct b as [prompt|e]
  end;
    [autorewrite with eff in H | apply F in H; autorewrite with eff in H; exfalso; apply H; reflexivity].
  change (py_get (diff_data pr ([] ++ map file_data (items files))) "title" PNone)
    with (Ok (PStr (title pr))) in H.
  change (py_get (diff_data pr ([] ++ map file_data (items files))) "user" PNone)
    with (Ok (PStr (login_or_unknown (user pr)))) in H.
  autorewrite with eff in H.
  pose proof (f_equal fst H) as Ht. apply (f_equal snd) in H.
  cbn in Ht, H. apply Ok_inj in H. subst rec tr.
  exists (title pr). repeat split; reflexivity.
Qed.


Lemma generate_custom_text_total (s : BedrockSummarizer.BedrockSummarizer)
    (prompt : pystr) :
  exists t v, BedrockSummarizer.generate_custom_text s prompt = (t, Ok v).
Proof.
  unfold BedrockSummarizer.generate_custom_text.
  destruct (BedrockSummarizer.client s) as [bedrock|]; [|solve [cbn; eauto]].
  destruct (BedrockSummarizer.model_id s) as [[|c id]|]; try solve [cbn; eauto].
  cbv zeta.
  destruct (BedrockSummarizer.invoke_model bedrock (c :: id) _) as [body|e];
    [|solve [cbn; eauto]].
  rewrite mbind_pair_Ok, try_except_emit.
  match goal with
  | |- context [mbind (lift ?r) _] => destruct r as [text|e]
  end; autorewrite with eff; unfold emit; cbn [fst snd ret]; eauto.
Qed.

Lemma build_prompt_total (pr : PullRequest) (files : list File) :
  exists prompt,
    BedrockSummarizer._build_pr_analysis_prompt
      (diff_data pr (map file_data files)) = Ok prompt.
Proof.
  unfold BedrockSummarizer._build_pr_analysis_prompt.
  change (py_get (diff_data pr (map file_data files)) "title" PNone)
    with (Ok (PStr (title pr))).
  change (py_get (diff_data pr (map file_data files)) "user" PNone)
    with (Ok (PStr (login_or_unknown (user pr)))).
  change (py_get (diff_data pr (map file_data files)) "files" (PList []))
    with (Ok (PList (map file_data files))).
  destruct (py_get (diff_data pr (map file_data files)) "body" _) as [d_body|e] eqn:E;
    [|destruct (body pr); discriminate E].
  cbn [bind py_iter].
  match goal with |- context [for_each _ ?p0 _] => generalize p0 end.
  clear E. induction files as [|f fs IH]; intros p0; cbn [map for_each].
  - eauto.
  - change (py_get (file_data f) "filename" PNone) with (Ok (PStr (filename f))).
    change (py_get (file_data f) "status" PNone) with (Ok (PStr (status f))).
    change (py_get (file_data f) "additions" PNone) with (Ok (PInt (additions f))).
    change (py_get (file_data f) "deletions" PNone) with (Ok (PInt (deletions f))).
    change (py_get (file_data f) "patch" PNone)
      with (Ok (match patch f with Some p => PStr p | None => PNone end)).
    cbn [bind].
    destruct (patch f) as [[|c p]|]; cbn [truthy py_len bind];
      try destruct (Nat.ltb _ _); apply IH.
Qed.

(** The text of a patch of 3000 characters or more does not reach the
    prompt. *)
Lemma long_patches_same_prompt (pr : PullRequest) (fs fs' : list File) :
  Forall2 same_but_long_patch fs fs' ->
  BedrockSummarizer._build_pr_analysis_prompt (diff_data pr (map file_data fs))
  = BedrockSummarizer._build_pr_analysis_prompt (diff_data pr (map file_data fs')).
Proof.
  intros H. unfold BedrockSummarizer._build_pr_analysis_prompt.
  change (py_get (diff_data pr (map file_data fs)) "title" PNone)
    with (Ok (PStr (title pr))).
  change (py_get (diff_data pr (map file_data fs')) "title" PNone)
    with (Ok (PStr (title pr))).
  change (py_get (diff_data pr (map file_data fs)) "user" PNone)
    with (Ok (PStr (login_or_unknown (user pr)))).
  change (py_get (diff_data pr (map file_data fs')) "user" PNone)
    with (Ok (PStr (login_or_unknown (user pr)))).
  change (py_get (diff_data pr (map file_data fs)) "files" (PList []))
    with (Ok (PList (map file_data fs))).
  change (py_get (diff_data pr (map file_data fs')) "files" (PList []))
    with (Ok (PList (map file_data fs'))).
  change (py_get (diff_data pr (map file_data fs)) "body"
            (PStr (lit "No description provided.")))
    with (py_get (diff_data pr (map file_data fs')) "body"
            (PStr (lit "No description provided."))).
  cbn [bind].
  destruct (py_get (diff_data pr (map file_data fs')) "body" _) as [d_body|e];
    [|reflexivity].
  cbn [bind py_iter].
  match goal with |- for_each _ ?p0 _ = _ => generalize p0 end.
  induction H as [|f f' fs fs' Hff _ IH]; intros p0; [reflexivity|].
  cbn [map for_each].
  match goal with
  | |- bind ?a _ = bind ?b _ =>
      assert (E : a = b);
        [|rewrite E; destruct b as [p1|e]; cbn [bind]; [apply IH | reflexivity]]
  end.
  { destruct Hff as (E1 & E2 & E3 & E4 & [E5|(s & s' & P & P' & L & L')]).
    - unfold file_data. now rewrite E1, E2, E3, E4, E5.
    - change (py_get (file_data f) "filename" PNone) with (Ok (PStr (filename f))).
      change (py_get (file_data f) "status" PNone) with (Ok (PStr (status f))).
      change (py_get (file_data f) "additions" PNone) with (Ok (PInt (additions f))).
      change (py_get (file_data f) "deletions" PNone) with (Ok (PInt (deletions f))).
      change (py_get (file_data f) "patch" PNone)
        with (Ok (match patch f with Some p => PStr p | None => PNone end)).
      change (py_get (file_data f') "filename" PNone) with (Ok (PStr (filename f'))).
      change (py_get (file_data f') "status" PNone) with (Ok (PStr (status f'))).
      change (py_get (file_data f') "additions" PNone) with (Ok (PInt (additions f'))).
      change (py_get (file_data f') "deletions" PNone) with (Ok (PInt (deletions f'))).
      change (py_get (file_data f') "patch" PNone)
        with (Ok (match patch f' with Some p => PStr p | None => PNone end)).
      rewrite P, P', E1, E2, E3, E4. cbn [bind].
      destruct s as [|c s]; [cbn [length] in L; lia|].
      destruct s' as [|c' s']; [cbn [length] in L'; lia|].
      cbn [truthy py_len bind].
      apply Nat.ltb_ge in L, L'. rewrite L, L'. reflexivity. }
Qed.

Lemma analyze_pr_logs_prompt (self : GithubCollector) (repo_name : pystr)
    (pr_number : Z) (github : Github) (repo : Repository) (pr : PullRequest)
    (files : Paginated File) :
  client self = Some github ->
  get_repo github repo_name = Ok repo ->
  get_pull repo pr_number = Ok pr ->
  get_files pr = Ok files ->
  failure files = None ->
  exists tr rec prompt,
    analyze_pr self repo_name pr_number = (tr, Ok rec) /\
    rec <> PDict [] /\
    BedrockSummarizer._build_pr_analysis_prompt
      (diff_data pr (map file_data (items files))) = Ok prompt /\
    In (Log DEBUG (lit "AI Prompt for PR #" ++ dec pr_number ++ lit ":" ++ nl
                     ++ prompt)) tr.
Proof.
  intros C R P F N. unfold analyze_pr. rewrite C.
  autorewrite with eff. rewrite R. autorewrite with eff. rewrite P.
  autorewrite with eff. rewrite F. autorewrite with eff.
  rewrite for_paginated_collect, N. autorewrite with eff.
  destruct (build_prompt_total pr (items files)) as [prompt B].
  match goal with
  | |- context [mbind (lift ?b) _] =>
      change b with (BedrockSummarizer._build_pr_analysis_prompt
                       (diff_data pr (map file_data (items files))))
  end.
  rewrite B. autorewrite with eff.
  change (py_get (diff_data pr ([] ++ map file_data (items files))) "title" PNone)
    with (Ok (PStr (title pr))).
  change (py_get (diff_data pr ([] ++ map file_data (items files))) "user" PNone)
    with (Ok (PStr (login_or_unknown (user pr)))).
  destruct (ai_summarizer self) as [s|].
  - unfold BedrockSummarizer.analyze_pr_diff.
    change (diff_data pr ([] ++ map file_data (items files)))
      with (diff_data pr (map file_data (items files))).
    rewrite B. autorewrite with eff.
    destruct (generate_custom_text_total s prompt) as (t & v & G). rewrite G.
    rewrite mbind_pair_Ok. autorewrite with eff.
    do 3 eexists. split; [reflexivity|]. split; [discriminate|].
    split; [reflexivity|].
    cbn [emit fst snd ret app]. right. apply in_or_app. right. left. reflexivity.
  - autorewrite with eff.
    do 3 eexists. split; [reflexivity|]. split; [discriminate|].
    split; [reflexivity|].
    cbn [emit fst snd ret app]. right. left. reflexivity.
Qed.

End CollectorFacts.

(** ** The formatter *)

Section FormatterFacts.
Context {rt : PyRuntime}.

(** Lines of the card by the shape that tells them apart. *)

Lemma TextBlock_text_inj (t t' : pystr) (a a' : list (pystr * pyval)) :
  TextBlock (PStr t) a = TextBlock (PStr t') a' -> t = t'.
Proof. intros E. injection E. auto. Qed.

Lemma foreign_bold (t : pystr) (attrs : list (pystr * pyval)) :
  foreign (TextBlock (PStr t) (weight "Bolder" :: attrs)).
Proof. repeat split; [discriminate | intros [n E]; discriminate E ..]. Qed.

Lemma foreign_plain (t : pyval) : foreign (TextBlock t [wrap]).
Proof. repeat split; [discriminate | intros [n E]; discriminate E ..]. Qed.

Lemma foreign_overflow (n : Z) (what : string) :
  ends_with (lit "merged PRs") (lit what) = false ->
  (10 <= length (lit what))%nat ->
  foreign (TextBlock (PStr (lit "...and " ++ dec n ++ lit what)) [isSubtle; wrap]).
Proof.
  intros Hw L. repeat split; [discriminate | intros [k E]; discriminate E |].
  intros [k E]. apply TextBlock_text_inj in E. revert E. rewrite !app_assoc.
  apply not_eq_sym, tails_differ with (p := lit "merged PRs"); auto.
Qed.


Lemma foreign_spaced (c : N) (t : pystr) :
  c <> check_mark -> c <> 78%N ->
  foreign (TextBlock (PStr (c :: t)) [wrap; spacing "Medium"]).
Proof.
  intros H1 H2. repeat split.
  - intros E. apply TextBlock_text_inj in E. injection E as E _. contradiction.
  - intros [n E]. apply TextBlock_text_inj in E. injection E as E _. contradiction.
  - intros [n E]. discriminate E.
Qed.

Lemma foreign_completed (n : Z) :
  foreign (TextBlock (PStr ([check_mark] ++ lit " " ++ dec n
                              ++ lit " tasks were completed yesterday:"))
             [wrap; spacing "Medium"]).
Proof.
  repeat split.
  - discriminate.
  - intros [k E]. apply TextBlock_text_inj in E. revert E. rewrite !app_assoc.
    apply not_eq_sym, tails_differ with (p := lit "merged yesterday:");
      [reflexivity | reflexivity | vm_compute; lia].
  - intros [k E]. discriminate E.
Qed.

Lemma foreign_subtle (c : N) (t : pystr) :
  c <> 46%N -> foreign (TextBlock (PStr (c :: t)) [isSubtle; wrap]).
Proof.
  intros H. repeat split; [discriminate | intros [n E]; discriminate E |].
  intros [n E]. apply TextBlock_text_inj in E. injection E as E _. contradiction.
Qed.

Lemma foreign_other (kvs : list (pystr * pyval)) :
  length kvs <> 4%nat -> foreign (PDict kvs).
Proof.
  intros L.
  pose (sz := fun b => match b with PDict l => length l | _ => 0%nat end).
  repeat split; [intros E | intros [n E] ..];
    apply (f_equal sz) in E; apply L; exact E.
Qed.

(** ** The sections only append, and what they append *)

Ltac shape :=
  first
    [ apply foreign_bold
    | apply foreign_plain
    | apply foreign_completed
    | apply foreign_overflow; [reflexivity | vm_compute; lia]
    | apply foreign_spaced; discriminate
    | apply foreign_subtle; discriminate
    | apply foreign_other; discriminate
    | solve [repeat split; [discriminate | intros [? E]; discriminate E ..]] ].

Ltac grow :=
  repeat first [apply extends_refl | eassumption | apply extends_step];
  try shape.

Lemma jira_section_extends (body body' : list pyval) (jira_data : pyval) :
  _add_jira_section body jira_data = Ok body' ->
  extends foreign body body'.
Proof.
  unfold _add_jira_section. cbv zeta. intros H.
  apply bind_ok in H as (new_tickets & _ & H).
  apply bind_ok in H as (body1 & H1 & H).
  assert (X1 : extends foreign body body1).
  { destruct (truthy new_tickets).
    - apply bind_ok in H1 as (n & _ & H1).
      apply bind_ok in H1 as (shown & _ & H1).
      apply bind_ok in H1 as (tickets & _ & H1).
      apply bind_ok in H1 as (body2 & H2 & H1).
      apply for_each_extends with (P := foreign) in H2.
      2:{ clear. intros s x s' H.
          apply bind_ok in H as (k & _ & H). apply bind_ok in H as (sm & _ & H).
          apply bind_ok in H as (st & _ & H). apply Ok_inj in H as <-.
          eexists. split; [reflexivity | shape]. }
      apply bind_ok in H1 as (n' & _ & H1).
      assert (X : extends foreign body body2).
      { eapply extends_trans; [|exact H2]. grow. }
      destruct (5 <? n')%nat.
      + apply bind_ok in H1 as (n'' & _ & H1). apply Ok_inj in H1 as <-. grow.
      + now apply Ok_inj in H1 as <-.
    - apply Ok_inj in H1 as <-. grow. }
  clear H1.
  apply bind_ok in H as (blocked_tasks & _ & H).
  apply bind_ok in H as (body2 & H2 & H).
  assert (X2 : extends foreign body body2).
  { destruct (truthy blocked_tasks).
    - apply bind_ok in H2 as (n & _ & H2).
      apply bind_ok in H2 as (shown & _ & H2).
      apply bind_ok in H2 as (tasks & _ & H2).
      apply bind_ok in H2 as (body3 & H3 & H2).
      apply for_each_extends with (P := foreign) in H3.
      2:{ clear. intros s x s' H.
          apply bind_ok in H as (k & _ & H). apply bind_ok in H as (sm & _ & H).
          apply bind_ok in H as (st & _ & H). apply Ok_inj in H as <-.
          eexists. split; [reflexivity | shape]. }
      apply bind_ok in H2 as (n' & _ & H2).
      assert (X : extends foreign body body3).
      { eapply extends_trans; [|exact H3]. grow. }
      destruct (5 <? n')%nat.
      + apply bind_ok in H2 as (n'' & _ & H2). apply Ok_inj in H2 as <-. grow.
      + now apply Ok_inj in H2 as <-.
    - now apply Ok_inj in H2 as <-. }
  clear H2 X1.
  apply bind_ok in H as (status_changes & _ & H).
  destruct (truthy status_changes); [|now apply Ok_inj in H as <-].
  apply bind_ok in H as (changes & _ & H).
  apply bind_ok in H as (completed & _ & H).
  destruct completed as [|c0 completed]; [now apply Ok_inj in H as <-|].
  apply bind_ok in H as (body3 & H3 & H).
  apply for_each_extends with (P := foreign) in H3.
  2:{ clear. intros s x s' H.
      apply bind_ok in H as (k & _ & H). apply bind_ok in H as (sm & _ & H).
      apply bind_ok in H as (st & _ & H). apply Ok_inj in H as <-.
      eexists. split; [reflexivity | shape]. }
  assert (X : extends foreign body body3).
  { eapply extends_trans; [|exact H3]. grow. }
  destruct (5 <? _)%nat; apply Ok_inj in H as <-; grow.
Qed.


Lemma renders_analysis_foreign (a : pyval) (g : list pyval) :
  renders_analysis a g -> Forall foreign g.
Proof.
  intros (n & r & t & au & at_ & url & text & _ & _ & _ & _ & _ & _ & _ & ->).
  apply Forall_app. split.
  - repeat (apply Forall_cons; [shape|]). apply Forall_nil.
  - destruct (truthy url); [apply Forall_cons; [shape|] |]; apply Forall_nil.
Qed.

Lemma analysis_step (s s' : list pyval) (analysis : pyval) :
  (pr_number <- py_get analysis "pr_number" PNone ;;
   repo <- py_get analysis "repo" (PStr []) ;;
   title <- py_get analysis "title" (PStr (lit "Untitled PR")) ;;
   author <- py_get analysis "author" (PStr (lit "Unknown")) ;;
   analysis_text <- py_get analysis "analysis" (PStr (lit "No analysis available")) ;;
   url <- py_get analysis "url" (PStr []) ;;
   let body := s ++
     [TextBlock (PStr (lit "**PR #" ++ py_str pr_number ++ lit ": "
                         ++ py_str title ++ lit "**"))
        [weight "Bolder"; wrap; spacing "Medium"]] in
   let body := body ++
     [TextBlock (PStr (lit "Repository: " ++ py_str repo
                         ++ lit " | Author: " ++ py_str author))
        [isSubtle; wrap]] in
   let body := body ++ [TextBlock (PStr (lit "---")) [wrap]] in
   n <- py_len analysis_text ;;
   body <-
     (if (500 <? n)%nat then
        head <- py_slice_to 500 analysis_text ;;
        text <- py_add_lit head "..." ;;
        Ok (body ++ [TextBlock text [wrap]])
      else Ok (body ++ [TextBlock analysis_text [wrap]])) ;;
   if truthy url then
     Ok (body ++ [ActionSet "View Pull Request" url])
   else Ok body) = Ok s' ->
  exists g, s' = s ++ g /\ renders_analysis analysis g.
Proof.
  cbv zeta. intros H.
  apply bind_ok in H as (pr_number & E1 & H).
  apply bind_ok in H as (repo & E2 & H).
  apply bind_ok in H as (title & E3 & H).
  apply bind_ok in H as (author & E4 & H).
  apply bind_ok in H as (analysis_text & E5 & H).
  apply bind_ok in H as (url & E6 & H).
  apply bind_ok in H as (n & En & H).
  apply bind_ok in H as (body1 & Hb & H).
  assert (T : exists text, body1 = (((s ++
     [TextBlock (PStr (lit "**PR #" ++ py_str pr_number ++ lit ": "
                         ++ py_str title ++ lit "**"))
        [weight "Bolder"; wrap; spacing "Medium"]]) ++
     [TextBlock (PStr (lit "Repository: " ++ py_str repo
                         ++ lit " | Author: " ++ py_str author))
        [isSubtle; wrap]]) ++ [TextBlock (PStr (lit "---")) [wrap]])
          ++ [TextBlock text [wrap]] /\ truncated analysis_text text).
  { destruct (Nat.ltb_spec 500 n) as [L|L].
    - apply bind_ok in Hb as (head & Eh & Hb).
      apply bind_ok in Hb as (text & Et & Hb). apply Ok_inj in Hb as <-.
      exists text. split; [reflexivity|].
      intros s0 ->. cbn in En, Eh. apply Ok_inj in En as <-. apply Ok_inj in Eh as <-.
      cbn in Et. apply Ok_inj in Et as <-. split; [reflexivity | lia].
    - apply Ok_inj in Hb as <-. exists analysis_text. split; [reflexivity|].
      intros s0 ->. cbn in En. apply Ok_inj in En as <-. split; [lia | reflexivity]. }
  destruct T as (text & -> & T).
  eexists. split; cycle 1.
  - exists pr_number, repo, title, author, analysis_text, url, text.
    repeat (split; [eassumption|]). reflexivity.
  - destruct (truthy url); apply Ok_inj in H as <-; rewrite <- !app_assoc; reflexivity.
Qed.

Lemma analyses_section_groups (body body' : list pyval) (pr_analyses : pyval) :
  truthy pr_analyses = true ->
  _add_pr_analyses_section body pr_analyses = Ok body' ->
  exists shown items groups tail,
    py_slice_to 3 pr_analyses = Ok shown /\
    py_iter shown = Ok items /\
    Forall2 renders_analysis items groups /\
    Forall foreign tail /\
    body' = (body ++
      [TextBlock (PStr ([0x1F50D%N] ++ lit " Pull Request Analyses"))
         [weight "Bolder"; size "Medium"; spacing "Medium"]])
      ++ concat groups ++ tail.
Proof.
  unfold _add_pr_analyses_section. cbv zeta. intros T H. rewrite T in H.
  cbn [negb] in H.
  apply bind_ok in H as (shown & Es & H).
  apply bind_ok in H as (items & Ei & H).
  apply bind_ok in H as (body1 & H1 & H).
  apply for_each_groups with (R := renders_analysis) in H1;
    [|intros s x s' Hs; now apply analysis_step].
  destruct H1 as (groups & -> & HF).
  apply bind_ok in H as (n & _ & H).
  exists shown, items, groups.
  destruct (3 <? n)%nat.
  - apply bind_ok in H as (n' & _ & H). apply Ok_inj in H as <-.
    eexists [_]. repeat (split; [eassumption|]). refine (conj _ _); cycle 1.
    + rewrite <- !app_assoc. reflexivity.
    + apply Forall_cons; [shape | apply Forall_nil].
  - apply Ok_inj in H as <-. exists [].
    repeat (split; [eassumption|]). split; [constructor|].
    now rewrite app_nil_r.
Qed.

Lemma Forall_concat (P : pyval -> Prop) (groups : list (list pyval)) :
  Forall (Forall P) groups -> Forall P (concat groups).
Proof.
  induction 1; cbn [concat]; [constructor | now apply Forall_app].
Qed.

Lemma analyses_section_extends (body body' : list pyval) (pr_analyses : pyval) :
  _add_pr_analyses_section body pr_analyses = Ok body' ->
  extends foreign body body'.
Proof.
  intros H. destruct (truthy pr_analyses) eqn:T.
  - apply analyses_section_groups in H as (sh & it & gs & tl & _ & _ & HF & Ht & ->);
      [|exact T].
    eexists. split; [rewrite <- app_assoc; reflexivity|].
    apply Forall_app. split; [apply Forall_cons; [shape | apply Forall_nil]|].
    apply Forall_app. split; [|exact Ht].
    apply Forall_concat. clear -HF.
    induction HF; constructor; eauto using renders_analysis_foreign.
  - unfold _add_pr_analyses_section in H. cbv zeta in H. rewrite T in H.
    cbn [negb] in H. apply Ok_inj in H as <-. grow.
Qed.

Lemma database_section_extends (body body' : list pyval) (db_data : pyval) :
  _add_database_section body db_data = Ok body' ->
  extends foreign body body'.
Proof.
  unfold _add_database_section. cbv zeta. intros H.
  apply bind_ok in H as (activity_stats & _ & H).
  destruct (truthy activity_stats); cbn [negb] in H;
    [|apply Ok_inj in H as <-; grow].
  apply bind_ok in H as (weekly_prs & _ & H).
  apply bind_ok in H as (weekly_tickets & _ & H).
  apply bind_ok in H as (weekly_completed & _ & H).
  apply bind_ok in H as (team_metrics & _ & H).
  destruct (truthy team_metrics).
  - apply bind_ok in H as (member_count & _ & H).
    apply bind_ok in H as (github_users & _ & H).
    apply Ok_inj in H as <-. grow.
  - apply Ok_inj in H as <-. grow.
Qed.


Lemma github_section_structure (body body' : list pyval) (github_data : pyval) :
  _add_github_section body github_data = Ok body' ->
  exists recent_merges pre group post,
    py_get github_data "recent_merges" (PList []) = Ok recent_merges /\
    body' = body ++ pre ++ group ++ post /\
    Forall foreign pre /\ Forall foreign post /\
    merge_group recent_merges group.
Proof.
  unfold _add_github_section. cbv zeta. intros H.
  apply bind_ok in H as (open_prs & _ & H).
  apply bind_ok in H as (body1 & H1 & H).
  assert (X1 : extends foreign body body1).
  { destruct (truthy open_prs).
    - apply bind_ok in H1 as (n & _ & H1).
      apply bind_ok in H1 as (shown & _ & H1).
      apply bind_ok in H1 as (prs & _ & H1).
      apply bind_ok in H1 as (body2 & H2 & H1).
      apply for_each_extends with (P := foreign) in H2.
      2:{ clear. intros s x s' H.
          apply bind_ok in H as (hr & _ & H). apply bind_ok in H as (rt' & _ & H).
          apply bind_ok in H as (num & _ & H). apply bind_ok in H as (ti & _ & H).
          apply bind_ok in H as (au & _ & H). apply Ok_inj in H as <-.
          eexists. split; [reflexivity | shape]. }
      apply bind_ok in H1 as (n' & _ & H1).
      assert (X : extends foreign body body2).
      { eapply extends_trans; [|exact H2]. grow. }
      destruct (5 <? n')%nat.
      + apply bind_ok in H1 as (n'' & _ & H1). apply Ok_inj in H1 as <-. grow.
      + now apply Ok_inj in H1 as <-.
    - apply Ok_inj in H1 as <-. grow. }
  clear H1. destruct X1 as (pre & -> & Hpre).
  apply bind_ok in H as (recent_merges & Erm & H).
  apply bind_ok in H as (body2 & H2 & H).
  assert (X2 : exists group, body2 = (body ++ pre) ++ group
                             /\ merge_group recent_merges group).
  { destruct (truthy recent_merges) eqn:T.
    - apply bind_ok in H2 as (n & En & H2).
      apply bind_ok in H2 as (shown & Es & H2).
      apply bind_ok in H2 as (prs & Ei & H2).
      apply bind_ok in H2 as (body3 & H3 & H2).
      apply for_each_lines with (R := renders_merge) in H3.
      2:{ clear. intros s x s' H.
          apply bind_ok in H as (num & E1 & H). apply bind_ok in H as (ti & E2 & H).
          apply bind_ok in H as (au & E3 & H). apply Ok_inj in H as <-.
          eexists. split; [reflexivity|]. exists num, ti, au. auto. }
      destruct H3 as (lines & -> & HF).
      apply bind_ok in H2 as (n' & En' & H2).
      rewrite En in En'. apply Ok_inj in En' as <-.
      eexists. split; cycle 1.
      + right. split; [exact T|]. exists n, shown, prs, lines.
        repeat (split; [eassumption|]). reflexivity.
      + destruct (5 <? n)%nat.
        * apply bind_ok in H2 as (n'' & En'' & H2).
          rewrite En in En''. apply Ok_inj in En'' as <-.
          apply Ok_inj in H2 as <-. unfold merge_heading, merge_overflow.
          rewrite <- !app_assoc. reflexivity.
        * apply Ok_inj in H2 as <-. unfold merge_heading.
          rewrite <- !app_assoc. cbn [app]. now rewrite app_nil_r.
    - apply Ok_inj in H2 as <-. exists []. split; [now rewrite app_nil_r|].
      left. auto. }
  clear H2. destruct X2 as (group & -> & Hgroup).
  apply bind_ok in H as (urgent_commits & _ & H).
  assert (X3 : extends foreign ((body ++ pre) ++ group) body').
  { destruct (truthy urgent_commits).
    - apply bind_ok in H as (n & _ & H).
      apply bind_ok in H as (shown & _ & H).
      apply bind_ok in H as (commits & _ & H).
      apply bind_ok in H as (body3 & H3 & H).
      apply for_each_extends with (P := foreign) in H3.
      2:{ clear. intros s x s' H.
          apply bind_ok in H as (k & _ & H). apply bind_ok in H as (sm & _ & H).
          apply bind_ok in H as (st & _ & H). apply Ok_inj in H as <-.
          eexists. split; [reflexivity | shape]. }
      apply bind_ok in H as (n' & _ & H).
      assert (X : extends foreign ((body ++ pre) ++ group) body3).
      { eapply extends_trans; [|exact H3]. grow. }
      destruct (5 <? n')%nat.
      + apply bind_ok in H as (n'' & _ & H). apply Ok_inj in H as <-. grow.
      + now apply Ok_inj in H as <-.
    - apply Ok_inj in H as <-. grow. }
  destruct X3 as (post & -> & Hpost).
  exists recent_merges, pre, group, post.
  repeat split; auto. now rewrite <- !app_assoc.
Qed.


Lemma contains_getitem (d : pyval) (k : string) (v : pyval) :
  py_getitem d k = Ok v -> py_contains k d = Ok false -> False.
Proof.
  destruct d as [| | | | |kvs]; try discriminate. cbn.
  induction kvs as [|[k' v'] kvs IH]; cbn; [discriminate|].
  destruct (str_eqb k' (lit k)); cbn; [discriminate | exact IH].
Qed.

Lemma has_data_no_data (d : pyval) (b : bool) :
  has_data d = Ok b -> no_data d = Ok (negb b).
Proof.
  unfold has_data, no_data. destruct (truthy d); cbn [negb].
  - destruct (py_values d); cbn [bind]; [|discriminate].
    intros E. apply Ok_inj in E as <-. reflexivity.
  - intros E. apply Ok_inj in E as <-. reflexivity.
Qed.

(** The body of the card, section by section. *)
Lemma format_structure (self : TeamsFormatter) (data : pyval) (ai_summary : pystr)
    (card : pyval) :
  format_daily_digest self data ai_summary = Ok card ->
  exists jira_data github_data jira_live github_live pre group mid agroups post,
    py_get data "jira" (PDict []) = Ok jira_data /\
    py_get data "github" (PDict []) = Ok github_data /\
    has_data jira_data = Ok jira_live /\
    has_data github_data = Ok github_live /\
    card_body card =
      pre ++ group ++ mid ++ concat agroups ++ post
        ++ (if negb jira_live && negb github_live then [quiet_block] else []) /\
    Forall foreign pre /\ Forall foreign mid /\ Forall foreign post /\
    Forall foreign (concat agroups) /\
    (github_live = false -> group = [] /\ agroups = []) /\
    (github_live = true ->
       exists recent_merges,
         py_get github_data "recent_merges" (PList []) = Ok recent_merges /\
         merge_group recent_merges group) /\
    (forall pr_analyses,
       github_live = true ->
       py_getitem github_data "pr_analyses" = Ok pr_analyses ->
       truthy pr_analyses = true ->
       exists shown items,
         py_slice_to 3 pr_analyses = Ok shown /\
         py_iter shown = Ok items /\
         Forall2 renders_analysis items agroups).
Proof.
  unfold format_daily_digest. cbv zeta. intros H.
  match type of H with
  | context [if truthy (PStr ai_summary) then ?a else ?b] =>
      assert (X0 : extends foreign [] (if truthy (PStr ai_summary) then a else b))
        by (destruct (truthy (PStr ai_summary)); grow);
      destruct X0 as (pre0 & E0 & P0); rewrite E0 in H; clear E0;
      change ([] ++ pre0) with pre0 in H
  end.
  apply bind_ok in H as (jira_data & Ej & H).
  apply bind_ok in H as (jira_live & Ejl & H).
  apply bind_ok in H as (body1 & H1 & H).
  assert (X1 : extends foreign pre0 body1).
  { destruct jira_live; [now apply jira_section_extends in H1|].
    apply Ok_inj in H1 as <-. apply extends_refl. }
  clear H1. destruct X1 as (e1 & -> & P1).
  apply bind_ok in H as (github_data & Eg & H).
  apply bind_ok in H as (github_live & Egl & H).
  apply bind_ok in H as (body2 & H2 & H).
  assert (X2 : exists gpre group mid agroups tail,
    body2 = ((pre0 ++ e1) ++ gpre) ++ group ++ mid ++ concat agroups ++ tail /\
    Forall foreign gpre /\ Forall foreign mid /\ Forall foreign tail /\
    Forall foreign (concat agroups) /\
    (github_live = false -> group = [] /\ agroups = []) /\
    (github_live = true ->
       exists recent_merges,
         py_get github_data "recent_merges" (PList []) = Ok recent_merges /\
         merge_group recent_merges group) /\
    (forall pr_analyses,
       github_live = true ->
       py_getitem github_data "pr_analyses" = Ok pr_analyses ->
       truthy pr_analyses = true ->
       exists shown items,
         py_slice_to 3 pr_analyses = Ok shown /\
         py_iter shown = Ok items /\
         Forall2 renders_analysis items agroups)).
  { destruct github_live.
    2:{ apply Ok_inj in H2 as <-. exists [], [], [], [], [].
        split; [cbn [concat app]; now rewrite !app_nil_r|].
        repeat split; auto; try discriminate; constructor. }
    apply bind_ok in H2 as (bodyg & Hg & H2).
    apply github_section_structure in Hg
      as (rm & gpre & group & gpost & Erm & -> & Pg & Pp & Hgroup).
    apply bind_ok in H2 as (has_key & Ek & H2).
    destruct has_key.
    2:{ apply Ok_inj in H2 as <-. exists gpre, group, gpost, [], [].
        split; [cbn [concat app]; rewrite !app_nil_r, <- !app_assoc; reflexivity|].
        repeat split; auto; try discriminate; try (now exists rm);
          try (now constructor).
        intros pa _ Epa _. exfalso. eapply contains_getitem; eassumption. }
    apply bind_ok in H2 as (pa & Epa & H2).
    destruct (truthy pa) eqn:T.
    2:{ apply Ok_inj in H2 as <-. exists gpre, group, gpost, [], [].
        split; [cbn [concat app]; rewrite !app_nil_r, <- !app_assoc; reflexivity|].
        repeat split; auto; try discriminate; try (now exists rm);
          try (now constructor).
        intros pa' _ Epa' T'. rewrite Epa in Epa'. apply Ok_inj in Epa' as <-.
        congruence. }
    apply bind_ok in H2 as (pa' & Epa' & H2).
    rewrite Epa in Epa'. apply Ok_inj in Epa' as <-.
    apply analyses_section_groups in H2
      as (shown & items & groups & tail & Es & Ei & HF & Pt & ->); [|exact T].
    eexists gpre, group, (gpost ++ [_]), groups, tail.
    split; [rewrite <- !app_assoc; reflexivity|].
    split; [exact Pg|].
    split; [apply Forall_app; split; [exact Pp | apply Forall_cons; [shape | apply Forall_nil]]|].
    split; [exact Pt|].
    split; [apply Forall_concat; clear -HF;
            induction HF; constructor; eauto using renders_analysis_foreign|].
    split; [discriminate|].
    split; [intros _; now exists rm|].
    intros pa' _ Epa' _. rewrite Epa in Epa'. apply Ok_inj in Epa' as <-.
    now exists shown, items. }
  clear H2.
  destruct X2 as (gpre & group & mid & agroups & tail & -> & Pg & Pm & Pt & Pa
                  & Hoff & Hon & Han).
  apply bind_ok in H as (db_data & _ & H).
  apply bind_ok in H as (db_live & _ & H).
  apply bind_ok in H as (body3 & H3 & H).
  assert (X3 : extends foreign
                 (((pre0 ++ e1) ++ gpre) ++ group ++ mid ++ concat agroups ++ tail)
                 body3).
  { destruct db_live; [now apply database_section_extends in H3|].
    apply Ok_inj in H3 as <-. apply extends_refl. }
  clear H3. destruct X3 as (e3 & -> & P3).
  rewrite (has_data_no_data jira_data jira_live Ejl) in H. cbn [bind] in H.
  assert (Q : (if negb jira_live then no_data github_data else Ok false)
              = Ok (negb jira_live && negb github_live)).
  { destruct jira_live; cbn [negb andb]; [reflexivity|].
    now apply has_data_no_data. }
  rewrite Q in H. cbn [bind] in H. apply Ok_inj in H as <-.
  exists jira_data, github_data, jira_live, github_live,
    ((pre0 ++ e1) ++ gpre), group, mid, agroups, (tail ++ e3).
  repeat (split; [assumption|]).
  split.
  - change (card_body (card_of ?b)) with b.
    destruct (negb jira_live && negb github_live);
      rewrite <- ?app_assoc; rewrite ?app_nil_r; reflexivity.
  - split; [repeat (apply Forall_app; split); assumption|].
    split; [assumption|]. split; [now apply Forall_app|].
    split; [exact Pa|].
    split; [exact Hoff | split; [exact Hon | exact Han]].
Qed.


(** ** The quiet-day block *)

Lemma existsb_truthy_values (kvs : list (pystr * pyval)) :
  py_any (map snd kvs) = false <->
  Forall (fun kv => truthy (snd kv) = false) kvs.
Proof.
  unfold py_any. induction kvs as [|kv kvs IH]; cbn [map existsb].
  - split; [constructor | reflexivity].
  - rewrite orb_false_iff, IH. split.
    + intros [H1 H2]. now constructor.
    + intros H. inversion H; subst. auto.
Qed.


Lemma absent_has_data (d : pyval) :
  absent_or_all_empty d -> has_data d = Ok false.
Proof.
  intros [H|(kvs & -> & H)]; unfold has_data.
  - now rewrite H.
  - destruct (truthy (PDict kvs)); [|reflexivity]. cbn [py_values bind].
    apply existsb_truthy_values in H. now rewrite H.
Qed.





Lemma py_get_dict (kvs : list (pystr * pyval)) (k : string) (d : pyval) :
  py_get (PDict kvs) k d
  = Ok (match dict_lookup kvs (lit k) with Some x => x | None => d end).
Proof. unfold py_get. now destruct (dict_lookup kvs (lit k)). Qed.

Lemma lookup_in_values (kvs : list (pystr * pyval)) (k : pystr) (v : pyval) :
  dict_lookup kvs k = Some v -> In v (map snd kvs).
Proof.
  induction kvs as [|[k' v'] kvs IH]; cbn; [discriminate|].
  destruct (str_eqb k' k); [intros [= ->]; now left | right; auto].
Qed.

Lemma has_data_with_value (kvs : list (pystr * pyval)) (k : pystr) (v : pyval) :
  dict_lookup kvs k = Some v -> truthy v = true -> has_data (PDict kvs) = Ok true.
Proof.
  intros L T. unfold has_data.
  destruct kvs as [|kv kvs]; [discriminate L|].
  cbn [truthy py_values bind]. f_equal. unfold py_any.
  apply existsb_exists. exists v. split; [|exact T].
  now apply lookup_in_values in L.
Qed.

Lemma database_section_ok (body : list pyval) (db : list (pystr * pyval))
    (stat : pystr * pyval) (stats : list (pystr * pyval)) :
  dict_lookup db (lit "activity_stats") = Some (PDict (stat :: stats)) ->
  (dict_lookup db (lit "team_metrics") = None \/
   exists tm, dict_lookup db (lit "team_metrics") = Some (PDict tm)) ->
  exists ext,
    _add_database_section body (PDict db)
    = Ok ((body ++ [database_heading]) ++ ext).
Proof.
  intros S T. unfold _add_database_section. cbv zeta.
  rewrite !py_get_dict, S. cbn [bind truthy negb].
  rewrite !py_get_dict. cbn [bind].
  destruct T as [T|(tm & T)]; rewrite T.
  - cbn [truthy]. eexists [_]. reflexivity.
  - destruct tm as [|m tm]; cbn [truthy].
    + eexists [_]. reflexivity.
    + rewrite !py_get_dict. cbn [bind]. eexists [_; _].
      rewrite <- !app_assoc. reflexivity.
Qed.

Lemma database_only_digest (self : TeamsFormatter) (data : pyval)
    (ai_summary : pystr) (jira_data github_data : pyval)
    (db : list (pystr * pyval)) (stat : pystr * pyval)
    (stats : list (pystr * pyval)) :
  py_get data "jira" (PDict []) = Ok jira_data ->
  py_get data "github" (PDict []) = Ok github_data ->
  absent_or_all_empty jira_data ->
  absent_or_all_empty github_data ->
  py_get data "database" (PDict []) = Ok (PDict db) ->
  dict_lookup db (lit "activity_stats") = Some (PDict (stat :: stats)) ->
  (dict_lookup db (lit "team_metrics") = None \/
   exists tm, dict_lookup db (lit "team_metrics") = Some (PDict tm)) ->
  exists card,
    format_daily_digest self data ai_summary = Ok card /\
    In database_heading (card_body card) /\
    In quiet_block (card_body card).
Proof.
  intros Ej Eg Hj Hg Ed S T.
  unfold format_daily_digest. cbv zeta.
  rewrite Ej. cbn [bind]. rewrite (absent_has_data _ Hj). cbn [bind].
  rewrite Eg. cbn [bind]. rewrite (absent_has_data _ Hg). cbn [bind].
  rewrite Ed. cbn [bind].
  rewrite (has_data_with_value db _ _ S eq_refl). cbn [bind].
  match goal with
  | |- context [_add_database_section ?b _] =>
      destruct (database_section_ok b db stat stats S T) as (ext & ->)
  end.
  cbn [bind].
  rewrite (has_data_no_data _ _ (absent_has_data _ Hj)). cbn [bind negb].
  rewrite (has_data_no_data _ _ (absent_has_data _ Hg)). cbn [bind negb].
  eexists. split; [reflexivity|].
  change (card_body (card_of ?b)) with b. split.
  - apply in_or_app. left. apply in_or_app. left. apply in_or_app. right. now left.
  - apply in_or_app. right. now left.
Qed.


(** ** Merged pull requests *)

Lemma foreign_outside (l : list pyval) :
  Forall foreign l -> Forall outside_merge_frame l.
Proof. apply Forall_impl. intros b (_ & H1 & H2). now split. Qed.

Lemma quiet_outside : outside_merge_frame quiet_block.
Proof. split; intros [n E]; discriminate E. Qed.

Lemma renders_merge_not_overflow (m b : pyval) :
  renders_merge m b -> ~ is_merge_overflow b.
Proof. intros (nu & ti & au & _ & _ & _ & ->) [n E]. discriminate E. Qed.

Lemma merges_make_live (github_data : pyval) (m : pyval) (ms : list pyval)
    (live : bool) :
  py_get github_data "recent_merges" (PList []) = Ok (PList (m :: ms)) ->
  has_data github_data = Ok live -> live = true.
Proof.
  destruct github_data as [| | | | |kvs]; try discriminate.
  rewrite py_get_dict. intros E H. apply Ok_inj in E.
  destruct (dict_lookup kvs (lit "recent_merges")) as [v|] eqn:L; [|discriminate E].
  subst v. rewrite (has_data_with_value kvs _ _ L eq_refl) in H.
  now apply Ok_inj in H.
Qed.

Lemma merge_lines_structure (self : TeamsFormatter) (data : pyval)
    (ai_summary : pystr) (card github_data : pyval) (merges : list pyval) :
  py_get data "github" (PDict []) = Ok github_data ->
  py_get github_data "recent_merges" (PList []) = Ok (PList merges) ->
  format_daily_digest self data ai_summary = Ok card ->
  exists pre lines post,
    card_body card =
      pre ++ match merges with
             | [] => []
             | _ :: _ =>
                 merge_heading (Z.of_nat (length merges)) :: lines
                   ++ (if (5 <? length merges)%nat
                       then [merge_overflow (Z.of_nat (length merges) - 5)]
                       else [])
             end ++ post /\
    Forall2 renders_merge (firstn 5 merges) lines /\
    length lines = Nat.min (length merges) 5 /\
    Forall outside_merge_frame (pre ++ post) /\
    ((exists b, In b (card_body card) /\ is_merge_overflow b)
     <-> (5 < length merges)%nat).
Proof.
  intros Eg Em H.
  apply format_structure in H
    as (j & g & jl & gl & pre & group & mid & agroups & post & _ & Eg' & _ & Hg
        & -> & Ppre & Pmid & Ppost & Pa & Hoff & Hon & _).
  rewrite Eg in Eg'. apply Ok_inj in Eg' as <-.
  set (Q := if negb jl && negb gl then [quiet_block] else []).
  assert (PQ : Forall outside_merge_frame Q).
  { subst Q. destruct (negb jl && negb gl); repeat constructor; apply quiet_outside. }
  assert (G : exists lines,
    group = match merges with
            | [] => []
            | _ :: _ =>
                 merge_heading (Z.of_nat (length merges)) :: lines
                   ++ (if (5 <? length merges)%nat
                       then [merge_overflow (Z.of_nat (length merges) - 5)]
                       else [])
            end /\
    Forall2 renders_merge (firstn 5 merges) lines).
  { destruct gl.
    - destruct (Hon eq_refl) as (rm & Erm & Hgr).
      rewrite Em in Erm. apply Ok_inj in Erm as <-.
      destruct Hgr as [[T ->]|(T & n & shown & items & lines & En & Es & Ei & HF & ->)].
      + destruct merges; [|discriminate T]. exists []. split; [reflexivity | constructor].
      + destruct merges as [|m ms]; [discriminate T|].
        cbn [py_len] in En. apply Ok_inj in En as <-.
        cbn [py_slice_to] in Es. apply Ok_inj in Es as <-.
        cbn [py_iter] in Ei. apply Ok_inj in Ei as <-.
        now exists lines.
    - destruct (Hoff eq_refl) as [-> _].
      destruct merges as [|m ms].
      + exists []. split; [reflexivity | constructor].
      + now pose proof (merges_make_live _ _ _ _ Em Hg). }
  destruct G as (lines & -> & HF).
  exists pre, lines, (mid ++ concat agroups ++ post ++ Q).
  split; [reflexivity|]. split; [exact HF|].
  split.
  { apply Forall2_length in HF. rewrite <- HF, length_firstn. lia. }
  assert (Pout : Forall outside_merge_frame (pre ++ mid ++ concat agroups ++ post ++ Q)).
  { repeat (apply Forall_app; split); auto using foreign_outside. }
  split.
  { apply Forall_app in Pout as [P1 P2]. apply Forall_app. now split. }
  split.
  - intros (b & I & Hb).
    apply in_app_or in I as [I|I].
    { apply Forall_app in Pout as [P1 _]. rewrite Forall_forall in P1.
      now destruct (P1 _ I). }
    apply in_app_or in I as [I|I].
    2:{ apply Forall_app in Pout as [_ P2]. rewrite Forall_forall in P2.
        now destruct (P2 _ I). }
    destruct merges as [|m ms]; [destruct I|].
    destruct I as [<-|I]; [destruct Hb as [n E]; discriminate E|].
    apply in_app_or in I as [I|I].
    + exfalso. clear -HF I Hb.
      induction HF as [|x y xs ys R _ IH]; [destruct I|].
      destruct I as [<-|I]; [now apply (renders_merge_not_overflow _ _ R) | auto].
    + destruct (Nat.ltb_spec 5 (length (m :: ms))); [assumption | destruct I].
  - intros L. destruct merges as [|m ms]; [cbn in L; lia|].
    apply Nat.ltb_lt in L. rewrite L.
    eexists. split; [|now eexists].
    apply in_or_app. right. apply in_or_app. left.
    right. apply in_or_app. right. now left.
Qed.


Lemma for_each_total {S A} (f : S -> A -> result S) (xs : list A) (s : S) :
  Forall (fun x => forall s, exists s', f s x = Ok s') xs ->
  exists s', for_each xs s f = Ok s'.
Proof.
  intros H. revert s. induction H as [|x xs Hx _ IH]; intros s; cbn [for_each].
  - eauto.
  - destruct (Hx s) as (s1 & ->). cbn [bind]. apply IH.
Qed.

Lemma Forall_prefix {A} (P : A -> Prop) (n : nat) (l : list A) :
  Forall P l -> Forall P (firstn n l).
Proof.
  intros H. rewrite <- (firstn_skipn n l) in H. now apply Forall_app in H.
Qed.

Lemma py_getitem_dict (kvs : list (pystr * pyval)) (k : string) :
  dict_lookup kvs (lit k) <> None -> exists v, py_getitem (PDict kvs) k = Ok v.
Proof.
  intros H. cbn [py_getitem]. destruct (dict_lookup kvs (lit k)); [eauto | congruence].
Qed.

Lemma merges_only_total (self : TeamsFormatter) (ai_summary : pystr)
    (merges : list pyval) :
  Forall is_merge_record merges ->
  exists card,
    format_daily_digest self
      (github_only [(lit "open_prs", PList []);
                    (lit "recent_merges", PList merges);
                    (lit "urgent_commits", PList [])]) ai_summary = Ok card.
Proof.
  intros W. unfold format_daily_digest, github_only. cbv zeta.
  change (py_get (PDict [(lit "github", ?g)]) "jira" (PDict [])) with (Ok (PDict [])).
  change (py_get (PDict [(lit "github", ?g)]) "github" (PDict [])) with (Ok g).
  change (py_get (PDict [(lit "github", ?g)]) "database" (PDict [])) with (Ok (PDict [])).
  cbn [bind].
  change (has_data (PDict [])) with (Ok false).
  change (no_data (PDict [])) with (Ok true).
  cbn [bind].
  destruct merges as [|m ms].
  - match goal with
    | |- context [has_data ?g] => change (has_data g) with (Ok false)
    end.
    cbn [bind].
    match goal with
    | |- context [no_data ?g] => change (no_data g) with (Ok true)
    end.
    cbn [bind]. eauto.
  - match goal with
    | |- context [has_data ?g] => change (has_data g) with (Ok true)
    end.
    cbn [bind].
    match goal with
    | |- context [no_data ?g] => change (no_data g) with (Ok false)
    end.
    cbn [bind].
    unfold _add_github_section. cbv zeta.
    match goal with
    | |- context [py_get ?g "open_prs" (PList [])] =>
        change (py_get g "open_prs" (PList [])) with (Ok (PList []));
        change (py_get g "recent_merges" (PList [])) with (Ok (PList (m :: ms)));
        change (py_get g "urgent_commits" (PList [])) with (Ok (PList []));
        change (py_contains "pr_analyses" g) with (Ok false)
    end.
    cbn [bind truthy py_len py_slice_to py_iter].
    match goal with
    | |- context [for_each ?xs ?s0 ?f] =>
        destruct (for_each_total f xs s0) as (s' & ->)
    end.
    + apply (Forall_prefix _ 5) in W. revert W. apply Forall_impl.
      intros x (kvs & -> & K) s.
      inversion K as [|? ? K1 K']; subst. inversion K' as [|? ? K2 K'']; subst.
      inversion K'' as [|? ? _ K3]; subst. inversion K3 as [|? ? K4 _]; subst.
      destruct (py_getitem_dict kvs "number" K1) as (v1 & ->).
      destruct (py_getitem_dict kvs "title" K2) as (v2 & ->).
      destruct (py_getitem_dict kvs "author" K4) as (v3 & ->).
      cbn [bind]. eauto.
    + cbn [bind]. destruct (5 <? _)%nat; cbn [bind]; eauto.
Qed.


(** ** Pull request analyses *)

Lemma Forall2_nth_concat {A} (R : A -> list pyval -> Prop) (xs : list A)
    (gs : list (list pyval)) (i : nat) (x : A) :
  Forall2 R xs gs -> nth_error xs i = Some x ->
  exists c1 g c2, concat gs = c1 ++ g ++ c2 /\ R x g.
Proof.
  intros H. revert i. induction H as [|y g ys gs' Ryg _ IH]; intros [|i] E;
    cbn in E; try discriminate.
  - assert (y = x) as -> by congruence. exists [], g, (concat gs'). now split.
  - destruct (IH i E) as (c1 & g' & c2 & Ec & Rg).
    exists (g ++ c1), g', c2. split; [|exact Rg].
    cbn [concat]. rewrite Ec. now rewrite <- app_assoc.
Qed.

Lemma analysis_entry_structure (self : TeamsFormatter) (data : pyval)
    (ai_summary : pystr) (card github_data : pyval) (analyses : list pyval)
    (i : nat) (a : pyval) :
  py_get data "github" (PDict []) = Ok github_data ->
  py_getitem github_data "pr_analyses" = Ok (PList analyses) ->
  nth_error analyses i = Some a ->
  (i < 3)%nat ->
  format_daily_digest self data ai_summary = Ok card ->
  exists pre blocks post,
    card_body card = pre ++ blocks ++ post /\
    renders_analysis a blocks.
Proof.
  intros Eg Ea Ei Li H.
  apply format_structure in H
    as (j & g & jl & gl & pre & group & mid & agroups & post & _ & Eg' & _ & Hg
        & -> & _ & _ & _ & _ & _ & _ & Han).
  rewrite Eg in Eg'. apply Ok_inj in Eg' as <-.
  assert (T : truthy (PList analyses) = true).
  { destruct analyses; [destruct i; discriminate Ei | reflexivity]. }
  assert (L : gl = true).
  { destruct github_data as [| | | | |kvs]; try discriminate Ea.
    cbn [py_getitem] in Ea.
    destruct (dict_lookup kvs (lit "pr_analyses")) as [v|] eqn:Lk; [|discriminate Ea].
    apply Ok_inj in Ea as ->.
    rewrite (has_data_with_value kvs _ _ Lk T) in Hg. now apply Ok_inj in Hg. }
  destruct (Han _ L Ea T) as (shown & items & Es & Eit & HF).
  cbn [py_slice_to] in Es. apply Ok_inj in Es as <-.
  cbn [py_iter] in Eit. apply Ok_inj in Eit as <-.
  assert (Ei' : nth_error (firstn 3 analyses) i = Some a).
  { rewrite nth_error_firstn. apply Nat.ltb_lt in Li. now rewrite Li. }
  destruct (Forall2_nth_concat _ _ _ i a HF Ei') as (c1 & blocks & c2 & Ec & R).
  exists (pre ++ group ++ mid ++ c1), blocks,
    (c2 ++ post ++ (if negb jl && negb gl then [quiet_block] else [])).
  split; [|exact R]. rewrite Ec. now rewrite <- !app_assoc.
Qed.

Lemma py_get_ok (kvs : list (pystr * pyval)) (k : string) (d : pyval) :
  exists v, py_get (PDict kvs) k d = Ok v.
Proof. rewrite py_get_dict. eauto. Qed.

Lemma analyses_only_total (self : TeamsFormatter) (ai_summary : pystr)
    (a0 : pyval) (analyses : list pyval) :
  Forall is_analysis_record (a0 :: analyses) ->
  exists card,
    format_daily_digest self
      (github_only [(lit "open_prs", PList []);
                    (lit "recent_merges", PList []);
                    (lit "urgent_commits", PList []);
                    (lit "pr_analyses", PList (a0 :: analyses))]) ai_summary
    = Ok card.
Proof.
  intros W. unfold format_daily_digest, github_only. cbv zeta.
  change (py_get (PDict [(lit "github", ?g)]) "jira" (PDict [])) with (Ok (PDict [])).
  change (py_get (PDict [(lit "github", ?g)]) "github" (PDict [])) with (Ok g).
  change (py_get (PDict [(lit "github", ?g)]) "database" (PDict [])) with (Ok (PDict [])).
  cbn [bind].
  change (has_data (PDict [])) with (Ok false).
  change (no_data (PDict [])) with (Ok true).
  cbn [bind].
  match goal with
  | |- context [has_data ?g] =>
      change (has_data g) with (Ok true);
      change (no_data g) with (Ok false);
      change (py_contains "pr_analyses" g) with (Ok true);
      change (py_getitem g "pr_analyses") with (Ok (PList (a0 :: analyses)));
      change (_add_github_section ?b g) with
        (Ok ((b ++
               [TextBlock (PStr ([0x1F6E0%N; 0xFE0F%N] ++ lit " GitHub Activity"))
                  [weight "Bolder"; size "Medium"; spacing "Medium"]])
             ++ [TextBlock (PStr (lit "No open pull requests waiting for review."))
                   [wrap]]))
  end.
  cbn [bind truthy].
  unfold _add_pr_analyses_section. cbv zeta.
  cbn [bind truthy negb py_len py_slice_to py_iter].
  match goal with
  | |- context [for_each ?xs ?s0 ?f] =>
      destruct (for_each_total f xs s0) as (s' & ->)
  end.
  - apply (Forall_prefix _ 3) in W. revert W. apply Forall_impl.
    intros x (kvs & -> & K) s.
    destruct (py_get_ok kvs "pr_number" PNone) as (v1 & ->).
    destruct (py_get_ok kvs "repo" (PStr [])) as (v2 & ->).
    destruct (py_get_ok kvs "title" (PStr (lit "Untitled PR"))) as (v3 & ->).
    destruct (py_get_ok kvs "author" (PStr (lit "Unknown"))) as (v4 & ->).
    destruct (py_get_ok kvs "url" (PStr [])) as (v6 & ->).
    rewrite py_get_dict.
    assert (T : exists t, match dict_lookup kvs (lit "analysis") with
                          | Some x => x
                          | None => PStr (lit "No analysis available")
                          end = PStr t).
    { destruct K as [->|(t & ->)]; eauto. }
    destruct T as (t & ->).
    cbn [bind py_len py_slice_to py_add_lit].
    destruct (500 <? length t)%nat; cbn [bind]; destruct (truthy v6); eauto.
  - cbn [bind]. destruct (3 <? _)%nat; cbn [bind]; eauto.
Qed.


(** ** The database section, block by block *)




End FormatterFacts.

(* ===================================================================== *)
(** * The claims of the specification                                     *)
(* ===================================================================== *)

Lemma str_contains_here (p s : pystr) : str_contains p (p ++ s) = true.
Proof. rewrite str_contains_eq. now rewrite starts_with_app. Qed.

Section Claims.
Context {rt : PyRuntime}.

Lemma init_gives_no_summarizer (w : World) (self : GithubCollector)
    (t : list event) :
  __init__ w = (t, Ok self) -> ai_summarizer self = None.
Proof.
  unfold __init__.
  destruct (environ w (lit "GITHUB_TOKEN")) as [[|c tk]|];
    try (intros E; apply (f_equal snd) in E; cbn in E; apply Ok_inj in E;
         now subst self).
  destruct (Github_new w (c :: tk)); intros E; apply (f_equal snd) in E;
    cbn in E; apply Ok_inj in E; now subst self.
Qed.

Lemma analyze_pr_never_invokes (self : GithubCollector) (repo_name : pystr)
    (pr_number : Z) :
  ai_summarizer self = None ->
  existsb is_invoke (fst (analyze_pr self repo_name pr_number)) = false.
Proof.
  intros AI. unfold analyze_pr. rewrite AI.
  destruct (client self) as [github|]; [|reflexivity].
  autorewrite with eff.
  destruct (get_repo github repo_name) as [repo|e];
    autorewrite with eff; [|reflexivity].
  destruct (get_pull repo pr_number) as [pr|e];
    autorewrite with eff; [|reflexivity].
  destruct (get_files pr) as [files|e];
    autorewrite with eff; [|reflexivity].
  rewrite for_paginated_collect.
  destruct (failure files) as [e|]; autorewrite with eff; [reflexivity|].
  match goal with
  | |- context [mbind (lift ?b) _] => destruct b as [prompt|e]
  end; autorewrite with eff; [|reflexivity].
  change (py_get (diff_data pr ([] ++ map file_data (items files))) "title" PNone)
    with (Ok (PStr (title pr))).
  change (py_get (diff_data pr ([] ++ map file_data (items files))) "user" PNone)
    with (Ok (PStr (login_or_unknown (user pr)))).
  autorewrite with eff. reflexivity.
Qed.

Lemma unavailable_text_shape (repo_name : pystr) (pr_number : Z)
    (pr_title : pystr) :
  starts_with (lit "PR Analysis for " ++ repo_name ++ lit "#" ++ dec pr_number
                 ++ lit ": " ++ pr_title)
    (unavailable_text repo_name pr_number pr_title) = true /\
  str_contains (lit "AI analysis is currently unavailable.")
    (unavailable_text repo_name pr_number pr_title) = true.
Proof.
  unfold unavailable_text. rewrite <- !app_assoc. split.
  - rewrite !starts_with_cancel.
    rewrite <- (app_nil_r pr_title) at 1. rewrite starts_with_cancel. reflexivity.
  - do 7 apply str_contains_skip. apply str_contains_here.
Qed.

(** C2.  Without an access token the client is unset, and then
    [get_open_prs], [get_recent_merges], [get_urgent_commits] and
    [get_pr_analyses] return the empty list, [analyze_pr] returns the
    empty dict, and [collect] returns a dict whose [open_prs],
    [recent_merges] and [urgent_commits] are empty lists; each call
    returns, none raises. *)
Theorem no_token_all_empty (w : World) :
  no_token w ->
  exists self t,
    __init__ w = (t, Ok self) /\
    client self = None /\
    snd (get_open_prs w self) = Ok [] /\
    snd (get_recent_merges w self) = Ok [] /\
    snd (get_urgent_commits w self) = Ok [] /\
    snd (get_pr_analyses w self) = Ok [] /\
    (forall repo_name pr_number,
       snd (analyze_pr self repo_name pr_number) = Ok (PDict [])) /\
    exists data,
      snd (collect w self) = Ok (PDict data) /\
      dict_lookup data (lit "open_prs") = Some (PList []) /\
      dict_lookup data (lit "recent_merges") = Some (PList []) /\
      dict_lookup data (lit "urgent_commits") = Some (PList []).
Proof.
  intros N. destruct (init_without_token w N) as (self & t & E & C).
  exists self, t. split; [exact E|]. split; [exact C|].
  now apply unset_client_all_empty.
Qed.

(** C10.  Construction always leaves [ai_summarizer] unset, and no method
    assigns it.  So no call of [analyze_pr] invokes the model service,
    and every call that returns a record returns the fixed text as its
    analysis: it begins "PR Analysis for {repo_name}#{pr_number}: {title}"
    and contains "AI analysis is currently unavailable.". *)
Theorem collector_never_uses_summarizer (w : World) :
  (exists self t, __init__ w = (t, Ok self)) /\
  forall self t,
    __init__ w = (t, Ok self) ->
    ai_summarizer self = None /\
    forall repo_name pr_number,
      existsb is_invoke (fst (analyze_pr self repo_name pr_number)) = false /\
      forall rec,
        snd (analyze_pr self repo_name pr_number) = Ok rec ->
        rec <> PDict [] ->
        exists pr_title text,
          py_get rec "title" PNone = Ok (PStr pr_title) /\
          py_get rec "analysis" PNone = Ok (PStr text) /\
          text = unavailable_text repo_name pr_number pr_title /\
          starts_with (lit "PR Analysis for " ++ repo_name ++ lit "#"
                         ++ dec pr_number ++ lit ": " ++ pr_title) text = true /\
          str_contains (lit "AI analysis is currently unavailable.") text = true.
Proof.
  split.
  { destruct (init_ai_summarizer w) as (self & t & E & _). now exists self, t. }
  intros self t E. pose proof (init_gives_no_summarizer w self t E) as AI.
  split; [exact AI|]. intros repo_name pr_number.
  split; [now apply analyze_pr_never_invokes|].
  intros rec R NE.
  destruct (analyze_pr self repo_name pr_number) as [tr r] eqn:A.
  cbn [snd] in R. subst r.
  destruct (analyze_pr_without_summarizer self repo_name pr_number tr rec AI A NE)
    as (pr_title & T1 & T2 & _).
  exists pr_title, (unavailable_text repo_name pr_number pr_title).
  split; [exact T1|]. split; [exact T2|]. split; [reflexivity|].
  apply unavailable_text_shape.
Qed.

(** C4, as amended.  The prompt that [_build_pr_analysis_prompt] builds -
    which is the prompt [analyze_pr_diff] sends, and the one [analyze_pr]
    builds and logs - is the preamble (instructions, title, author,
    description, "Changed files:") followed by one segment for each
    changed-file entry, in order, and nothing else.  A segment is the
    three lines on the file, its status and its changes, followed by the
    slot of the diff: for a patch of 3000 characters or more, and for an
    empty or absent patch, the slot is the line "[Diff too large to
    include]" and does not hold the patch; for a non-empty patch of fewer
    than 3000 characters it is the patch verbatim in a fenced block.  So
    the text of a patch of 3000 characters or more does not reach the
    prompt: changed files that differ only in such texts give the same
    prompt. *)
Theorem prompt_patch_cutoff :
  (forall d fs p,
     py_get d "files" (PList []) = Ok (PList fs) ->
     BedrockSummarizer._build_pr_analysis_prompt d = Ok p ->
     renders_prompt d fs p) /\
  (forall s d p,
     BedrockSummarizer._build_pr_analysis_prompt d = Ok p ->
     BedrockSummarizer.analyze_pr_diff s d
     = BedrockSummarizer.generate_custom_text s p) /\
  (forall self repo_name pr_number github repo pr files,
     client self = Some github ->
     get_repo github repo_name = Ok repo ->
     get_pull repo pr_number = Ok pr ->
     get_files pr = Ok files ->
     failure files = None ->
     exists tr rec prompt,
       analyze_pr self repo_name pr_number = (tr, Ok rec) /\
       In (Log DEBUG (lit "AI Prompt for PR #" ++ dec pr_number ++ lit ":" ++ nl
                        ++ prompt)) tr /\
       renders_prompt (diff_data pr (map file_data (items files)))
         (map file_data (items files)) prompt) /\
  (forall pr fs fs',
     Forall2 same_but_long_patch fs fs' ->
     BedrockSummarizer._build_pr_analysis_prompt
       (diff_data pr (map file_data fs))
     = BedrockSummarizer._build_pr_analysis_prompt
         (diff_data pr (map file_data fs'))).
Proof.
  split; [exact build_prompt_exact|]. split; [|split].
  - intros s d p B. unfold BedrockSummarizer.analyze_pr_diff. rewrite B.
    now rewrite mbind_lift_Ok.
  - intros self repo_name pr_number github repo pr files C R P F N.
    destruct (analyze_pr_logs_prompt self repo_name pr_number github repo pr
                files C R P F N) as (tr & rec & prompt & A & _ & B & I).
    exists tr, rec, prompt. split; [exact A|]. split; [exact I|].
    now apply (build_prompt_exact
                 (diff_data pr (map file_data (items files)))).
  - exact long_patches_same_prompt.
Qed.


(** C7.  For every analysis among the first three of [pr_analyses], the
    card holds its title line, its repository line, the separator and
    then the analysis text: its first 500 characters followed by "..."
    when the text is longer than 500 characters, the whole text without
    an ellipsis when it has at most 500; and a digest whose analyses are
    records with a text is rendered. *)
Theorem analysis_text_truncation (self : TeamsFormatter) (ai_summary : pystr) :
  (forall data card github_data analyses i a,
     py_get data "github" (PDict []) = Ok github_data ->
     py_getitem github_data "pr_analyses" = Ok (PList analyses) ->
     nth_error analyses i = Some a ->
     (i < 3)%nat ->
     format_daily_digest self data ai_summary = Ok card ->
     exists pre blocks post,
       card_body card = pre ++ blocks ++ post /\
       renders_analysis a blocks) /\
  (forall a analyses,
     Forall is_analysis_record (a :: analyses) ->
     exists card,
       format_daily_digest self
         (github_only [(lit "open_prs", PList []);
                       (lit "recent_merges", PList []);
                       (lit "urgent_commits", PList []);
                       (lit "pr_analyses", PList (a :: analyses))]) ai_summary
       = Ok card).
Proof.
  split.
  - intros data card github_data analyses i a Eg Ea Ei Li H.
    now apply (analysis_entry_structure self data ai_summary card github_data
                 analyses i a).
  - intros a analyses W. now apply analyses_only_total.
Qed.

(** C9.  For every list of N merge records given as [recent_merges] (in
    particular for 0 <= N <= 10), the card holds min(N, 5) merge lines,
    one for each of the first five records, between the count line and
    the rest; the merged-PRs overflow line is in the card if and only if
    N > 5; and a digest of merge records is rendered. *)
Theorem merged_lines_capped (self : TeamsFormatter) (ai_summary : pystr) :
  (forall data card github_data merges,
     py_get data "github" (PDict []) = Ok github_data ->
     py_get github_data "recent_merges" (PList []) = Ok (PList merges) ->
     format_daily_digest self data ai_summary = Ok card ->
     exists pre lines post,
       card_body card =
         pre ++ match merges with
                | [] => []
                | _ :: _ =>
                    merge_heading (Z.of_nat (length merges)) :: lines
                      ++ (if (5 <? length merges)%nat
                          then [merge_overflow (Z.of_nat (length merges) - 5)]
                          else [])
                end ++ post /\
       Forall2 renders_merge (firstn 5 merges) lines /\
       length lines = Nat.min (length merges) 5 /\
       Forall outside_merge_frame (pre ++ post) /\
       ((exists b, In b (card_body card) /\ is_merge_overflow b)
        <-> (5 < length merges)%nat)) /\
  (forall merges,
     Forall is_merge_record merges ->
     exists card,
       format_daily_digest self
         (github_only [(lit "open_prs", PList []);
                       (lit "recent_merges", PList merges);
                       (lit "urgent_commits", PList [])]) ai_summary
       = Ok card).
Proof.
  split.
  - intros data card github_data merges Eg Em H.
    now apply (merge_lines_structure self data ai_summary card github_data).
  - intros merges W. now apply merges_only_total.
Qed.

(** C8.  [generate_simple_summary] with every category count zero
    returns a text that begins "Good morning, {team_name}!" and contains
    "No significant updates"; with three new tickets and every other count
    zero it returns "Here's today's update for {team_name}:  3 new Jira
    tickets were created.", which contains "3 new Jira tickets were
    created" and ends with a period, not with a comma. *)
Theorem simple_summary_quiet_and_single
    (self : BedrockSummarizer.BedrockSummarizer) (data : pyval) (team : pystr) :
  (category_count data "jira" "new_tickets" = Ok 0%nat ->
   category_count data "jira" "blocked_tasks" = Ok 0%nat ->
   category_count data "github" "open_prs" = Ok 0%nat ->
   category_count data "github" "recent_merges" = Ok 0%nat ->
   category_count data "github" "urgent_commits" = Ok 0%nat ->
   exists s, BedrockSummarizer.generate_simple_summary self data team = Ok s /\
     starts_with (lit "Good morning, " ++ team ++ lit "!") s = true /\
     str_contains (lit "No significant updates") s = true) /\
  (category_count data "jira" "new_tickets" = Ok 3%nat ->
   category_count data "jira" "blocked_tasks" = Ok 0%nat ->
   category_count data "github" "open_prs" = Ok 0%nat ->
   category_count data "github" "recent_merges" = Ok 0%nat ->
   category_count data "github" "urgent_commits" = Ok 0%nat ->
   exists s, BedrockSummarizer.generate_simple_summary self data team = Ok s /\
     s = lit "Here's today's update for " ++ team
           ++ lit ":  3 new Jira tickets were created." /\
     str_contains (lit "3 new Jira tickets were created") s = true /\
     ends_with (lit ".") s = true /\
     ends_with (lit ",") s = false).
Proof.
  unfold category_count, BedrockSummarizer.generate_simple_summary.
  split; intros H1 H2 H3 H4 H5;
    destruct (py_get data "jira" (PDict [])) as [j|]; try discriminate;
    destruct (py_get data "github" (PDict [])) as [g|]; try discriminate;
    cbn [bind] in *; 
    destruct (py_get j "new_tickets" (PList [])) as [x1|]; try discriminate;
    destruct (py_get j "blocked_tasks" (PList [])) as [x2|]; try discriminate;
    destruct (py_get g "open_prs" (PList [])) as [x3|]; try discriminate;
    destruct (py_get g "recent_merges" (PList [])) as [x4|]; try discriminate;
    destruct (py_get g "urgent_commits" (PList [])) as [x5|]; try discriminate;
    cbn [bind] in *; rewrite H1, H2, H3, H4, H5; cbn [bind Nat.ltb Nat.leb app].
  - eexists; split; [reflexivity|]. split.
    + rewrite !starts_with_cancel. reflexivity.
    + do 2 apply str_contains_skip. reflexivity.
  - eexists; split; [reflexivity|].
    match goal with
    | |- ?s = ?t /\ _ =>
        assert (E : s = t)
          by (cbn [removelast join app length Nat.ltb Nat.leb];
              rewrite <- !app_assoc; reflexivity);
        rewrite E; clear E
    end.
    split; [reflexivity|]. split; [|split].
    + do 2 apply str_contains_skip. reflexivity.
    + do 2 apply ends_with_skip. reflexivity.
    + rewrite app_assoc. apply ends_with_skip_false; [vm_compute; lia | reflexivity].
Qed.

End Claims.

(** ** Concrete runs *)

(** C1 (defect of the code).  With a token and a repository configured,
    [get_recent_merges] raises [AttributeError] to its caller: its second
    statement evaluates [datetime.timezone] on the class [datetime],
    outside the [try].  [collect], which calls it, raises too. *)
Theorem get_recent_merges_escapes :
  exists self t,
    __init__ example_world = (t, Ok self) /\
    not_configured self = false /\
    get_recent_merges (rt := ascii_runtime) example_world self
    = ([], Raise timezone_error) /\
    snd (collect (rt := ascii_runtime) example_world self) = Raise timezone_error.
Proof.
  do 2 eexists. split; [reflexivity|]. split; [reflexivity|].
  split; vm_compute; reflexivity.
Qed.

(** C3 (defect of the code).  The repository of the example has one closed
    pull request, merged two hours before the collection instant, so
    after the cutoff of 24 hours; [get_recent_merges] returns no list at
    all, it raises. *)
Theorem recent_merge_scan_raises :
  exists self t github repo,
    __init__ example_world = (t, Ok self) /\
    client self = Some github /\
    get_repo github (lit "octo/app") = Ok repo /\
    items (get_pulls repo (lit "closed") (Some (lit "updated")) (Some (lit "desc")))
    = [merged_pr 2] /\
    merged (merged_pr 2) = true /\
    merged_at (merged_pr 2)
    = Some (utc_at (utcnow_us example_world - 2 * hour_us)%Z) /\
    datetime_gt (utc_at (utcnow_us example_world - 2 * hour_us)%Z)
      (minus_days (datetime_now example_world (Some 0%Z)) 1) = Ok true /\
    forall prs,
      snd (get_recent_merges (rt := ascii_runtime) example_world self) <> Ok prs.
Proof.
  do 4 eexists. split; [reflexivity|]. split; [reflexivity|].
  split; [reflexivity|]. split; [reflexivity|]. split; [reflexivity|].
  split; [reflexivity|]. split; [reflexivity|].
  intros prs. vm_compute. discriminate.
Qed.

(** C5 (defect of the code).  For the pull request of the example, which
    has no description, the prompt that [analyze_pr] builds has the line
    "Description: None" and nowhere the default message. *)
Theorem absent_description_renders_None :
  exists self t prompt,
    __init__ example_world = (t, Ok self) /\
    body example_pr = None /\
    fst (analyze_pr (rt := ascii_runtime) self (lit "octo/app") 7)
    = [Log INFO (lit "Analyzing PR #7 in octo/app");
       Log DEBUG (lit "AI Prompt for PR #7:" ++ nl ++ prompt)] /\
    BedrockSummarizer._build_pr_analysis_prompt (rt := ascii_runtime)
      (diff_data (rt := ascii_runtime) example_pr [file_data example_file])
    = Ok prompt /\
    str_contains (nl ++ lit "Description: None" ++ nl) prompt = true /\
    str_contains (lit "No description provided.") prompt = false.
Proof.
  do 2 eexists.
  assert (B : exists prompt,
    BedrockSummarizer._build_pr_analysis_prompt (rt := ascii_runtime)
      (diff_data (rt := ascii_runtime) example_pr [file_data example_file])
    = Ok prompt) by (eexists; vm_compute; reflexivity).
  destruct B as (prompt & B). exists prompt.
  split; [reflexivity|]. split; [reflexivity|].
  revert B. vm_compute. intros B. apply Ok_inj in B. subst prompt.
  repeat split; reflexivity.
Qed.

(** C4, as the specification states it, fails: a patch of exactly 3000
    characters is present and not longer than 3000 characters, and the
    prompt has the placeholder for it, not the fenced patch. *)
Lemma prompt_cutoff_as_specified_fails :
  exists p,
    BedrockSummarizer._build_pr_analysis_prompt (rt := ascii_runtime) diff_of_3000
    = Ok p /\
    py_get diff_of_3000 "files" (PList []) = Ok (PList [file_data file_of_3000]) /\
    ~ renders_files (rt := ascii_runtime) cutoff_as_specified
        [file_data file_of_3000] p.
Proof.
  assert (B : exists p,
    BedrockSummarizer._build_pr_analysis_prompt (rt := ascii_runtime) diff_of_3000
    = Ok p /\ ends_with (lit "```" ++ nl) p = false)
    by (eexists; split; vm_compute; reflexivity).
  destruct B as (p & B & L). exists p.
  split; [exact B|]. split; [reflexivity|].
  intros (head & segs & Hp & HF).
  inversion HF as [|f seg fs' segs' R HF']; subst.
  inversion HF'; subst.
  destruct R as (fn & fs & fa & fd & fp & tail & _ & _ & _ & _ & E5 & Hseg & Hc).
  change (py_get (file_data file_of_3000) "patch" PNone)
    with (Ok (PStr (repeat 120%N 3000))) in E5.
  apply Ok_inj in E5. subst fp.
  destruct (Hc _ eq_refl) as [_ Hle].
  rewrite (Hle ltac:(rewrite repeat_length; lia)) in Hseg. subst seg.
  cbn [concat] in L. rewrite app_nil_r in L. unfold fenced in L.
  rewrite <- !app_assoc in L.
  enough (T : ends_with (lit "```" ++ nl)
                (head ++ nl ++ lit "File: " ++ py_str fn ++ nl ++ lit "Status: "
                   ++ py_str fs ++ nl ++ lit "Changes: +" ++ py_str fa ++ lit " -"
                   ++ py_str fd ++ lit " lines" ++ nl ++ lit "```" ++ nl
                   ++ repeat 120%N 3000 ++ nl ++ lit "```" ++ nl) = true)
    by (rewrite T in L; discriminate L).
  do 18 apply ends_with_skip. reflexivity.
Qed.

(** ** Witnesses *)

Lemma no_token_all_empty_witness :
  no_token tokenless_world /\
  exists self t,
    __init__ tokenless_world = (t, Ok self) /\
    client self = None /\
    snd (get_open_prs (rt := ascii_runtime) tokenless_world self) = Ok [] /\
    snd (get_recent_merges (rt := ascii_runtime) tokenless_world self) = Ok [].
Proof.
  split; [left; reflexivity|].
  destruct (no_token_all_empty (rt := ascii_runtime) tokenless_world
              (or_introl eq_refl))
    as (self & t & E & C & P & R & _).
  exists self, t. repeat split; assumption.
Defined.

Lemma collector_never_uses_summarizer_witness :
  exists self t rec text,
    __init__ example_world = (t, Ok self) /\
    ai_summarizer self = None /\
    snd (analyze_pr (rt := ascii_runtime) self (lit "octo/app") 7) = Ok rec /\
    py_get rec "analysis" PNone = Ok (PStr text) /\
    str_contains (lit "AI analysis is currently unavailable.") text = true.
Proof.
  destruct (collector_never_uses_summarizer (rt := ascii_runtime) example_world)
    as [_ H].
  do 2 eexists.
  destruct (H _ _ eq_refl) as [AI K].
  match type of AI with
  | ai_summarizer ?s = None => set (self0 := s) in *
  end.
  assert (Hr : exists rec,
    snd (analyze_pr (rt := ascii_runtime) self0 (lit "octo/app") 7) = Ok rec /\
    rec <> PDict [])
    by (eexists; split; [vm_compute; reflexivity | discriminate]).
  destruct Hr as (rec & Hr & NE).
  destruct (K (lit "octo/app") 7%Z) as [_ R].
  destruct (R rec Hr NE) as (pr_title & text & _ & A & _ & _ & C).
  exists rec, text. split; [reflexivity|].
  split; [exact AI|]. split; [exact Hr|]. split; [exact A | exact C].
Defined.

Lemma prompt_patch_cutoff_witness :
  (exists p,
     BedrockSummarizer._build_pr_analysis_prompt (rt := ascii_runtime)
       (diff_data (rt := ascii_runtime) example_pr [file_data example_file])
     = Ok p /\
     renders_prompt (rt := ascii_runtime)
       (diff_data (rt := ascii_runtime) example_pr [file_data example_file])
       [file_data example_file] p) /\
  BedrockSummarizer._build_pr_analysis_prompt (rt := ascii_runtime)
    (diff_data (rt := ascii_runtime) example_pr [file_data file_of_3000])
  = BedrockSummarizer._build_pr_analysis_prompt (rt := ascii_runtime)
      (diff_data (rt := ascii_runtime) example_pr [file_data file_of_4000]).
Proof.
  destruct (prompt_patch_cutoff (rt := ascii_runtime)) as (H & _ & _ & S).
  split.
  - eexists. split; [vm_compute; reflexivity|].
    apply (H (diff_data (rt := ascii_runtime) example_pr [file_data example_file]));
      [reflexivity | vm_compute; reflexivity].
  - apply (S example_pr [file_of_3000] [file_of_4000]).
    constructor; [|constructor].
    repeat (split; [reflexivity|]). right.
    exists (repeat 120%N 3000), (repeat 121%N 4000).
    repeat (split; [reflexivity|]). rewrite !repeat_length. lia.
Defined.


Lemma analysis_text_truncation_witness :
  exists card pre blocks post,
    format_daily_digest (rt := ascii_runtime) core_team
      (digest_with_analysis 501) [] = Ok card /\
    card_body card = pre ++ blocks ++ post /\
    renders_analysis (rt := ascii_runtime) (analysis_of_length 501) blocks.
Proof.
  destruct (analysis_text_truncation (rt := ascii_runtime) core_team [])
    as [S T].
  destruct (T (analysis_of_length 501) []) as (card & C).
  { constructor; [|constructor].
    eexists. split; [reflexivity|]. right. eexists. reflexivity. }
  destruct (S (digest_with_analysis 501) card _ [analysis_of_length 501] 0%nat
              (analysis_of_length 501) eq_refl eq_refl eq_refl
              ltac:(lia) C)
    as (pre & blocks & post & B & R).
  now exists card, pre, blocks, post.
Defined.

Lemma merged_lines_capped_witness :
  exists card lines,
    format_daily_digest (rt := ascii_runtime) core_team
      (digest_with_merges seven_merges) [] = Ok card /\
    length lines = 5%nat /\
    Forall2 (renders_merge (rt := ascii_runtime)) (firstn 5 seven_merges) lines /\
    exists b, In b (card_body card) /\ is_merge_overflow b.
Proof.
  destruct (merged_lines_capped (rt := ascii_runtime) core_team []) as [S T].
  destruct (T seven_merges) as (card & C).
  { repeat (constructor;
            [eexists; split; [reflexivity|]; repeat constructor; discriminate|]).
    constructor. }
  destruct (S (digest_with_merges seven_merges) card _ seven_merges
              eq_refl eq_refl C)
    as (pre & lines & post & _ & F & L & _ & O).
  exists card, lines. split; [exact C|]. split; [exact L|]. split; [exact F|].
  apply O. vm_compute. lia.
Defined.

Lemma simple_summary_quiet_and_single_witness :
  (exists s,
     BedrockSummarizer.generate_simple_summary
       idle_summarizer no_activity (lit "Core") = Ok s /\
     str_contains (lit "No significant updates") s = true) /\
  (exists s,
     BedrockSummarizer.generate_simple_summary
       idle_summarizer three_tickets (lit "Core") = Ok s /\
     ends_with (lit ".") s = true).
Proof.
  split.
  - destruct (proj1 (simple_summary_quiet_and_single
                       idle_summarizer no_activity (lit "Core"))
                eq_refl eq_refl eq_refl eq_refl eq_refl)
      as (s & E & _ & C).
    now exists s.
  - destruct (proj2 (simple_summary_quiet_and_single
                       idle_summarizer three_tickets (lit "Core"))
                eq_refl eq_refl eq_refl eq_refl eq_refl)
      as (s & E & _ & _ & P & _).
    now exists s.
Defined.

(* ===================================================================== *)
(** * Further properties                                                  *)
(* ===================================================================== *)

Import Readings MoreExamples.

(** ** The summarizer and the model service *)

Section SummarizerBehaviour.
Context {rt : PyRuntime}.

Lemma configured_inv (self : BedrockSummarizer.BedrockSummarizer) :
  configured self = true ->
  exists bedrock c id,
    BedrockSummarizer.client self = Some bedrock /\
    BedrockSummarizer.model_id self = Some (c :: id).
Proof.
  unfold configured.
  destruct (BedrockSummarizer.client self) as [b|]; [|discriminate].
  destruct (BedrockSummarizer.model_id self) as [[|c id]|]; try discriminate.
  intros _. now exists b, c, id.
Qed.

(** X1. Without a client or without a model id, [generate_summary] and
    [generate_custom_text] return their fixed configuration texts: they
    send no request, and [generate_summary] does not even look at the
    data. *)
Theorem unconfigured_summarizer_is_silent
    (self : BedrockSummarizer.BedrockSummarizer) :
  configured self = false ->
  (forall data team,
     snd (BedrockSummarizer.generate_summary self data team)
       = Ok (PStr (lit "Unable to generate AI summary due to configuration issues.")) /\
     requests (fst (BedrockSummarizer.generate_summary self data team)) = []) /\
  (forall prompt,
     snd (BedrockSummarizer.generate_custom_text self prompt)
       = Ok (PStr (lit "Unable to generate text due to configuration issues.")) /\
     requests (fst (BedrockSummarizer.generate_custom_text self prompt)) = []).
Proof.
  unfold configured, BedrockSummarizer.generate_summary,
    BedrockSummarizer.generate_custom_text.
  destruct (BedrockSummarizer.client self) as [b|];
    [destruct (BedrockSummarizer.model_id self) as [[|c id]|]|];
    try discriminate; intros _; split; intros; split; reflexivity.
Qed.

(** X2. With a client and a model id, an exception raised while the prompt
    is built leaves [generate_summary]: the prompt is created before the
    [try] statement, so nothing is logged and no request is sent. *)
Theorem prompt_error_leaves_generate_summary
    (self : BedrockSummarizer.BedrockSummarizer) (data : pyval) (team : pystr)
    (e : exn) :
  configured self = true ->
  BedrockSummarizer._create_prompt data team = Raise e ->
  BedrockSummarizer.generate_summary self data team = ([], Raise e).
Proof.
  intros C E. apply configured_inv in C as (b & c & id & Ec & Em).
  unfold BedrockSummarizer.generate_summary. rewrite Ec, Em, E. reflexivity.
Qed.

Lemma for_each_raises {S A} (f : S -> A -> result S) (good : list A) (bad : A)
    (rest : list A) (s : S) (e : exn) :
  Forall (fun x => forall s, exists s', f s x = Ok s') good ->
  (forall s, f s bad = Raise e) ->
  for_each (good ++ bad :: rest) s f = Raise e.
Proof.
  intros Hg Hb. revert s. induction Hg as [|x good Hx _ IH]; intros s.
  - cbn [app for_each]. now rewrite Hb.
  - cbn [app for_each]. destruct (Hx s) as (s' & ->). cbn [bind]. apply IH.
Qed.

(** X3. A record with an empty list of status changes among the first
    five records of [status_changes] makes [_format_jira_for_prompt] raise
    [IndexError], because the last change is taken with the index -1.
    This is so for a record in any of the first five places, when the new
    tickets and the records before it do not stop the prompt earlier. *)
Theorem empty_status_history_raises (j : list (pystr * pyval))
    (good : list pyval) (c : pyval) (rest : list pyval) :
  new_tickets_shown j ->
  dict_lookup j (lit "status_changes") = Some (PList (good ++ c :: rest)) ->
  (length good < 5)%nat ->
  Forall is_change_record good ->
  py_getitem c "status_changes" = Ok (PList []) ->
  BedrockSummarizer._format_jira_for_prompt (PDict j)
  = Raise (Exn IndexError (lit "list index out of range")).
Proof.
  intros N S Lg Hg H.
  unfold BedrockSummarizer._format_jira_for_prompt. cbv zeta.
  rewrite !py_get_dict, S. cbn [bind].
  match goal with
  | |- bind ?m _ = _ => assert (T1 : exists sections1, m = Ok sections1)
  end.
  { destruct N as [N|(tickets & N & F)].
    - unfold empty_or_absent in N.
      destruct (dict_lookup j (lit "new_tickets")) as [v|].
      + rewrite N. eexists. reflexivity.
      + eexists. reflexivity.
    - rewrite N. destruct tickets as [|t0 ts]; [eexists; reflexivity|].
      change (truthy (PList (t0 :: ts))) with true.
      cbn [bind py_len py_slice_to py_iter].
      match goal with
      | |- context [for_each (firstn 5 (t0 :: ts)) ?s0 ?f] =>
          destruct (for_each_total f (firstn 5 (t0 :: ts)) s0) as (s1 & ->)
      end.
      + clear -F. induction F as [|t l (kvs & -> & Hk) _ IH]; constructor; [|exact IH].
        intros s.
        destruct (py_getitem_dict kvs "key") as (k & ->);
          [now inversion Hk|].
        destruct (py_getitem_dict kvs "summary") as (sm & ->);
          [inversion Hk as [|? ? _ Hk']; now inversion Hk'|].
        destruct (py_getitem_dict kvs "status") as (st & ->);
          [inversion Hk as [|? ? _ Hk']; inversion Hk' as [|? ? _ Hk''];
           now inversion Hk''|].
        cbn [bind]. eexists. reflexivity.
      + cbn [bind]. destruct (5 <? length (t0 :: ts))%nat; eexists; reflexivity. }
  destruct T1 as (sections1 & ->). cbn [bind].
  assert (T : truthy (PList (good ++ c :: rest)) = true)
    by (destruct good; reflexivity).
  rewrite T. cbn [bind py_len py_slice_to py_iter].
  rewrite firstn_app, (firstn_all2 (n := 5) good) by lia.
  destruct (5 - length good)%nat as [|k] eqn:Ek5; [lia|]. cbn [firstn].
  rewrite for_each_raises
    with (e := Exn IndexError (lit "list index out of range"));
    [reflexivity | |].
  - clear -Hg.
    induction Hg as [|ch good (kvs & changes & -> & Hk & Hc & Hne & (lk & El & Hl)) _ IH];
      constructor; [|exact IH].
    intros s. cbn [py_getitem]. rewrite Hc. cbn [bind].
    destruct changes as [|c0 cs]; [congruence|].
    change (py_index_last (PList (c0 :: cs))) with (@Ok pyval (last (c0 :: cs) PNone)).
    cbn [bind]. rewrite El.
    destruct (dict_lookup kvs (lit "key")) as [kv|]; [|congruence]. cbn [bind].
    destruct (py_getitem_dict lk "from") as (fr & ->);
      [now inversion Hl|].
    destruct (py_getitem_dict lk "to") as (to & ->);
      [inversion Hl as [|? ? _ Hl']; now inversion Hl'|].
    destruct (py_getitem_dict lk "author") as (au & ->);
      [inversion Hl as [|? ? _ Hl']; inversion Hl' as [|? ? _ Hl''];
       now inversion Hl''|].
    cbn [bind]. eexists. reflexivity.
  - intros s. rewrite H. reflexivity.
Qed.




(** X5. What [generate_custom_text] makes of the answer of the service:
    the text of the first content part; the empty string when the answer
    has no content or the part has no text; and, for an empty content
    list, the error text (the [IndexError] is caught). *)
Theorem generate_custom_text_reads_answer
    (self : BedrockSummarizer.BedrockSummarizer)
    (bedrock : BedrockSummarizer.BedrockClient) (model prompt : pystr)
    (answer : list (pystr * pyval)) :
  BedrockSummarizer.client self = Some bedrock ->
  BedrockSummarizer.model_id self = Some model ->
  model <> [] ->
  (forall request_body,
     BedrockSummarizer.invoke_model bedrock model request_body = Ok (PDict answer)) ->
  (forall part parts text,
     dict_lookup answer (lit "content") = Some (PList (PDict part :: parts)) ->
     dict_lookup part (lit "text") = Some text ->
     snd (BedrockSummarizer.generate_custom_text self prompt) = Ok text) /\
  (forall part parts,
     dict_lookup answer (lit "content") = Some (PList (PDict part :: parts)) ->
     dict_lookup part (lit "text") = None ->
     snd (BedrockSummarizer.generate_custom_text self prompt) = Ok (PStr [])) /\
  (dict_lookup answer (lit "content") = None ->
   snd (BedrockSummarizer.generate_custom_text self prompt) = Ok (PStr [])) /\
  (dict_lookup answer (lit "content") = Some (PList []) ->
   snd (BedrockSummarizer.generate_custom_text self prompt)
   = Ok (PStr (lit "Unable to generate text. Error: list index out of range"))).
Proof.
  intros Ec Em Hm Hi. destruct model as [|c id]; [congruence|].
  unfold BedrockSummarizer.generate_custom_text. rewrite Ec, Em. cbv zeta.
  rewrite Hi, mbind_pair_Ok, py_get_dict.
  repeat split.
  - intros part parts text E1 E2. rewrite E1. cbn [bind py_index0].
    rewrite py_get_dict, E2. now autorewrite with eff.
  - intros part parts E1 E2. rewrite E1. cbn [bind py_index0].
    rewrite py_get_dict, E2. now autorewrite with eff.
  - intros E1. rewrite E1. cbn [bind py_index0].
    now autorewrite with eff.
  - intros E1. rewrite E1. cbn [bind py_index0].
    now autorewrite with eff.
Qed.

(** X6. For data without tickets, status changes and blocked tasks, and
    without pull requests, merges and urgent commits (each key absent or
    its list empty), the two prompt sections are the three fixed lines
    each. *)
Theorem prompt_sections_of_empty_data (j g : list (pystr * pyval)) :
  (empty_or_absent j "new_tickets" ->
   empty_or_absent j "status_changes" ->
   empty_or_absent j "blocked_tasks" ->
   BedrockSummarizer._format_jira_for_prompt (PDict j)
   = Ok (join nl [lit "NEW TICKETS: None in the last 24 hours";
                  nl ++ lit "STATUS CHANGES: None in the last 24 hours";
                  nl ++ lit "BLOCKED TASKS: None currently"])) /\
  (empty_or_absent g "open_prs" ->
   empty_or_absent g "recent_merges" ->
   empty_or_absent g "urgent_commits" ->
   BedrockSummarizer._format_github_for_prompt (PDict g)
   = Ok (join nl [lit "OPEN PULL REQUESTS: None currently";
                  nl ++ lit "RECENT MERGES: None in the last 24 hours";
                  nl ++ lit "URGENT COMMITS: None in the last 24 hours"])).
Proof.
  assert (T : forall kvs k, empty_or_absent kvs k ->
            truthy (match dict_lookup kvs (lit k) with
                    | Some x => x
                    | None => PList []
                    end) = false).
  { unfold empty_or_absent. intros kvs k H.
    destruct (dict_lookup kvs (lit k)); [exact H | reflexivity]. }
  split; intros H1 H2 H3.
  - unfold BedrockSummarizer._format_jira_for_prompt. cbv zeta.
    rewrite !py_get_dict. cbn [bind].
    rewrite (T _ _ H1). cbn [bind]. rewrite (T _ _ H2). cbn [bind].
    rewrite (T _ _ H3). reflexivity.
  - unfold BedrockSummarizer._format_github_for_prompt. cbv zeta.
    rewrite !py_get_dict. cbn [bind].
    rewrite (T _ _ H1). cbn [bind]. rewrite (T _ _ H2). cbn [bind].
    rewrite (T _ _ H3). reflexivity.
Qed.

(** ** The fallback summary *)

(** X7. [generate_simple_summary] returns a text exactly when each of its
    five lists has a length; otherwise (a section that is no dict, a list
    that is [None] or a number) it raises. *)
Theorem simple_summary_returns_iff
    (self : BedrockSummarizer.BedrockSummarizer) (data : pyval) (team : pystr) :
  (exists s, BedrockSummarizer.generate_simple_summary self data team = Ok s)
  <->
  ((exists n, category_count data "jira" "new_tickets" = Ok n) /\
   (exists n, category_count data "jira" "blocked_tasks" = Ok n) /\
   (exists n, category_count data "github" "open_prs" = Ok n) /\
   (exists n, category_count data "github" "recent_merges" = Ok n) /\
   (exists n, category_count data "github" "urgent_commits" = Ok n)).
Proof.
  unfold category_count, BedrockSummarizer.generate_simple_summary. cbv zeta.
  split.
  - intros [s H].
    destruct (py_get data "jira" (PDict [])) as [j|]; [|discriminate].
    cbn [bind] in *.
    destruct (py_get j "new_tickets" (PList [])) as [x1|]; [|discriminate].
    cbn [bind] in *.
    destruct (py_len x1) as [n1|]; [|discriminate]. cbn [bind] in *.
    destruct (py_get j "blocked_tasks" (PList [])) as [x2|]; [|discriminate].
    cbn [bind] in *.
    destruct (py_len x2) as [n2|]; [|discriminate]. cbn [bind] in *.
    destruct (py_get data "github" (PDict [])) as [g|]; [|discriminate].
    cbn [bind] in *.
    destruct (py_get g "open_prs" (PList [])) as [x3|]; [|discriminate].
    cbn [bind] in *.
    destruct (py_len x3) as [n3|]; [|discriminate]. cbn [bind] in *.
    destruct (py_get g "recent_merges" (PList [])) as [x4|]; [|discriminate].
    cbn [bind] in *.
    destruct (py_len x4) as [n4|]; [|discriminate]. cbn [bind] in *.
    destruct (py_get g "urgent_commits" (PList [])) as [x5|]; [|discriminate].
    cbn [bind] in *.
    destruct (py_len x5) as [n5|]; [|discriminate].
    repeat split; eexists; reflexivity.
  - intros ([n1 H1] & [n2 H2] & [n3 H3] & [n4 H4] & [n5 H5]).
    destruct (py_get data "jira" (PDict [])) as [j|]; [|discriminate].
    destruct (py_get data "github" (PDict [])) as [g|]; [|discriminate].
    cbn [bind] in *.
    destruct (py_get j "new_tickets" (PList [])) as [x1|]; [|discriminate].
    destruct (py_get j "blocked_tasks" (PList [])) as [x2|]; [|discriminate].
    destruct (py_get g "open_prs" (PList [])) as [x3|]; [|discriminate].
    destruct (py_get g "recent_merges" (PList [])) as [x4|]; [|discriminate].
    destruct (py_get g "urgent_commits" (PList [])) as [x5|]; [|discriminate].
    cbn [bind] in *. rewrite H1, H2, H3, H4, H5. cbn [bind].
    destruct (0 <? n1)%nat, (0 <? n2)%nat, (0 <? n3)%nat, (0 <? n4)%nat,
      (0 <? n5)%nat; cbn [app]; eexists; reflexivity.
Qed.

(** The summary is a function of the team name and the five counts. *)
Lemma simple_summary_of_counts
    (self self' : BedrockSummarizer.BedrockSummarizer) (data data' : pyval)
    (team : pystr) (n1 n2 n3 n4 n5 : nat) :
  category_count data "jira" "new_tickets" = Ok n1 ->
  category_count data "jira" "blocked_tasks" = Ok n2 ->
  category_count data "github" "open_prs" = Ok n3 ->
  category_count data "github" "recent_merges" = Ok n4 ->
  category_count data "github" "urgent_commits" = Ok n5 ->
  category_count data' "jira" "new_tickets" = Ok n1 ->
  category_count data' "jira" "blocked_tasks" = Ok n2 ->
  category_count data' "github" "open_prs" = Ok n3 ->
  category_count data' "github" "recent_merges" = Ok n4 ->
  category_count data' "github" "urgent_commits" = Ok n5 ->
  BedrockSummarizer.generate_simple_summary self data team
  = BedrockSummarizer.generate_simple_summary self' data' team.
Proof.
  unfold category_count, BedrockSummarizer.generate_simple_summary. cbv zeta.
  intros H1 H2 H3 H4 H5 H1' H2' H3' H4' H5'.
  destruct (py_get data "jira" (PDict [])) as [j|]; [|discriminate].
  destruct (py_get data "github" (PDict [])) as [g|]; [|discriminate].
  destruct (py_get data' "jira" (PDict [])) as [j'|]; [|discriminate].
  destruct (py_get data' "github" (PDict [])) as [g'|]; [|discriminate].
  cbn [bind] in *.
  destruct (py_get j "new_tickets" (PList [])) as [x1|]; [|discriminate].
  destruct (py_get j "blocked_tasks" (PList [])) as [x2|]; [|discriminate].
  destruct (py_get g "open_prs" (PList [])) as [x3|]; [|discriminate].
  destruct (py_get g "recent_merges" (PList [])) as [x4|]; [|discriminate].
  destruct (py_get g "urgent_commits" (PList [])) as [x5|]; [|discriminate].
  destruct (py_get j' "new_tickets" (PList [])) as [y1|]; [|discriminate].
  destruct (py_get j' "blocked_tasks" (PList [])) as [y2|]; [|discriminate].
  destruct (py_get g' "open_prs" (PList [])) as [y3|]; [|discriminate].
  destruct (py_get g' "recent_merges" (PList [])) as [y4|]; [|discriminate].
  destruct (py_get g' "urgent_commits" (PList [])) as [y5|]; [|discriminate].
  cbn [bind] in *.
  rewrite H1, H2, H3, H4, H5, H1', H2', H3', H4', H5'. reflexivity.
Qed.

(** X8. The fallback summary depends on the data only through the five
    counts: two data sets with the same counts give the same text,
    whatever the records are and whichever summarizer is asked. *)
Theorem simple_summary_depends_on_counts
    (self self' : BedrockSummarizer.BedrockSummarizer) (data data' : pyval)
    (team : pystr) :
  (forall section key,
     In (section, key)
        [("jira", "new_tickets"); ("jira", "blocked_tasks");
         ("github", "open_prs"); ("github", "recent_merges");
         ("github", "urgent_commits")]%string ->
     exists n, category_count data section key = Ok n /\
               category_count data' section key = Ok n) ->
  BedrockSummarizer.generate_simple_summary self data team
  = BedrockSummarizer.generate_simple_summary self' data' team.
Proof.
  intros H.
  destruct (H "jira" "new_tickets")%string as (n1 & A1 & B1); [cbn; tauto|].
  destruct (H "jira" "blocked_tasks")%string as (n2 & A2 & B2); [cbn; tauto|].
  destruct (H "github" "open_prs")%string as (n3 & A3 & B3); [cbn; tauto|].
  destruct (H "github" "recent_merges")%string as (n4 & A4 & B4); [cbn; tauto|].
  destruct (H "github" "urgent_commits")%string as (n5 & A5 & B5); [cbn; tauto|].
  now apply simple_summary_of_counts with n1 n2 n3 n4 n5.
Qed.

(** X9. The closing recommendation of the fallback summary: with blocked
    tasks the text ends by giving priority to them, also when pull
    requests are open; without blocked tasks and with open pull requests
    it ends by asking for reviews. *)
Theorem simple_summary_recommendation
    (self : BedrockSummarizer.BedrockSummarizer) (data : pyval) (team : pystr)
    (blocked open : nat) (s : pystr) :
  category_count data "jira" "blocked_tasks" = Ok blocked ->
  category_count data "github" "open_prs" = Ok open ->
  BedrockSummarizer.generate_simple_summary self data team = Ok s ->
  ((0 < blocked)%nat ->
   exists pre,
     s = pre ++ lit " Priority should be given to resolving the "
           ++ dec (Z.of_nat blocked) ++ lit " blocked tasks.") /\
  (blocked = 0%nat -> (0 < open)%nat ->
   exists pre,
     s = pre ++ lit " Consider reviewing the open pull requests to keep development moving forward.").
Proof.
  unfold category_count, BedrockSummarizer.generate_simple_summary. cbv zeta.
  intros H2 H3 H.
  destruct (py_get data "jira" (PDict [])) as [j|]; [|discriminate].
  destruct (py_get data "github" (PDict [])) as [g|]; [|discriminate].
  cbn [bind] in *.
  destruct (py_get j "new_tickets" (PList [])) as [x1|]; [|discriminate].
  cbn [bind] in *.
  destruct (py_len x1) as [n1|]; [|discriminate].
  destruct (py_get j "blocked_tasks" (PList [])) as [x2|]; [|discriminate].
  destruct (py_get g "open_prs" (PList [])) as [x3|]; [|discriminate].
  cbn [bind] in *. rewrite H2, H3 in H. cbn [bind] in *.
  destruct (py_get g "recent_merges" (PList [])) as [x4|]; [|discriminate].
  cbn [bind] in *.
  destruct (py_len x4) as [n4|]; [|discriminate].
  destruct (py_get g "urgent_commits" (PList [])) as [x5|]; [|discriminate].
  cbn [bind] in *.
  destruct (py_len x5) as [n5|]; [|discriminate]. cbn [bind] in *.
  split.
  - intros B. apply Nat.ltb_lt in B. rewrite B in H.
    destruct (0 <? n1)%nat, (0 <? open)%nat, (0 <? n4)%nat, (0 <? n5)%nat;
      cbn [app] in H; apply Ok_inj in H as <-; eexists; reflexivity.
  - intros -> O. apply Nat.ltb_lt in O. rewrite O in H.
    change (0 <? 0)%nat with false in H.
    destruct (0 <? n1)%nat, (0 <? n4)%nat, (0 <? n5)%nat;
      cbn [app] in H; apply Ok_inj in H as <-; eexists; reflexivity.
Qed.


End SummarizerBehaviour.

(** ** The collector *)

Section CollectorBehaviour.
Context {rt : PyRuntime}.

Lemma for_eachM_outs {A} (R : A -> list pyval -> Prop)
    (f : list pyval -> A -> M (list pyval)) (xs : list A) :
  (forall x, exists out,
     R x out /\ forall acc, exists t, f acc x = (t, Ok (acc ++ out))) ->
  forall acc, exists t outs,
    Forall2 R xs outs /\ for_eachM xs acc f = (t, Ok (acc ++ concat outs)).
Proof.
  intros H. induction xs as [|x xs IH]; intros acc.
  - exists [], []. split; [constructor|]. cbn. now rewrite app_nil_r.
  - destruct (H x) as (out & Ro & Hf). destruct (Hf acc) as (t & E).
    destruct (IH (acc ++ out)) as (t' & outs & F2 & E').
    exists (t ++ t'), (out :: outs). split; [now constructor|].
    cbn [for_eachM concat]. rewrite E, mbind_pair_Ok, E'.
    unfold emit. cbn [fst snd]. now rewrite app_assoc.
Qed.

Lemma for_paginated_outs {A} (R : A -> list pyval -> Prop)
    (f : list pyval -> A -> M (list pyval)) (p : Paginated A) :
  (forall x, exists out,
     R x out /\ forall acc, exists t, f acc x = (t, Ok (acc ++ out))) ->
  forall acc, exists t outs,
    Forall2 R (items p) outs /\
    for_paginated p acc f
    = (t, match failure p with
          | None => Ok (acc ++ concat outs)
          | Some e => Raise e
          end).
Proof.
  intros H acc. destruct (for_eachM_outs R f (items p) H acc) as (t & outs & F2 & E).
  unfold for_paginated. rewrite E, mbind_pair_Ok.
  exists t, outs. split; [exact F2|].
  destruct (failure p); unfold emit, ret, raise; cbn [fst snd];
    now rewrite app_nil_r.
Qed.

Lemma Forall2_paired {A} (R : pystr * A -> list pyval -> Prop) (name : pystr)
    (xs : list A) (outs : list (list pyval)) :
  Forall2 (fun x => R (name, x)) xs outs -> Forall2 R (map (pair name) xs) outs.
Proof. induction 1; cbn [map]; now constructor. Qed.

(** The loop over the configured repositories, for a body that skips
    blank names and otherwise fetches the repository and walks a list of
    it. *)
Lemma scan_listing {A} (R : pystr * A -> list pyval -> Prop) (github : Github)
    (fetch : Repository -> Paginated A)
    (F : list pyval -> pystr -> M (list pyval)) :
  (forall acc r, strip r = [] -> F acc r = ret acc) ->
  (forall acc r c name, strip r = c :: name ->
     match get_repo github (c :: name) with
     | Raise e => exists t, F acc r = (t, Raise e)
     | Ok repo =>
         exists t outs,
           Forall2 (fun x => R (c :: name, x)) (items (fetch repo)) outs /\
           F acc r = (t, match failure (fetch repo) with
                         | None => Ok (acc ++ concat outs)
                         | Some e => Raise e
                         end)
     end) ->
  forall rs acc,
    match listing fetch github rs with
    | Some l =>
        exists t outs,
          Forall2 R l outs /\ for_eachM rs acc F = (t, Ok (acc ++ concat outs))
    | None => exists t e, for_eachM rs acc F = (t, Raise e)
    end.
Proof.
  intros Hblank Hrepo rs. induction rs as [|r rs IH]; intros acc.
  - exists [], []. split; [constructor|]. cbn. now rewrite app_nil_r.
  - cbn [listing for_eachM]. destruct (strip r) as [|c name] eqn:Es.
    + rewrite (Hblank acc r Es), mbind_ret. apply IH.
    + specialize (Hrepo acc r c name Es).
      destruct (get_repo github (c :: name)) as [repo|e].
      * destruct Hrepo as (t & outs & F2 & E). rewrite E.
        destruct (failure (fetch repo)) as [e|].
        -- exists t, e. reflexivity.
        -- rewrite mbind_pair_Ok. specialize (IH (acc ++ concat outs)).
           destruct (listing fetch github rs) as [l|].
           ++ destruct IH as (t' & outs' & F2' & E'). rewrite E'.
              exists (t ++ t'), (outs ++ outs'). split.
              ** apply Forall2_app; [now apply Forall2_paired | exact F2'].
              ** unfold emit. cbn [fst snd]. now rewrite concat_app, app_assoc.
           ++ destruct IH as (t' & e & E'). rewrite E'.
              exists (t ++ t'), e. reflexivity.
      * destruct Hrepo as (t & E). rewrite E. exists t, e. reflexivity.
Qed.

Lemma concat_singletons {A} (R : A -> pyval -> Prop) (xs : list A)
    (outs : list (list pyval)) :
  Forall2 (fun x out => exists rec, out = [rec] /\ R x rec) xs outs ->
  Forall2 R xs (concat outs).
Proof.
  induction 1 as [|x out xs outs (rec & -> & Hr) _ IH]; cbn [concat app];
    now constructor.
Qed.

Lemma age_of_now (w : World) (d : DateTime) :
  datetime_sub (datetime_now w (tzinfo d)) d = Ok (age_us w d).
Proof.
  unfold datetime_sub, datetime_now, age_us. cbn [tzinfo wall_us].
  destruct (tzinfo d) as [off|]; f_equal; lia.
Qed.

(** One pull request of the scan of [get_open_prs]. *)
Lemma open_pr_step (w : World) (repo_name : pystr) (pr : PullRequest) :
  exists out,
    (exists rec, out = [rec] /\ is_open_pr_record w (repo_name, pr) rec) /\
    forall acc, exists t,
      (reviewers <~
         try_except
           (review_requests <~ lift (get_review_requests pr) ;;
            for_paginated review_requests [] (fun acc reviewer =>
              ret (acc ++ [PStr (login reviewer)])))
           (fun e =>
              log DEBUG (lit "Could not fetch reviewers for PR #"
                           ++ dec (number pr) ++ lit ": " ++ exn_message e) ;;;
              ret []) ;;
       age <~ lift (datetime_sub (datetime_now w (tzinfo (created_at pr)))
                      (created_at pr)) ;;
       let pr_data :=
         PDict [(lit "number", PInt (number pr));
                (lit "title", PStr (title pr));
                (lit "url", PStr (html_url pr));
                (lit "author", PStr (login_or_unknown (user pr)));
                (lit "created_at",
                 PStr (strftime (created_at pr) (lit "%Y-%m-%d")));
                (lit "days_open", PInt (days age));
                (lit "repository", PStr repo_name);
                (lit "reviewers", PList reviewers)] in
       ret (acc ++ [pr_data]))%eff
      = (t, Ok (acc ++ out)).
Proof.
  exists [PDict [(lit "number", PInt (number pr));
                 (lit "title", PStr (title pr));
                 (lit "url", PStr (html_url pr));
                 (lit "author", PStr (login_or_unknown (user pr)));
                 (lit "created_at",
                  PStr (strftime (created_at pr) (lit "%Y-%m-%d")));
                 (lit "days_open", PInt (days (age_us w (created_at pr))));
                 (lit "repository", PStr repo_name);
                 (lit "reviewers", PList (reviewers_of pr))]].
  split.
  - eexists. split; [reflexivity|]. unfold is_open_pr_record. repeat split; reflexivity.
  - intros acc. rewrite age_of_now. unfold reviewers_of.
    destruct (get_review_requests pr) as [p|e]; autorewrite with eff.
    + rewrite for_paginated_collect.
      destruct (failure p) as [e|]; unfold lift; autorewrite with eff.
      * change (@pair (list event) (result (list pyval)) [] (Raise e)) with (@raise (list pyval) e).
        autorewrite with eff. eexists. unfold emit, ret, days. cbn [fst snd app]. reflexivity.
      * change (@pair (list event) (result (list pyval)) [] (Ok ([] ++ map (fun u => PStr (login u)) (items p))))
          with (ret (map (fun u => PStr (login u)) (items p))).
        autorewrite with eff. eexists. unfold ret, days. reflexivity.
    + eexists. unfold emit, ret, days. cbn [fst snd app]. reflexivity.
Qed.

(** With a client, the guard lets through exactly the lists that hold
    something else than one empty name. *)
Lemma blank_repos_listing {A} (fetch : Repository -> Paginated A)
    (self : GithubCollector) (github : Github) :
  client self = Some github ->
  not_configured self = true ->
  listing fetch github (repos self) = Some [].
Proof.
  unfold not_configured. intros -> H.
  destruct (repos self) as [|[|c r] [|r' rs]]; try discriminate H; reflexivity.
Qed.

Lemma open_prs_by_listing (w : World) (self : GithubCollector) (github : Github) :
  client self = Some github ->
  not_configured self = false ->
  match listing open_pulls github (repos self) with
  | Some prs =>
      exists records,
        snd (get_open_prs w self) = Ok records /\
        Forall2 (is_open_pr_record w) prs records
  | None =>
      exists t e,
        get_open_prs w self
        = (t ++ [Log ERROR (lit "Error fetching open PRs: " ++ exn_message e)], Ok [])
  end.
Proof.
  intros C NC. unfold get_open_prs. rewrite C, NC. cbv zeta.
  match goal with
  | |- context [for_eachM (repos self) [] ?F] =>
      pose proof (scan_listing
                    (fun entry out =>
                       exists rec, out = [rec] /\ is_open_pr_record w entry rec)
                    github open_pulls F) as S
  end.
  cbv beta in S.
  specialize (S ltac:(intros acc r E; rewrite E; reflexivity)).
  assert (S' := fun H => S H (repos self) []). clear S.
  match type of S' with
  | ?P -> _ => assert (H : P)
  end.
  { clear S'. intros acc r c name E. rewrite E. autorewrite with eff.
    destruct (get_repo github (c :: name)) as [repo|e]; autorewrite with eff.
    - match goal with
      | |- context [for_paginated ?p acc ?f] =>
          destruct (for_paginated_outs
                      (fun x out =>
                         exists rec, out = [rec] /\
                                     is_open_pr_record w (c :: name, x) rec)
                      f p (open_pr_step w (c :: name)) acc)
            as (t & outs & F2 & Ef)
      end.
      rewrite Ef. exists ([Log INFO (lit "Fetching open PRs from " ++ c :: name)] ++ t), outs.
      split; [exact F2 | reflexivity].
    - eexists. reflexivity. }
  specialize (S' H). clear H.
  destruct (listing open_pulls github (repos self)) as [prs|].
  - destruct S' as (t & outs & F2 & E). rewrite E, mbind_pair_Ok.
    autorewrite with eff. exists (concat outs). split; [reflexivity|].
    apply (concat_singletons (is_open_pr_record w) prs outs F2).
  - destruct S' as (t & e & E). rewrite E.
    exists t, e. reflexivity.
Qed.

(** X10. When every configured repository and every page of its open
    pull requests can be fetched, [get_open_prs] returns one record for
    each open pull request, in the order of the repositories and of their
    lists: number, title, URL and author (or Unknown) of the pull request,
    its creation day, the whole days it has been open, the stripped name
    of the repository, and the logins of the requested reviewers, which is
    the empty list when they cannot be fetched.  Blank repository names
    are skipped. *)
Theorem open_prs_listed (w : World) (self : GithubCollector) (github : Github)
    (prs : list (pystr * PullRequest)) :
  client self = Some github ->
  listing open_pulls github (repos self) = Some prs ->
  exists records,
    snd (get_open_prs w self) = Ok records /\
    Forall2 (is_open_pr_record w) prs records.
Proof.
  intros C L. destruct (not_configured self) eqn:NC.
  - rewrite (blank_repos_listing open_pulls self github C NC) in L.
    apply (f_equal (fun o => match o with Some l => l | None => [] end)) in L.
    subst prs. exists []. split; [|constructor].
    unfold get_open_prs. now rewrite C, NC.
  - pose proof (open_prs_by_listing w self github C NC) as H.
    rewrite L in H. exact H.
Qed.

(** ** Urgent commits *)

Lemma split_on_first_line (m : pystr) : first_line m (hd [] (split_on 10 m)).
Proof.
  unfold first_line. induction m as [|x m [IH1 IH2]]; cbn [split_on hd].
  - split; [intros [] | now left].
  - destruct (N.eqb x 10) eqn:E.
    + apply N.eqb_eq in E as ->. cbn [hd]. split; [intros [] | right; now exists m].
    + apply N.eqb_neq in E.
      destruct (split_on 10 m) as [|l ls]; cbn [hd] in *;
        (split;
         [ intros [H|H]; [congruence | now apply IH1]
         | destruct IH2 as [->|[rest ->]];
           [left | right; exists rest]; reflexivity ]).
Qed.

Lemma concat_filtered {A} (p : A -> bool) (R : A -> pyval -> Prop) (xs : list A)
    (outs : list (list pyval)) :
  Forall2 (fun x out => if p x then exists rec, out = [rec] /\ R x rec
                        else out = []) xs outs ->
  Forall2 R (filter p xs) (concat outs).
Proof.
  induction 1 as [|x out xs outs H _ IH]; cbn [concat filter]; [constructor|].
  destruct (p x).
  - destruct H as (rec & -> & Hr). now constructor.
  - now subst out.
Qed.

(** One commit of the scan of [get_urgent_commits]. *)
Lemma commit_step (repo_name : pystr) (c : Commit) :
  exists out,
    (if is_urgent c
     then exists rec, out = [rec] /\ is_commit_record (repo_name, c) rec
     else out = []) /\
    forall acc, exists t,
      (let msg := str_lower (message (commit c)) in
       if existsb (fun keyword => str_contains (lit keyword) msg) urgent_keywords
       then
         try_except
           (let commit_data :=
              PDict [(lit "sha", PStr (firstn 7 (sha c)));
                     (lit "message",
                      PStr (hd [] (split_on 10 (message (commit c)))));
                     (lit "url", PStr (commit_html_url c));
                     (lit "author",
                      PStr (match author c with
                            | Some u => login u
                            | None => name (git_author (commit c))
                            end));
                     (lit "date",
                      PStr (strftime (date (git_author (commit c)))
                              (lit "%Y-%m-%d %H:%M")));
                     (lit "repository", PStr repo_name)] in
            ret (acc ++ [commit_data]))
           (fun e =>
              log DEBUG (lit "Error processing commit " ++ sha c
                           ++ lit ": " ++ exn_message e) ;;;
              ret acc)
       else ret acc)%eff
      = (t, Ok (acc ++ out)).
Proof.
  cbv zeta. fold (is_urgent c). destruct (is_urgent c).
  - eexists. split; cycle 1.
    + intros acc. rewrite try_except_ret. eexists. reflexivity.
    + eexists. split; [reflexivity|]. unfold is_commit_record.
      split; [reflexivity|]. split; [|repeat split; reflexivity].
      eexists. split; [reflexivity | apply split_on_first_line].
  - exists []. split; [reflexivity|]. intros acc. rewrite app_nil_r.
    eexists. reflexivity.
Qed.

Lemma urgent_commits_by_listing (w : World) (self : GithubCollector)
    (github : Github) :
  client self = Some github ->
  not_configured self = false ->
  match listing (commits_since_yesterday w) github (repos self) with
  | Some commits =>
      exists records,
        snd (get_urgent_commits w self) = Ok records /\
        Forall2 is_commit_record
          (filter (fun entry => is_urgent (snd entry)) commits) records
  | None =>
      exists t e,
        get_urgent_commits w self
        = (t ++ [Log ERROR (lit "Error fetching urgent commits: " ++ exn_message e)],
           Ok [])
  end.
Proof.
  intros C NC. unfold get_urgent_commits. rewrite C, NC. cbv zeta.
  match goal with
  | |- context [for_eachM (repos self) [] ?F] =>
      pose proof (scan_listing
                    (fun entry out =>
                       if is_urgent (snd entry)
                       then exists rec, out = [rec] /\ is_commit_record entry rec
                       else out = [])
                    github (commits_since_yesterday w) F) as S
  end.
  cbv beta in S.
  specialize (S ltac:(intros acc r E; rewrite E; reflexivity)).
  assert (S' := fun H => S H (repos self) []). clear S.
  match type of S' with
  | ?P -> _ => assert (H : P)
  end.
  { clear S'. intros acc r c name E. rewrite E. autorewrite with eff.
    destruct (get_repo github (c :: name)) as [repo|e]; autorewrite with eff.
    - match goal with
      | |- context [for_paginated ?p acc ?f] =>
          destruct (for_paginated_outs
                      (fun x out =>
                         if is_urgent x
                         then exists rec, out = [rec] /\
                                          is_commit_record (c :: name, x) rec
                         else out = [])
                      f p (commit_step (c :: name)) acc)
            as (t & outs & F2 & Ef)
      end.
      rewrite Ef.
      exists ([Log INFO (lit "Fetching recent commits from " ++ c :: name)] ++ t), outs.
      split; [exact F2 | reflexivity].
    - eexists. reflexivity. }
  specialize (S' H). clear H.
  destruct (listing (commits_since_yesterday w) github (repos self)) as [commits|].
  - destruct S' as (t & outs & F2 & E). rewrite E, mbind_pair_Ok.
    autorewrite with eff. exists (concat outs). split; [reflexivity|].
    apply (concat_filtered (fun entry => is_urgent (snd entry)) is_commit_record
             commits outs F2).
  - destruct S' as (t & e & E). rewrite E.
    exists t, e. reflexivity.
Qed.


(** X12. A scan that fails gives nothing: when one configured repository,
    or one page of its list, cannot be fetched, [get_open_prs] and
    [get_urgent_commits] return the empty list, also when records of
    other repositories had been gathered before, and log the error. *)
Theorem failed_scan_returns_nothing (w : World) (self : GithubCollector)
    (github : Github) :
  client self = Some github ->
  (listing open_pulls github (repos self) = None ->
   exists t e,
     get_open_prs w self
     = (t ++ [Log ERROR (lit "Error fetching open PRs: " ++ exn_message e)], Ok [])) /\
  (listing (commits_since_yesterday w) github (repos self) = None ->
   exists t e,
     get_urgent_commits w self
     = (t ++ [Log ERROR (lit "Error fetching urgent commits: " ++ exn_message e)],
        Ok [])).
Proof.
  intros C. split; intros L.
  - destruct (not_configured self) eqn:NC.
    + rewrite (blank_repos_listing open_pulls self github C NC) in L. discriminate.
    + pose proof (open_prs_by_listing w self github C NC) as H.
      rewrite L in H. exact H.
  - destruct (not_configured self) eqn:NC.
    + rewrite (blank_repos_listing (commits_since_yesterday w) self github C NC) in L.
      discriminate.
    + pose proof (urgent_commits_by_listing w self github C NC) as H.
      rewrite L in H. exact H.
Qed.

(** ** Construction and the guard *)



Lemma not_configured_all_empty (w : World) (self : GithubCollector) :
  not_configured self = true ->
  snd (get_open_prs w self) = Ok [] /\
  snd (get_recent_merges w self) = Ok [] /\
  snd (get_urgent_commits w self) = Ok [] /\
  snd (get_pr_analyses w self) = Ok [].
Proof.
  intros NC. unfold get_open_prs, get_recent_merges, get_urgent_commits,
    get_pr_analyses. rewrite NC. destruct (client self); repeat split.
Qed.

(** X14. What [collect] gives.  When the guard of the operations applies
    (no client, or no repository name but the empty one), it returns the
    three keys with empty lists, and the key [pr_analyses], with an empty
    list, exactly when [ENABLE_PR_ANALYSIS] lower-cases to [true].
    Otherwise the exception of [get_recent_merges] leaves it: [collect]
    never returns a list that holds a record. *)
Theorem collect_outcome (w : World) (self : GithubCollector) :
  (not_configured self = true ->
   snd (collect w self)
   = Ok (PDict ([(lit "open_prs", PList []);
                 (lit "recent_merges", PList []);
                 (lit "urgent_commits", PList [])]
                  ++ (if analyses_enabled w
                      then [(lit "pr_analyses", PList [])]
                      else [])))) /\
  (not_configured self = false ->
   snd (collect w self) = Raise timezone_error).
Proof.
  split; intros NC.
  - destruct (not_configured_all_empty w self NC) as (A & B & C & D).
    unfold collect. fold (analyses_enabled w).
    destruct (get_open_prs w self) as [t1 r1]. cbn [snd] in A. subst r1.
    rewrite mbind_pair_Ok.
    destruct (get_recent_merges w self) as [t2 r2]. cbn [snd] in B. subst r2.
    rewrite mbind_pair_Ok.
    destruct (get_urgent_commits w self) as [t3 r3]. cbn [snd] in C. subst r3.
    rewrite mbind_pair_Ok. autorewrite with eff.
    destruct (analyses_enabled w).
    + destruct (get_pr_analyses w self) as [t4 r4]. cbn [snd] in D. subst r4.
      rewrite mbind_pair_Ok. autorewrite with eff. reflexivity.
    + reflexivity.
  - destruct (collect_raises w self NC) as [t E]. now rewrite E.
Qed.

(** X15. Unset or empty [GITHUB_REPOS]: the collector that [__init__]
    builds is stopped by the guard, with or without a token, and each of
    its four list operations returns the empty list. *)
Theorem no_repositories_nothing_collected (w : World) (t : list event)
    (self : GithubCollector) :
  getenv_or (environ w) "GITHUB_REPOS" [] = [] ->
  __init__ w = (t, Ok self) ->
  not_configured self = true /\
  snd (get_open_prs w self) = Ok [] /\
  snd (get_recent_merges w self) = Ok [] /\
  snd (get_urgent_commits w self) = Ok [] /\
  snd (get_pr_analyses w self) = Ok [].
Proof.
  intros R I.
  assert (NC : not_configured self = true).
  { revert I. unfold __init__. cbv zeta. rewrite R.
    destruct (environ w (lit "GITHUB_TOKEN")) as [[|c tk]|];
      try destruct (Github_new w (c :: tk));
      intros I; apply (f_equal snd) in I; cbn in I; apply Ok_inj in I;
      subst self; reflexivity. }
  split; [exact NC | now apply not_configured_all_empty].
Qed.

(** X16. The four operations whose body is inside a [try] statement never
    raise, whatever the platform client does: a failure of a call to it
    becomes the empty result. *)
Theorem guarded_operations_never_raise (w : World) (self : GithubCollector) :
  (exists t prs, get_open_prs w self = (t, Ok prs)) /\
  (exists t commits, get_urgent_commits w self = (t, Ok commits)) /\
  (forall repo_name pr_number,
     exists t rec, analyze_pr self repo_name pr_number = (t, Ok rec)) /\
  (exists t analyses, get_pr_analyses w self = (t, Ok analyses)).
Proof. exact (guarded_operations_return w self). Qed.

(** ** Analyses *)

(** X17. [analyze_pr] with a client: it returns the empty dict exactly
    when the repository, the pull request or its changed files cannot be
    fetched; otherwise a record with the number and the repository name
    it was called with, the title, the author (or Unknown) and the URL of
    the pull request, and an analysis text, which without a summarizer is
    the fixed text about the unavailable analysis. *)
Theorem analyze_pr_outcome (self : GithubCollector) (github : Github)
    (repo_name : pystr) (pr_number : Z) :
  client self = Some github ->
  exists t rec,
    analyze_pr self repo_name pr_number = (t, Ok rec) /\
    match fetched github repo_name pr_number with
    | None => rec = PDict []
    | Some (pr, files) =>
        py_get rec "pr_number" PNone = Ok (PInt pr_number) /\
        py_get rec "repo" PNone = Ok (PStr repo_name) /\
        py_get rec "title" PNone = Ok (PStr (title pr)) /\
        py_get rec "author" PNone = Ok (PStr (login_or_unknown (user pr))) /\
        py_get rec "url" PNone = Ok (PStr (html_url pr)) /\
        exists text,
          py_get rec "analysis" PNone = Ok text /\
          (ai_summarizer self = None ->
           text = PStr (unavailable_text repo_name pr_number (title pr)))
    end.
Proof.
  intros C. unfold analyze_pr, fetched. rewrite C. autorewrite with eff.
  destruct (get_repo github repo_name) as [repo|e]; autorewrite with eff;
    [|do 2 eexists; split; reflexivity].
  destruct (get_pull repo pr_number) as [pr|e]; autorewrite with eff;
    [|do 2 eexists; split; reflexivity].
  destruct (get_files pr) as [files|e]; autorewrite with eff;
    [|do 2 eexists; split; reflexivity].
  rewrite for_paginated_collect.
  destruct (failure files) as [e|]; autorewrite with eff;
    [do 2 eexists; split; reflexivity|].
  destruct (build_prompt_total pr (items files)) as [prompt B].
  match goal with
  | |- context [mbind (lift ?b) _] =>
      change b with (BedrockSummarizer._build_pr_analysis_prompt
                       (diff_data pr (map file_data (items files))))
  end.
  rewrite B. autorewrite with eff.
  change (py_get (diff_data pr ([] ++ map file_data (items files))) "title" PNone)
    with (Ok (PStr (title pr))).
  change (py_get (diff_data pr ([] ++ map file_data (items files))) "user" PNone)
    with (Ok (PStr (login_or_unknown (user pr)))).
  destruct (ai_summarizer self) as [s|].
  - unfold BedrockSummarizer.analyze_pr_diff.
    change (diff_data pr ([] ++ map file_data (items files)))
      with (diff_data pr (map file_data (items files))).
    rewrite B. autorewrite with eff.
    destruct (generate_custom_text_total s prompt) as (t & v & G). rewrite G.
    rewrite mbind_pair_Ok. autorewrite with eff.
    do 2 eexists. split; [reflexivity|].
    repeat (split; [reflexivity|]). exists v. split; [reflexivity | discriminate].
  - autorewrite with eff.
    do 2 eexists. split; [reflexivity|].
    repeat (split; [reflexivity|]). eexists. split; [reflexivity|]. reflexivity.
Qed.

Lemma for_eachM_invariant {S A} (I : S -> nat -> Prop) (f : S -> A -> M S)
    (xs : list A) :
  (forall s n x t s', I s n -> f s x = (t, Ok s') -> I s' (Datatypes.S n)) ->
  forall s n t s',
    I s n -> for_eachM xs s f = (t, Ok s') -> I s' (n + length xs)%nat.
Proof.
  intros Hf. induction xs as [|x xs IH]; intros s n t s' Hi H; cbn [for_eachM] in H.
  - apply (f_equal snd) in H. cbn in H. apply Ok_inj in H as <-.
    cbn [length]. now rewrite Nat.add_0_r.
  - destruct (f s x) as [t1 [s1|e]] eqn:E.
    + rewrite mbind_pair_Ok in H.
      destruct (for_eachM xs s1 f) as [t2 r2] eqn:E2.
      apply (f_equal snd) in H. rewrite snd_emit in H. cbn [snd] in H. subst r2.
      cbn [length]. rewrite Nat.add_succ_r.
      apply (IH s1 (Datatypes.S n) t2 s'); [|exact E2].
      eapply Hf; eassumption.
    + cbn in H. apply (f_equal snd) in H. discriminate H.
Qed.

(** X18. [get_pr_analyses] never raises and returns at most three
    analyses; each is a non-empty record that [analyze_pr] returned, so a
    pull request whose analysis failed is left out. *)
Theorem pr_analyses_at_most_three (w : World) (self : GithubCollector) :
  exists t analyses,
    get_pr_analyses w self = (t, Ok analyses) /\
    (length analyses <= 3)%nat /\
    Forall (fun a =>
              truthy a = true /\
              exists repo_name pr_number t',
                analyze_pr self repo_name pr_number = (t', Ok a)) analyses.
Proof.
  unfold get_pr_analyses. destruct (not_configured self).
  { do 2 eexists. split; [reflexivity|]. split; [cbn; lia | constructor]. }
  cbv zeta.
  destruct (guarded_operations_return w self) as ((t0 & prs & E0) & _).
  rewrite E0, mbind_pair_Ok, try_except_emit.
  match goal with
  | |- context [for_eachM (firstn 3 prs) [] ?F] =>
      pose proof (for_eachM_invariant
                    (fun acc n =>
                       (length acc <= n)%nat /\
                       Forall (fun a =>
                                 truthy a = true /\
                                 exists repo_name pr_number t',
                                   analyze_pr self repo_name pr_number = (t', Ok a))
                              acc)
                    F (firstn 3 prs)) as Inv;
      destruct (for_eachM (firstn 3 prs) [] F) as [t1 [analyses|e]] eqn:E1
  end.
  - rewrite mbind_pair_Ok. autorewrite with eff.
    do 2 eexists. split; [reflexivity|].
    cbv beta in Inv.
    match type of Inv with
    | ?P -> _ => assert (Hstep : P)
    end;
      [|specialize (Inv Hstep [] 0%nat t1 analyses
                      (conj (Nat.le_refl 0) (Forall_nil _)) E1);
        destruct Inv as [L F]; split; [|exact F];
        pose proof (firstn_le_length 3 prs); cbn [plus] in L; lia].
    clear. intros s n x t s' [L F] H.
    destruct (py_get x "repository" PNone) as [r|e]; autorewrite with eff in H;
      [|discriminate H].
    destruct (py_get x "number" PNone) as [k|e]; autorewrite with eff in H;
      [|discriminate H].
    assert (Keep : forall m : M (list pyval), m = (t, Ok s') -> m = ret s ->
              (length s' <= Datatypes.S n)%nat /\
              Forall (fun a =>
                        truthy a = true /\
                        exists repo_name pr_number t',
                          analyze_pr self repo_name pr_number = (t', Ok a)) s').
    { intros m E1 E2. rewrite E2 in E1. apply (f_equal snd) in E1. cbn in E1.
      apply Ok_inj in E1 as <-. split; [lia | exact F]. }
    destruct (truthy r && truthy k); [|now apply (Keep _ H)].
    destruct r; try (now apply (Keep _ H)).
    destruct k; try (now apply (Keep _ H)).
    destruct (analyze_pr self s0 z) as [ta [a|e]] eqn:Ea.
    + rewrite mbind_pair_Ok in H. destruct (truthy a) eqn:Ta.
      * apply (f_equal snd) in H. rewrite snd_emit in H. cbn in H.
        apply Ok_inj in H as <-. split.
        -- rewrite length_app. cbn [length]. lia.
        -- apply Forall_app. split; [exact F|]. constructor; [|constructor].
           split; [exact Ta|]. now exists s0, z, ta.
      * apply (f_equal snd) in H. rewrite snd_emit in H. cbn in H.
        apply Ok_inj in H as <-. split; [lia | exact F].
    + apply (f_equal snd) in H. cbn in H. discriminate H.
  - autorewrite with eff. do 2 eexists. split; [reflexivity|].
    split; [cbn; lia | constructor].
Qed.

End CollectorBehaviour.

(** ** The card, section by section *)

Section CardBehaviour.
Context {rt : PyRuntime}.

(** The sections of [format_daily_digest], each as the call that built
    it. *)
Lemma format_parts (self : TeamsFormatter) (data : pyval) (ai_summary : pystr)
    (card : pyval) :
  format_daily_digest self data ai_summary = Ok card ->
  exists jira_data github_data jira_live github_live body1 body2 post,
    py_get data "jira" (PDict []) = Ok jira_data /\
    py_get data "github" (PDict []) = Ok github_data /\
    has_data jira_data = Ok jira_live /\
    has_data github_data = Ok github_live /\
    card = card_of (body2 ++ post) /\
    (if jira_live
     then _add_jira_section (digest_head (team_name self) ai_summary) jira_data
          = Ok body1
     else body1 = digest_head (team_name self) ai_summary) /\
    (if github_live
     then
       exists bodyg has_key,
         _add_github_section body1 github_data = Ok bodyg /\
         py_contains "pr_analyses" github_data = Ok has_key /\
         if has_key
         then exists pa,
                py_getitem github_data "pr_analyses" = Ok pa /\
                if truthy pa
                then _add_pr_analyses_section bodyg pa = Ok body2
                else body2 = bodyg
         else body2 = bodyg
     else body2 = body1).
Proof.
  unfold format_daily_digest. cbv zeta. intros H.
  match type of H with
  | context [if truthy (PStr ai_summary) then ?a else ?b] =>
      assert (E0 : (if truthy (PStr ai_summary) then a else b)
                   = digest_head (team_name self) ai_summary)
        by (destruct ai_summary; reflexivity);
      rewrite E0 in H; clear E0
  end.
  apply bind_ok in H as (jira_data & Ej & H).
  apply bind_ok in H as (jira_live & Ejl & H).
  apply bind_ok in H as (body1 & H1 & H).
  apply bind_ok in H as (github_data & Eg & H).
  apply bind_ok in H as (github_live & Egl & H).
  apply bind_ok in H as (body2 & H2 & H).
  apply bind_ok in H as (db_data & _ & H).
  apply bind_ok in H as (db_live & _ & H).
  apply bind_ok in H as (body3 & H3 & H).
  assert (X3 : exists e3, body3 = body2 ++ e3).
  { destruct db_live.
    - apply database_section_extends in H3 as (e3 & -> & _). now exists e3.
    - apply Ok_inj in H3 as <-. exists []. now rewrite app_nil_r. }
  destruct X3 as (e3 & ->).
  apply bind_ok in H as (jq & _ & H).
  apply bind_ok in H as (quiet & _ & H).
  apply Ok_inj in H.
  exists jira_data, github_data, jira_live, github_live, body1, body2,
    (e3 ++ if quiet then [quiet_block] else []).
  repeat (split; [assumption|]).
  split; [subst card; destruct quiet; rewrite <- ?app_assoc, ?app_nil_r; reflexivity|].
  split.
  - destruct jira_live; [exact H1 | now apply Ok_inj in H1].
  - destruct github_live; [|now apply Ok_inj in H2].
    apply bind_ok in H2 as (bodyg & Hg & H2).
    apply bind_ok in H2 as (has_key & Ek & H2).
    exists bodyg, has_key. split; [exact Hg|]. split; [exact Ek|].
    destruct has_key; [|now apply Ok_inj in H2].
    apply bind_ok in H2 as (pa & Epa & H2). exists pa. split; [exact Epa|].
    destruct (truthy pa); [|now apply Ok_inj in H2].
    apply bind_ok in H2 as (pa' & Epa' & H2).
    rewrite Epa in Epa'. apply Ok_inj in Epa' as <-. exact H2.
Qed.

Lemma extension_of (P : pyval -> Prop) (body body' : list pyval) :
  extends P body body' -> exists ext, body' = body ++ ext.
Proof. intros (ext & -> & _). now exists ext. Qed.

(** X19. The card that [format_daily_digest] returns is the fixed
    envelope around its body, and the body begins with the greeting for
    the team, the sub-heading and, for a non-empty summary, the heading of
    the summary and the summary itself, unchanged. *)
Theorem card_envelope_and_head (self : TeamsFormatter) (data : pyval)
    (ai_summary : pystr) (card : pyval) :
  format_daily_digest self data ai_summary = Ok card ->
  card = card_of (card_body card) /\
  py_getitem card "type" = Ok (PStr (lit "message")) /\
  exists rest,
    card_body card = digest_head (team_name self) ai_summary ++ rest.
Proof.
  intros H.
  apply format_parts in H
    as (jd & gd & jl & gl & body1 & body2 & post & _ & _ & _ & _ & -> & H1 & H2).
  split; [reflexivity|]. split; [reflexivity|].
  change (card_body (card_of ?b)) with b.
  assert (X1 : exists e1, body1 = digest_head (team_name self) ai_summary ++ e1).
  { destruct jl.
    - apply jira_section_extends in H1. now apply extension_of in H1.
    - exists []. now rewrite app_nil_r. }
  destruct X1 as (e1 & ->).
  assert (X2 : exists e2,
             body2 = (digest_head (team_name self) ai_summary ++ e1) ++ e2).
  { destruct gl; [|exists []; now rewrite app_nil_r].
    destruct H2 as (bodyg & has_key & Hg & _ & H2).
    apply github_section_structure in Hg as (rm & gpre & group & gpost & _ & -> & _).
    assert (X : exists e, body2
                = ((digest_head (team_name self) ai_summary ++ e1)
                     ++ gpre ++ group ++ gpost) ++ e).
    { destruct has_key; [|exists []; now rewrite app_nil_r].
      destruct H2 as (pa & _ & H2).
      destruct (truthy pa); [|exists []; now rewrite app_nil_r].
      apply analyses_section_extends in H2. now apply extension_of in H2. }
    destruct X as (e & ->). eexists. rewrite <- !app_assoc. reflexivity. }
  destruct X2 as (e2 & ->).
  eexists. rewrite <- !app_assoc. reflexivity.
Qed.

(** ** Open pull requests on the card *)

Lemma all_strs_map (names : list pystr) : all_strs (map PStr names) = Ok names.
Proof.
  unfold all_strs. generalize 0%nat.
  induction names as [|s names IH]; intros i; cbn [map all_strs_from];
    [reflexivity|].
  now rewrite IH.
Qed.

Lemma py_get_of_getitem (v : pyval) (k : string) (x d : pyval) :
  py_getitem v k = Ok x -> py_get v k d = Ok x.
Proof.
  destruct v as [| | | | |kvs]; try discriminate. cbn [py_getitem py_get].
  destruct (dict_lookup kvs (lit k)); [trivial | discriminate].
Qed.

(** One open pull request of [_add_github_section]. *)
Lemma open_pr_line (s s' : list pyval) (pr : pyval) :
  (let reviewer_text := [] in
   has_reviewers <- py_get pr "reviewers" PNone ;;
   reviewer_text <-
     (if truthy has_reviewers then
        rs <- py_getitem pr "reviewers" ;;
        first2 <- py_slice_to 2 rs ;;
        joined <- py_join (lit ", ") first2 ;;
        let reviewer_text := lit " (Reviewers: " ++ joined ++ lit ")" in
        rs <- py_getitem pr "reviewers" ;;
        m <- py_len rs ;;
        if (2 <? m)%nat then
          rs <- py_getitem pr "reviewers" ;;
          m <- py_len rs ;;
          Ok (reviewer_text ++ lit " +" ++ dec (Z.of_nat m - 2) ++ lit " more")
        else Ok reviewer_text
      else Ok reviewer_text) ;;
   num <- py_getitem pr "number" ;;
   title <- py_getitem pr "title" ;;
   author <- py_getitem pr "author" ;;
   Ok (s ++
     [TextBlock (PStr ([bullet] ++ lit " #" ++ py_str num ++ lit ": "
                         ++ py_str title ++ lit " by " ++ py_str author
                         ++ reviewer_text))
        [wrap]])) = Ok s' ->
  exists b, s' = s ++ [b] /\ renders_open_pr pr b.
Proof.
  cbv zeta. intros H.
  apply bind_ok in H as (reviewers & Er & H).
  apply bind_ok in H as (note & Hn & H).
  apply bind_ok in H as (num & E1 & H).
  apply bind_ok in H as (title & E2 & H).
  apply bind_ok in H as (author & E3 & H).
  apply Ok_inj in H as <-.
  eexists. split; [reflexivity|].
  exists num, title, author, reviewers, note.
  repeat (split; [assumption|]). split; [|reflexivity].
  unfold reviewer_note. destruct (truthy reviewers) eqn:T.
  - split; [discriminate|]. intros names -> NE.
    apply bind_ok in Hn as (rs & Ers & Hn).
    rewrite (py_get_of_getitem pr "reviewers" rs PNone Ers) in Er.
    apply Ok_inj in Er as ->.
    cbn [py_slice_to bind] in Hn. unfold py_join in Hn. cbn [py_iter bind] in Hn.
    rewrite firstn_map, all_strs_map in Hn. cbn [bind] in Hn.
    rewrite Ers in Hn. cbn [bind py_len] in Hn. rewrite length_map in Hn.
    destruct (2 <? length names)%nat.
    + cbn [bind py_len] in Hn. rewrite ?length_map in Hn.
      apply Ok_inj in Hn as <-. now rewrite <- !app_assoc.
    + apply Ok_inj in Hn as <-. now rewrite app_nil_r.
  - apply Ok_inj in Hn as <-. split; [reflexivity|].
    intros names -> NE. destruct names; [congruence | discriminate T].
Qed.

Lemma for_each_appends {A} (f : list pyval -> A -> result (list pyval))
    (xs : list A) (s s' : list pyval) :
  (forall s x s', f s x = Ok s' -> exists b, s' = s ++ [b]) ->
  for_each xs s f = Ok s' ->
  exists ext, s' = s ++ ext.
Proof.
  intros Hf H. apply (extension_of (fun _ => True)).
  apply for_each_extends with (f := f) (xs := xs); [|exact H].
  intros s0 x s0' E. destruct (Hf s0 x s0' E) as (b & ->). now exists b.
Qed.

(** The open pull requests in the section of [_add_github_section]. *)
Lemma github_open_structure (body body' : list pyval) (github_data : pyval)
    (prs : list pyval) :
  py_get github_data "open_prs" (PList []) = Ok (PList prs) ->
  _add_github_section body github_data = Ok body' ->
  exists part rest,
    body' = body ++ github_heading :: part ++ rest /\
    open_group prs part.
Proof.
  unfold _add_github_section. cbv zeta. intros Eo H.
  rewrite Eo in H. cbn [bind] in H.
  apply bind_ok in H as (body1 & H1 & H).
  assert (X1 : exists part,
             body1 = body ++ github_heading :: part /\ open_group prs part).
  { destruct prs as [|p prs'].
    - cbn [truthy] in H1. apply Ok_inj in H1 as <-.
      exists [no_open_prs]. split; [|reflexivity].
      rewrite <- app_assoc. reflexivity.
    - change (truthy (PList (p :: prs'))) with true in H1.
      cbn [py_len py_slice_to py_iter bind] in H1.
      apply bind_ok in H1 as (body2 & H2 & H1).
      apply for_each_lines with (R := renders_open_pr) in H2;
        [|intros s x s' Hs; now apply open_pr_line].
      destruct H2 as (lines & -> & HF).
      unfold open_group.
      eexists. split; cycle 1.
      + exists lines. split; [exact HF | reflexivity].
      + destruct (5 <? length (p :: prs'))%nat; apply Ok_inj in H1 as <-;
          unfold github_heading, open_heading, open_overflow;
          rewrite <- ?app_assoc; cbn [app]; rewrite ?app_nil_r; reflexivity. }
  clear H1. destruct X1 as (part & -> & Hpart).
  apply bind_ok in H as (recent_merges & _ & H).
  apply bind_ok in H as (body2 & H2 & H).
  assert (X2 : exists e2, body2 = (body ++ github_heading :: part) ++ e2).
  { destruct (truthy recent_merges).
    - apply bind_ok in H2 as (n & _ & H2).
      apply bind_ok in H2 as (shown & _ & H2).
      apply bind_ok in H2 as (items & _ & H2).
      apply bind_ok in H2 as (body3 & H3 & H2).
      apply for_each_appends in H3 as (e & ->).
      2:{ clear. intros s x s' H.
          apply bind_ok in H as (num & _ & H). apply bind_ok in H as (ti & _ & H).
          apply bind_ok in H as (au & _ & H). apply Ok_inj in H as <-.
          eexists. reflexivity. }
      apply bind_ok in H2 as (n' & _ & H2).
      destruct (5 <? n')%nat.
      + apply bind_ok in H2 as (n'' & _ & H2). apply Ok_inj in H2 as <-.
        eexists. rewrite <- !app_assoc. reflexivity.
      + apply Ok_inj in H2 as <-. eexists. rewrite <- !app_assoc. reflexivity.
    - apply Ok_inj in H2 as <-. exists []. now rewrite app_nil_r. }
  clear H2. destruct X2 as (e2 & ->).
  apply bind_ok in H as (urgent_commits & _ & H).
  assert (X3 : exists e3, body' = ((body ++ github_heading :: part) ++ e2) ++ e3).
  { destruct (truthy urgent_commits).
    - apply bind_ok in H as (n & _ & H).
      apply bind_ok in H as (shown & _ & H).
      apply bind_ok in H as (items & _ & H).
      apply bind_ok in H as (body3 & H3 & H).
      apply for_each_appends in H3 as (e & ->).
      2:{ clear. intros s x s' H.
          apply bind_ok in H as (k & _ & H). apply bind_ok in H as (sm & _ & H).
          apply bind_ok in H as (st & _ & H). apply Ok_inj in H as <-.
          eexists. reflexivity. }
      apply bind_ok in H as (n' & _ & H).
      destruct (5 <? n')%nat.
      + apply bind_ok in H as (n'' & _ & H). apply Ok_inj in H as <-.
        eexists. rewrite <- !app_assoc. reflexivity.
      + apply Ok_inj in H as <-. eexists. rewrite <- !app_assoc. reflexivity.
    - apply Ok_inj in H as <-. exists []. now rewrite app_nil_r. }
  destruct X3 as (e3 & ->).
  exists part, (e2 ++ e3). split; [|exact Hpart].
  rewrite <- !app_assoc. reflexivity.
Qed.

(** X20. The open pull requests on the card.  Whenever the collector
    section is shown, its heading is followed by the fixed line for an
    empty list of open pull requests, or else by the count line, one line
    for each of the first five records (number, title, author, and the
    first two reviewers with the number of the others) and, beyond five
    records, the line that counts the rest. *)
Theorem open_pr_lines_on_card (self : TeamsFormatter) (data : pyval)
    (ai_summary : pystr) (card github_data : pyval) (prs : list pyval) :
  py_get data "github" (PDict []) = Ok github_data ->
  has_data github_data = Ok true ->
  py_get github_data "open_prs" (PList []) = Ok (PList prs) ->
  format_daily_digest self data ai_summary = Ok card ->
  exists pre part post,
    card_body card = pre ++ github_heading :: part ++ post /\
    open_group prs part /\
    length part = match prs with
                  | [] => 1%nat
                  | _ :: _ => (1 + Nat.min (length prs) 5
                               + (if (5 <? length prs)%nat then 1 else 0))%nat
                  end.
Proof.
  intros Eg L Eo H.
  apply format_parts in H
    as (jd & gd & jl & gl & body1 & body2 & post & _ & Eg' & _ & L' & -> & _ & H2).
  rewrite Eg in Eg'. apply Ok_inj in Eg' as <-.
  rewrite L in L'. apply Ok_inj in L' as <-.
  destruct H2 as (bodyg & has_key & Hg & _ & H2).
  apply (github_open_structure body1 bodyg github_data prs Eo) in Hg
    as (part & rest & -> & Hpart).
  assert (X : exists e, body2 = (body1 ++ github_heading :: part ++ rest) ++ e).
  { destruct has_key; [|exists []; now rewrite app_nil_r].
    destruct H2 as (pa & _ & H2).
    destruct (truthy pa); [|exists []; now rewrite app_nil_r].
    apply analyses_section_extends in H2. now apply extension_of in H2. }
  destruct X as (e & ->).
  change (card_body (card_of ?b)) with b.
  exists body1, part, (rest ++ e ++ post).
  split; [rewrite <- !app_assoc; cbn [app]; rewrite <- !app_assoc; reflexivity|].
  split; [exact Hpart|].
  unfold open_group in Hpart. destruct prs as [|p prs']; [now subst part|].
  destruct Hpart as (lines & HF & ->).
  apply Forall2_length in HF. rewrite length_firstn in HF. clear H2.
  set (n := length (p :: prs')) in *. clearbody n.
  cbn [length]. rewrite length_app, <- HF.
  destruct (5 <? n)%nat; cbn [length]; lia.
Qed.

(** ** Records that lack a key *)

(** X21. A new ticket without a [key] among the first five, after
    tickets that have their three fields, makes [format_daily_digest]
    raise [KeyError]: the formatter reads the fields of a ticket by
    subscript, and nothing catches the exception. *)
Theorem ticket_without_key_raises (self : TeamsFormatter) (data : pyval)
    (ai_summary : pystr) (jira : list (pystr * pyval)) (good : list pyval)
    (fields : list (pystr * pyval)) (rest : list pyval) :
  py_get data "jira" (PDict []) = Ok (PDict jira) ->
  dict_lookup jira (lit "new_tickets")
    = Some (PList (good ++ PDict fields :: rest)) ->
  (length good < 5)%nat ->
  Forall (has_keys ["key"; "summary"; "status"]%string) good ->
  dict_lookup fields (lit "key") = None ->
  format_daily_digest self data ai_summary
  = Raise (Exn KeyError (repr_str (lit "key"))).
Proof.
  intros Ej En Lg Hg Ek. unfold format_daily_digest. cbv zeta.
  rewrite Ej. cbn [bind].
  assert (T : truthy (PList (good ++ PDict fields :: rest)) = true)
    by (destruct good; reflexivity).
  rewrite (has_data_with_value jira (lit "new_tickets") _ En T).
  cbn [bind]. unfold _add_jira_section. cbv zeta.
  rewrite py_get_dict, En. cbn [bind]. rewrite T.
  cbn [bind py_len py_slice_to py_iter].
  rewrite firstn_app, (firstn_all2 (n := 5) good) by lia.
  destruct (5 - length good)%nat as [|k] eqn:Ek5; [lia|]. cbn [firstn].
  rewrite for_each_raises with (e := Exn KeyError (repr_str (lit "key")));
    [reflexivity | |].
  - clear -Hg. induction Hg as [|t good (kvs & -> & Hk) _ IH]; constructor; [|exact IH].
    intros s.
    destruct (py_getitem_dict kvs "key") as (k & ->);
      [now inversion Hk|].
    destruct (py_getitem_dict kvs "summary") as (sm & ->);
      [inversion Hk as [|? ? _ Hk']; now inversion Hk'|].
    destruct (py_getitem_dict kvs "status") as (st & ->);
      [inversion Hk as [|? ? _ Hk']; inversion Hk' as [|? ? _ Hk'']; now inversion Hk''|].
    cbn [bind]. eexists. reflexivity.
  - intros s. cbn [py_getitem]. rewrite Ek. reflexivity.
Qed.

(** ** Analyses on the card *)

(** The section of [_add_pr_analyses_section] for a non-empty list. *)
Lemma analyses_section_exact (body body' : list pyval) (a : pyval)
    (analyses : list pyval) :
  _add_pr_analyses_section body (PList (a :: analyses)) = Ok body' ->
  exists groups,
    Forall2 renders_analysis (firstn 3 (a :: analyses)) groups /\
    body' = body ++ analyses_heading :: concat groups
              ++ (if (3 <? length (a :: analyses))%nat
                  then [analyses_overflow (Z.of_nat (length (a :: analyses)) - 3)]
                  else []).
Proof.
  unfold _add_pr_analyses_section. cbv zeta.
  change (truthy (PList (a :: analyses))) with true.
  cbn [negb py_slice_to py_iter py_len bind]. intros H.
  apply bind_ok in H as (body1 & H1 & H).
  apply for_each_groups with (R := renders_analysis) in H1;
    [|intros s x s' Hs; now apply analysis_step].
  destruct H1 as (groups & -> & HF).
  exists groups. split; [exact HF|].
  destruct (3 <? length (a :: analyses))%nat; apply Ok_inj in H as <-;
    unfold analyses_heading, analyses_overflow;
    rewrite <- ?app_assoc; cbn [app]; rewrite ?app_nil_r; reflexivity.
Qed.

(** X22. The analyses on the card.  For a non-empty list under
    [pr_analyses], the card holds the heading of the analyses, the blocks
    of the first three records, in order, and, beyond three records, the
    line that counts the rest. *)
Theorem analyses_on_card (self : TeamsFormatter) (data : pyval)
    (ai_summary : pystr) (card github_data : pyval) (a : pyval)
    (analyses : list pyval) :
  py_get data "github" (PDict []) = Ok github_data ->
  py_getitem github_data "pr_analyses" = Ok (PList (a :: analyses)) ->
  format_daily_digest self data ai_summary = Ok card ->
  exists pre groups post,
    Forall2 renders_analysis (firstn 3 (a :: analyses)) groups /\
    card_body card
    = pre ++ analyses_heading :: concat groups
        ++ (if (3 <? length (a :: analyses))%nat
            then [analyses_overflow (Z.of_nat (length (a :: analyses)) - 3)]
            else [])
        ++ post.
Proof.
  intros Eg Ea H.
  apply format_parts in H
    as (jd & gd & jl & gl & body1 & body2 & post & _ & Eg' & _ & L' & -> & _ & H2).
  rewrite Eg in Eg'. apply Ok_inj in Eg' as <-.
  assert (gl = true) as ->.
  { destruct github_data as [| | | | |kvs]; try discriminate Ea.
    cbn [py_getitem] in Ea.
    destruct (dict_lookup kvs (lit "pr_analyses")) as [v|] eqn:El; [|discriminate Ea].
    apply Ok_inj in Ea as ->.
    rewrite (has_data_with_value kvs (lit "pr_analyses") _ El eq_refl) in L'.
    now apply Ok_inj in L'. }
  destruct H2 as (bodyg & has_key & _ & Ek & H2).
  destruct has_key; [|exfalso; eapply contains_getitem; eassumption].
  destruct H2 as (pa & Epa & H2). rewrite Ea in Epa. apply Ok_inj in Epa as <-.
  change (truthy (PList (a :: analyses))) with true in H2. cbv iota in H2.
  apply analyses_section_exact in H2 as (groups & HF & ->).
  change (card_body (card_of ?b)) with b.
  exists bodyg, groups, post. split; [exact HF|].
  rewrite <- !app_assoc. cbn [app]. rewrite <- !app_assoc. reflexivity.
Qed.

(** ** Completed tasks *)

Lemma for_each_sum {A} (c : A -> nat) (f : list pyval -> A -> result (list pyval))
    (xs : list A) (s s' : list pyval) :
  (forall s x s', f s x = Ok s' -> length s' = (length s + c x)%nat) ->
  for_each xs s f = Ok s' ->
  length s' = (length s + list_sum (map c xs))%nat.
Proof.
  intros Hf. revert s. induction xs as [|x xs IH]; intros s H; cbn [for_each] in H.
  - apply Ok_inj in H as <-. cbn. lia.
  - apply bind_ok in H as (s1 & H1 & H).
    apply Hf in H1. apply IH in H. cbn [map list_sum fold_right]. fold (list_sum (map c xs)). lia.
Qed.

Lemma for_each_count {A} (p : A -> bool)
    (f : list pyval -> A -> result (list pyval))
    (xs : list A) (s s' : list pyval) :
  (forall s x s', f s x = Ok s' ->
     length s' = (length s + if p x then 1 else 0)%nat) ->
  for_each xs s f = Ok s' ->
  length s' = (length s + length (filter p xs))%nat.
Proof.
  intros Hf. revert s. induction xs as [|x xs IH]; intros s H; cbn [for_each] in H.
  - apply Ok_inj in H as <-. cbn. lia.
  - apply bind_ok in H as (s1 & H1 & H).
    apply Hf in H1. apply IH in H. cbn [filter].
    destruct (p x); cbn [length]; lia.
Qed.

(** The completed tasks in the section of [_add_jira_section]. *)
Lemma jira_completed_structure (body body' : list pyval) (jira_data : pyval)
    (changes : list pyval) :
  py_get jira_data "status_changes" (PList []) = Ok (PList changes) ->
  _add_jira_section body jira_data = Ok body' ->
  (0 < completion_count changes)%nat ->
  exists pre post,
    body' = body ++ pre
              ++ completed_heading (Z.of_nat (completion_count changes)) :: post.
Proof.
  unfold _add_jira_section. cbv zeta. intros Es H Pos.
  apply bind_ok in H as (new_tickets & _ & H).
  apply bind_ok in H as (body1 & H1 & H).
  assert (X1 : exists e1, body1 = body ++ e1).
  { destruct (truthy new_tickets).
    - apply bind_ok in H1 as (n & _ & H1).
      apply bind_ok in H1 as (shown & _ & H1).
      apply bind_ok in H1 as (tickets & _ & H1).
      apply bind_ok in H1 as (body2 & H2 & H1).
      apply for_each_appends in H2 as (e & ->).
      2:{ clear. intros s x s' H.
          apply bind_ok in H as (k & _ & H). apply bind_ok in H as (sm & _ & H).
          apply bind_ok in H as (st & _ & H). apply Ok_inj in H as <-.
          eexists. reflexivity. }
      apply bind_ok in H1 as (n' & _ & H1).
      destruct (5 <? n')%nat.
      + apply bind_ok in H1 as (n'' & _ & H1). apply Ok_inj in H1 as <-.
        eexists. rewrite <- !app_assoc. reflexivity.
      + apply Ok_inj in H1 as <-. eexists. rewrite <- !app_assoc. reflexivity.
    - apply Ok_inj in H1 as <-. eexists. rewrite <- !app_assoc. reflexivity. }
  clear H1. destruct X1 as (e1 & ->).
  apply bind_ok in H as (blocked_tasks & _ & H).
  apply bind_ok in H as (body2 & H2 & H).
  assert (X2 : exists e2, body2 = (body ++ e1) ++ e2).
  { destruct (truthy blocked_tasks).
    - apply bind_ok in H2 as (n & _ & H2).
      apply bind_ok in H2 as (shown & _ & H2).
      apply bind_ok in H2 as (tasks & _ & H2).
      apply bind_ok in H2 as (body3 & H3 & H2).
      apply for_each_appends in H3 as (e & ->).
      2:{ clear. intros s x s' H.
          apply bind_ok in H as (k & _ & H). apply bind_ok in H as (sm & _ & H).
          apply bind_ok in H as (st & _ & H). apply Ok_inj in H as <-.
          eexists. reflexivity. }
      apply bind_ok in H2 as (n' & _ & H2).
      destruct (5 <? n')%nat.
      + apply bind_ok in H2 as (n'' & _ & H2). apply Ok_inj in H2 as <-.
        eexists. rewrite <- !app_assoc. reflexivity.
      + apply Ok_inj in H2 as <-. eexists. rewrite <- !app_assoc. reflexivity.
    - apply Ok_inj in H2 as <-. exists []. now rewrite app_nil_r. }
  clear H2. destruct X2 as (e2 & ->).
  rewrite Es in H. cbn [bind] in H.
  destruct changes as [|c0 cs]; [cbn in Pos; lia|].
  change (truthy (PList (c0 :: cs))) with true in H. cbn [py_iter bind] in H.
  apply bind_ok in H as (completed & Hc & H).
  assert (L : length completed = completion_count (c0 :: cs)).
  { apply for_each_sum
      with (c := fun change => length (filter is_completion (history change)))
      in Hc; [exact Hc|].
    clear. intros s change s' H.
    apply bind_ok in H as (scs_v & Ev & H).
    apply bind_ok in H as (scs & Ei & H).
    unfold history. rewrite Ev, Ei.
    apply for_each_count with (p := is_completion) in H; [exact H|].
    clear. intros s sc s' H.
    apply bind_ok in H as (to & Et & H).
    unfold is_completion. rewrite Et.
    destruct (py_in_literals to ["Done"; "Closed"; "Resolved"]%string).
    - apply bind_ok in H as (k & _ & H). apply bind_ok in H as (sm & _ & H).
      apply bind_ok in H as (a & _ & H). apply bind_ok in H as (t & _ & H).
      apply Ok_inj in H as <-. rewrite length_app. reflexivity.
    - apply Ok_inj in H as <-. lia. }
  destruct completed as [|d ds]; [cbn [length] in L; lia|].
  rewrite <- L.
  apply bind_ok in H as (body3 & H3 & H).
  apply for_each_appends in H3 as (e & ->).
  2:{ clear. intros s x s' H.
      apply bind_ok in H as (k & _ & H). apply bind_ok in H as (sm & _ & H).
      apply bind_ok in H as (a & _ & H). apply Ok_inj in H as <-.
      eexists. reflexivity. }
  destruct (5 <? length (d :: ds))%nat; apply Ok_inj in H as <-;
    unfold completed_heading; exists (e1 ++ e2); eexists;
    rewrite <- !app_assoc; cbn [app]; reflexivity.
Qed.

Lemma github_part_extends (github_live : bool) (github_data : pyval)
    (body1 body2 : list pyval) :
  (if github_live
   then
     exists bodyg has_key,
       _add_github_section body1 github_data = Ok bodyg /\
       py_contains "pr_analyses" github_data = Ok has_key /\
       if has_key
       then exists pa,
              py_getitem github_data "pr_analyses" = Ok pa /\
              if truthy pa
              then _add_pr_analyses_section bodyg pa = Ok body2
              else body2 = bodyg
       else body2 = bodyg
   else body2 = body1) ->
  exists e, body2 = body1 ++ e.
Proof.
  destruct github_live; [|intros ->; exists []; now rewrite app_nil_r].
  intros (bodyg & has_key & Hg & _ & H2).
  apply github_section_structure in Hg as (rm & gpre & group & gpost & _ & -> & _).
  assert (X : exists e, body2 = (body1 ++ gpre ++ group ++ gpost) ++ e).
  { destruct has_key; [|exists []; now rewrite app_nil_r].
    destruct H2 as (pa & _ & H2).
    destruct (truthy pa); [|exists []; now rewrite app_nil_r].
    apply analyses_section_extends in H2. now apply extension_of in H2. }
  destruct X as (e & ->). eexists. rewrite <- !app_assoc. reflexivity.
Qed.

(** X24. The completed tasks on the card are counted by status change,
    not by ticket: the count line gives the number of status changes, over
    all records of [status_changes], whose target is [Done], [Closed] or
    [Resolved] (in this spelling), so that a ticket closed twice counts
    twice. *)
Theorem completed_tasks_counted (self : TeamsFormatter) (data : pyval)
    (ai_summary : pystr) (card jira_data : pyval) (changes : list pyval) :
  py_get data "jira" (PDict []) = Ok jira_data ->
  py_get jira_data "status_changes" (PList []) = Ok (PList changes) ->
  (0 < completion_count changes)%nat ->
  format_daily_digest self data ai_summary = Ok card ->
  In (completed_heading (Z.of_nat (completion_count changes))) (card_body card).
Proof.
  intros Ej Es Pos H.
  apply format_parts in H
    as (jd & gd & jl & gl & body1 & body2 & post & Ej' & _ & L & _ & -> & H1 & H2).
  rewrite Ej in Ej'. apply Ok_inj in Ej' as <-.
  assert (jl = true) as ->.
  { destruct jira_data as [| | | | |kvs]; try discriminate Es.
    rewrite py_get_dict in Es. apply Ok_inj in Es.
    destruct (dict_lookup kvs (lit "status_changes")) as [v|] eqn:El.
    - subst v. destruct changes as [|c0 cs]; [cbn in Pos; lia|].
      rewrite (has_data_with_value kvs (lit "status_changes") _ El eq_refl) in L.
      now apply Ok_inj in L.
    - apply (f_equal (fun v => match v with PList l => l | _ => [] end)) in Es.
      subst changes. cbn in Pos. lia. }
  apply (jira_completed_structure _ _ _ changes Es) in H1 as (pre & rest & ->);
    [|exact Pos].
  apply github_part_extends in H2 as (e & ->).
  change (card_body (card_of ?b)) with b.
  rewrite <- !app_assoc. apply in_or_app. right. apply in_or_app. right.
  left. reflexivity.
Qed.

End CardBehaviour.

(** ** Lists in the prompt *)

Section PromptBehaviour.
Context {rt : PyRuntime}.

Lemma for_each_lines_of {A B} (R : A -> B -> Prop)
    (f : list B -> A -> result (list B)) (xs : list A) (s s' : list B) :
  (forall s x s', f s x = Ok s' -> exists b, s' = s ++ [b] /\ R x b) ->
  for_each xs s f = Ok s' ->
  exists lines, s' = s ++ lines /\ Forall2 R xs lines.
Proof.
  intros Hf. revert s. induction xs as [|x xs IH]; intros s H; cbn [for_each] in H.
  - apply Ok_inj in H as <-. exists []. split; [now rewrite app_nil_r | constructor].
  - apply bind_ok in H as (s1 & H1 & H).
    apply Hf in H1 as (b & -> & Hb).
    apply IH in H as (lines & -> & HF).
    exists (b :: lines). split; [now rewrite <- app_assoc | now constructor].
Qed.

(** X25. The prompt shows at most five open pull requests: for a
    non-empty list, the collector section of the prompt starts with the
    line that counts all of them, then has one line for each of the first
    five records (number, title, author, days open) and, beyond five
    records, the line that counts the rest; the lines on merges and
    commits follow. *)
Theorem prompt_lists_first_five_prs (g : list (pystr * pyval)) (p : pyval)
    (prs : list pyval) (text : pystr) :
  dict_lookup g (lit "open_prs") = Some (PList (p :: prs)) ->
  BedrockSummarizer._format_github_for_prompt (PDict g) = Ok text ->
  exists lines rest,
    Forall2 prompt_pr_line (firstn 5 (p :: prs)) lines /\
    text = join nl
             ((lit "OPEN PULL REQUESTS (" ++ dec (Z.of_nat (length (p :: prs)))
                 ++ lit "):")
                :: lines
                ++ (if (5 <? length (p :: prs))%nat
                    then [lit "- Plus " ++ dec (Z.of_nat (length (p :: prs)) - 5)
                            ++ lit " more open PRs"]
                    else [])
                ++ rest).
Proof.
  unfold BedrockSummarizer._format_github_for_prompt. cbv zeta. intros Eo H.
  rewrite py_get_dict, Eo in H. cbn [bind] in H.
  change (truthy (PList (p :: prs))) with true in H.
  cbn [bind py_len py_slice_to py_iter] in H.
  apply bind_ok in H as (sections1 & H1 & H).
  apply bind_ok in H1 as (sections0 & H0 & H1).
  apply for_each_lines_of with (R := prompt_pr_line) in H0.
  2:{ clear. intros s x s' H.
      apply bind_ok in H as (num & E1 & H). apply bind_ok in H as (ti & E2 & H).
      apply bind_ok in H as (au & E3 & H). apply bind_ok in H as (d & E4 & H).
      apply Ok_inj in H as <-. eexists. split; [reflexivity|].
      exists num, ti, au, d. auto. }
  destruct H0 as (lines & -> & HF).
  assert (X1 : sections1 =
            ([] ++ [lit "OPEN PULL REQUESTS (" ++ dec (Z.of_nat (length (p :: prs)))
                      ++ lit "):"]) ++ lines
              ++ (if (5 <? length (p :: prs))%nat
                  then [lit "- Plus " ++ dec (Z.of_nat (length (p :: prs)) - 5)
                          ++ lit " more open PRs"]
                  else [])).
  { destruct (5 <? length (p :: prs))%nat; apply Ok_inj in H1 as <-;
      rewrite <- ?app_assoc, ?app_nil_r; reflexivity. }
  clear H1. subst sections1.
  apply bind_ok in H as (recent_merges & _ & H).
  apply bind_ok in H as (sections2 & H2 & H).
  match type of H2 with
  | context [if truthy recent_merges then _ else Ok (?s ++ _)] =>
      assert (X2 : exists e2, sections2 = s ++ e2)
  end.
  { destruct (truthy recent_merges).
    - apply bind_ok in H2 as (n & _ & H2).
      apply bind_ok in H2 as (shown & _ & H2).
      apply bind_ok in H2 as (items & _ & H2).
      apply bind_ok in H2 as (s3 & H3 & H2).
      apply for_each_lines_of with (R := fun _ _ => True) in H3.
      2:{ clear. intros s x s' H.
          apply bind_ok in H as (num & _ & H). apply bind_ok in H as (ti & _ & H).
          apply bind_ok in H as (au & _ & H). apply Ok_inj in H as <-.
          eexists. split; [reflexivity | exact I]. }
      destruct H3 as (l3 & -> & _).
      apply bind_ok in H2 as (n' & _ & H2).
      destruct (5 <? n')%nat.
      + apply bind_ok in H2 as (n'' & _ & H2). apply Ok_inj in H2 as <-.
        eexists. rewrite <- !app_assoc. reflexivity.
      + apply Ok_inj in H2 as <-. eexists. rewrite <- !app_assoc. reflexivity.
    - apply Ok_inj in H2 as <-. eexists. reflexivity. }
  clear H2. destruct X2 as (e2 & ->).
  apply bind_ok in H as (urgent_commits & _ & H).
  apply bind_ok in H as (sections3 & H3 & H).
  match type of H3 with
  | context [if truthy urgent_commits then _ else Ok (?s ++ _)] =>
      assert (X3 : exists e3, sections3 = s ++ e3)
  end.
  { destruct (truthy urgent_commits).
    - apply bind_ok in H3 as (n & _ & H3).
      apply bind_ok in H3 as (shown & _ & H3).
      apply bind_ok in H3 as (items & _ & H3).
      apply bind_ok in H3 as (s4 & H4 & H3).
      apply for_each_lines_of with (R := fun _ _ => True) in H4.
      2:{ clear. intros s x s' H.
          apply bind_ok in H as (sh & _ & H). apply bind_ok in H as (m & _ & H).
          apply bind_ok in H as (au & _ & H). apply Ok_inj in H as <-.
          eexists. split; [reflexivity | exact I]. }
      destruct H4 as (l4 & -> & _).
      apply bind_ok in H3 as (n' & _ & H3).
      destruct (5 <? n')%nat.
      + apply bind_ok in H3 as (n'' & _ & H3). apply Ok_inj in H3 as <-.
        eexists. rewrite <- !app_assoc. reflexivity.
      + apply Ok_inj in H3 as <-. eexists. rewrite <- !app_assoc. reflexivity.
    - apply Ok_inj in H3 as <-. eexists. reflexivity. }
  clear H3. destruct X3 as (e3 & ->).
  apply Ok_inj in H as <-.
  exists lines, (e2 ++ e3). split; [exact HF|].
  f_equal. cbn [app]. rewrite <- !app_assoc. reflexivity.
Qed.

End PromptBehaviour.

(** ** Witnesses of the further properties *)

Lemma unconfigured_summarizer_is_silent_witness :
  snd (BedrockSummarizer.generate_summary (rt := ascii_runtime)
         idle_summarizer stale_digest (lit "Core"))
    = Ok (PStr (lit "Unable to generate AI summary due to configuration issues.")) /\
  requests (fst (BedrockSummarizer.generate_summary (rt := ascii_runtime)
                   idle_summarizer stale_digest (lit "Core"))) = [].
Proof.
  exact (proj1 (unconfigured_summarizer_is_silent (rt := ascii_runtime)
                  idle_summarizer eq_refl) stale_digest (lit "Core")).
Defined.

Lemma prompt_error_leaves_generate_summary_witness :
  BedrockSummarizer.generate_summary (rt := ascii_runtime)
    ready_summarizer stale_digest (lit "Core")
  = ([], Raise (Exn IndexError (lit "list index out of range"))).
Proof.
  apply (prompt_error_leaves_generate_summary (rt := ascii_runtime)
           ready_summarizer stale_digest (lit "Core")
           (Exn IndexError (lit "list index out of range")));
    [reflexivity | vm_compute; reflexivity].
Defined.

Lemma empty_status_history_raises_witness :
  BedrockSummarizer._format_jira_for_prompt (rt := ascii_runtime)
    (PDict stale_second)
  = Raise (Exn IndexError (lit "list index out of range")).
Proof.
  apply (empty_status_history_raises (rt := ascii_runtime) stale_second
           [reclosed_ticket] unchanged_ticket []).
  - right. exists [ticket "APP-1"]. split; [reflexivity|].
    constructor; [|constructor].
    eexists. split; [reflexivity|]. repeat constructor; discriminate.
  - reflexivity.
  - cbn. lia.
  - constructor; [|constructor].
    do 2 eexists. split; [reflexivity|]. split; [discriminate|].
    split; [reflexivity|]. split; [discriminate|].
    eexists. split; [reflexivity|]. repeat constructor; discriminate.
  - reflexivity.
Defined.


Lemma generate_custom_text_reads_answer_witness :
  snd (BedrockSummarizer.generate_custom_text ready_summarizer (lit "Hello"))
  = Ok (PStr (lit "OK")).
Proof.
  destruct (generate_custom_text_reads_answer ready_summarizer answering_client
              (lit "anthropic.claude-3") (lit "Hello")
              [(lit "content",
                PList [PDict [(lit "type", PStr (lit "text"));
                              (lit "text", PStr (lit "OK"))]])])
    as (H & _);
    [reflexivity | reflexivity | discriminate | reflexivity |].
  apply (H [(lit "type", PStr (lit "text")); (lit "text", PStr (lit "OK"))] []);
    reflexivity.
Defined.

Lemma prompt_sections_of_empty_data_witness :
  BedrockSummarizer._format_jira_for_prompt (rt := ascii_runtime) (PDict [])
  = Ok (join nl [lit "NEW TICKETS: None in the last 24 hours";
                 nl ++ lit "STATUS CHANGES: None in the last 24 hours";
                 nl ++ lit "BLOCKED TASKS: None currently"]) /\
  BedrockSummarizer._format_github_for_prompt (rt := ascii_runtime)
    (PDict empty_collection)
  = Ok (join nl [lit "OPEN PULL REQUESTS: None currently";
                 nl ++ lit "RECENT MERGES: None in the last 24 hours";
                 nl ++ lit "URGENT COMMITS: None in the last 24 hours"]).
Proof.
  destruct (prompt_sections_of_empty_data (rt := ascii_runtime) [] empty_collection)
    as [J G].
  split; [apply J; exact I | apply G; reflexivity].
Defined.

Lemma simple_summary_depends_on_counts_witness :
  BedrockSummarizer.generate_simple_summary idle_summarizer three_tickets (lit "Core")
  = BedrockSummarizer.generate_simple_summary ready_summarizer other_three_tickets
      (lit "Core").
Proof.
  apply (simple_summary_depends_on_counts idle_summarizer ready_summarizer
           three_tickets other_three_tickets (lit "Core")).
  intros section key H.
  repeat (destruct H as [H|H];
          [apply (f_equal fst) in H as Hs; apply (f_equal snd) in H;
           cbn [fst snd] in Hs, H; subst section key;
           eexists; split; reflexivity|]).
  destruct H.
Defined.

Lemma simple_summary_recommendation_witness :
  exists s pre,
    BedrockSummarizer.generate_simple_summary idle_summarizer busy_digest (lit "Core")
      = Ok s /\
    s = pre ++ lit " Priority should be given to resolving the "
          ++ dec 2 ++ lit " blocked tasks.".
Proof.
  assert (Hs : exists s,
             BedrockSummarizer.generate_simple_summary idle_summarizer busy_digest
               (lit "Core") = Ok s)
    by (eexists; vm_compute; reflexivity).
  destruct Hs as (s & Hs).
  destruct (proj1 (simple_summary_recommendation idle_summarizer busy_digest
                     (lit "Core") 2 1 s eq_refl eq_refl Hs)) as (pre & E);
    [lia|].
  now exists s, pre.
Defined.

Lemma open_prs_listed_witness :
  exists records,
    snd (get_open_prs (rt := ascii_runtime) example_world example_collector)
      = Ok records /\
    Forall2 (is_open_pr_record (rt := ascii_runtime) example_world)
      [(lit "octo/app", example_pr)] records.
Proof.
  apply (open_prs_listed (rt := ascii_runtime) example_world example_collector
           example_github [(lit "octo/app", example_pr)]); reflexivity.
Defined.


Lemma failed_scan_returns_nothing_witness :
  exists t e,
    get_open_prs (rt := ascii_runtime) example_world broken_collector
    = (t ++ [Log ERROR (lit "Error fetching open PRs: " ++ exn_message e)], Ok []).
Proof.
  apply (proj1 (failed_scan_returns_nothing (rt := ascii_runtime) example_world
                  broken_collector example_github eq_refl)).
  reflexivity.
Defined.

Lemma collect_outcome_witness :
  snd (collect (rt := ascii_runtime) repoless_world repoless_collector)
    = Ok (PDict empty_collection) /\
  snd (collect (rt := ascii_runtime) example_world example_collector)
    = Raise timezone_error.
Proof.
  split.
  - apply (proj1 (collect_outcome (rt := ascii_runtime) repoless_world
                    repoless_collector) eq_refl).
  - apply (proj2 (collect_outcome (rt := ascii_runtime) example_world
                    example_collector) eq_refl).
Defined.

Lemma no_repositories_nothing_collected_witness :
  not_configured repoless_collector = true /\
  snd (get_open_prs (rt := ascii_runtime) repoless_world repoless_collector) = Ok [] /\
  snd (get_urgent_commits (rt := ascii_runtime) repoless_world repoless_collector)
    = Ok [].
Proof.
  destruct (no_repositories_nothing_collected (rt := ascii_runtime) repoless_world
              [Log INFO (lit "GitHub client initialized successfully")]
              repoless_collector eq_refl eq_refl)
    as (NC & O & _ & U & _).
  repeat split; assumption.
Defined.

Lemma analyze_pr_outcome_witness :
  exists t rec,
    analyze_pr (rt := ascii_runtime) example_collector (lit "octo/app") 7
      = (t, Ok rec) /\
    py_get rec "title" PNone = Ok (PStr (lit "Add cache")) /\
    py_get rec "author" PNone = Ok (PStr (lit "alice")).
Proof.
  destruct (analyze_pr_outcome (rt := ascii_runtime) example_collector
              example_github (lit "octo/app") 7 eq_refl)
    as (t & rec & E & H).
  change (fetched example_github (lit "octo/app") 7)
    with (Some (example_pr, [example_file])) in H.
  destruct H as (_ & _ & T & A & _).
  now exists t, rec.
Defined.

Lemma card_envelope_and_head_witness :
  exists card rest,
    format_daily_digest (rt := ascii_runtime) core_team no_activity (lit "All good")
      = Ok card /\
    card_body card = digest_head (lit "Core") (lit "All good") ++ rest.
Proof.
  assert (Hc : exists card,
             format_daily_digest (rt := ascii_runtime) core_team no_activity
               (lit "All good") = Ok card)
    by (eexists; vm_compute; reflexivity).
  destruct Hc as (card & Hc).
  destruct (card_envelope_and_head (rt := ascii_runtime) core_team no_activity
              (lit "All good") card Hc) as (_ & _ & rest & E).
  now exists card, rest.
Defined.

Lemma open_pr_lines_on_card_witness :
  exists card pre part post,
    format_daily_digest (rt := ascii_runtime) core_team
      (digest_with_open_prs seven_open_prs) [] = Ok card /\
    card_body card = pre ++ github_heading :: part ++ post /\
    open_group (rt := ascii_runtime) seven_open_prs part /\
    length part = 7%nat.
Proof.
  assert (Hc : exists card,
             format_daily_digest (rt := ascii_runtime) core_team
               (digest_with_open_prs seven_open_prs) [] = Ok card)
    by (eexists; vm_compute; reflexivity).
  destruct Hc as (card & Hc).
  destruct (open_pr_lines_on_card (rt := ascii_runtime) core_team
              (digest_with_open_prs seven_open_prs) [] card _ seven_open_prs
              eq_refl eq_refl eq_refl Hc)
    as (pre & part & post & E & G & L).
  now exists card, pre, part, post.
Defined.

Lemma ticket_without_key_raises_witness :
  format_daily_digest (rt := ascii_runtime) core_team keyless_digest []
  = Raise (Exn KeyError (lit "'key'")).
Proof.
  apply (ticket_without_key_raises (rt := ascii_runtime) core_team keyless_digest []
           [(lit "new_tickets",
             PList [ticket "APP-1";
                    PDict [(lit "summary", PStr (lit "Investigate"));
                           (lit "status", PStr (lit "Open"))]])]
           [ticket "APP-1"]
           [(lit "summary", PStr (lit "Investigate"));
            (lit "status", PStr (lit "Open"))] []);
    [reflexivity | reflexivity | cbn; lia | | reflexivity].
  constructor; [|constructor].
  eexists. split; [reflexivity|]. repeat constructor; discriminate.
Defined.

Lemma analyses_on_card_witness :
  exists card pre groups post,
    format_daily_digest (rt := ascii_runtime) core_team
      (digest_with_analyses (repeat (analysis_of_length 10) 4)) [] = Ok card /\
    length groups = 3%nat /\
    card_body card
    = pre ++ analyses_heading :: concat groups
        ++ [analyses_overflow 1] ++ post.
Proof.
  assert (Hc : exists card,
             format_daily_digest (rt := ascii_runtime) core_team
               (digest_with_analyses (repeat (analysis_of_length 10) 4)) []
             = Ok card)
    by (eexists; vm_compute; reflexivity).
  destruct Hc as (card & Hc).
  destruct (analyses_on_card (rt := ascii_runtime) core_team
              (digest_with_analyses (repeat (analysis_of_length 10) 4)) [] card _
              (analysis_of_length 10) (repeat (analysis_of_length 10) 3)
              eq_refl eq_refl Hc)
    as (pre & groups & post & F & E).
  exists card, pre, groups, post. split; [exact Hc|]. split.
  - apply Forall2_length in F. now rewrite <- F.
  - exact E.
Defined.

Lemma completed_tasks_counted_witness :
  exists card,
    format_daily_digest (rt := ascii_runtime) core_team reclosed_digest [] = Ok card /\
    In (completed_heading 2) (card_body card).
Proof.
  assert (Hc : exists card,
             format_daily_digest (rt := ascii_runtime) core_team reclosed_digest []
             = Ok card)
    by (eexists; vm_compute; reflexivity).
  destruct Hc as (card & Hc). exists card. split; [exact Hc|].
  apply (completed_tasks_counted (rt := ascii_runtime) core_team reclosed_digest []
           card _ [reclosed_ticket] eq_refl eq_refl); [vm_compute; lia | exact Hc].
Defined.

Lemma prompt_lists_first_five_prs_witness :
  exists text lines rest,
    BedrockSummarizer._format_github_for_prompt (rt := ascii_runtime)
      (PDict [(lit "open_prs", PList seven_open_prs)]) = Ok text /\
    length lines = 5%nat /\
    text = join nl
             ((lit "OPEN PULL REQUESTS (" ++ dec 7 ++ lit "):")
                :: lines ++ [lit "- Plus " ++ dec 2 ++ lit " more open PRs"] ++ rest).
Proof.
  assert (Ht : exists text,
             BedrockSummarizer._format_github_for_prompt (rt := ascii_runtime)
               (PDict [(lit "open_prs", PList seven_open_prs)]) = Ok text)
    by (eexists; vm_compute; reflexivity).
  destruct Ht as (text & Ht).
  destruct (prompt_lists_first_five_prs (rt := ascii_runtime)
              [(lit "open_prs", PList seven_open_prs)]
              (open_pr_record 1) (map open_pr_record [2; 3; 4; 5; 6; 7]%Z) text
              eq_refl Ht)
    as (lines & rest & F & E).
  exists text, lines, rest. split; [exact Ht|]. split; [|exact E].
  apply Forall2_length in F. symmetry. exact F.
Defined.
